(** * Serverless TLQ pipeline: Transform, Load and Query

    A shallow embedding of [Transform.py] (the row enrichment and
    de-duplication loop of [transform], and the file it writes), of
    [Load.py] (the conversion of the rows of a file into records of the
    table) and of [Query.py] (the construction of the two SQL statements of
    [lambda_handler], their evaluation by the database engine and the
    shaping of the response), with the properties of the design document
    stated and settled against them, and further properties of the code. *)

From Stdlib Require Import ZArith Floats String Ascii List Lia Bool DecimalString.
From stdpp Require Import gmap strings list sorting.

Local Open Scope string_scope.
Local Open Scope list_scope.
Local Open Scope Z_scope.

(** ** Python exceptions and results *)

(** The exceptions the modelled code can raise.  [SqlError] is an
    exception of [cursor.execute] whose message is not modelled, and
    [NoSuchColumn] its [OperationalError] with the message
    [no such column: name].  [OverflowError] is raised by the cursor for
    an integer parameter beyond 64 bits.  A [ValueError] carries its
    message; where the interpreter's message goes on with the text it
    could not convert, only the part before the colon is kept.
    [Unsupported] is not a Python exception: it
    marks an input on which the model declines to say what the interpreter
    or the engine does (text outside the modelled fragment), so that no
    theorem speaks about such inputs. *)
Inductive exn : Type :=
  | KeyError (key : string)
  | TypeError
  | ValueError (msg : string)
  | ZeroDivisionError
  | SqlError
  | NoSuchColumn (name : string)
  | OverflowError
  | Unsupported.

Inductive result (A : Type) : Type :=
  | Ok (a : A)
  | Raise (e : exn).
Arguments Ok {A} a.
Arguments Raise {A} e.

#[global] Instance result_ret : MRet result := fun A a => Ok a.
#[global] Instance result_bind : MBind result := fun A B f r =>
  match r with
  | Ok a => f a
  | Raise e => Raise e
  end.

(** ** Python values held by a row or returned in a response *)

Inductive value : Type :=
  | VNone
  | VStr (s : string)
  | VInt (z : Z)
  | VFloat (f : float).

(** A cell as [csv.DictReader] delivers it: a string, or [None] for a
    column the line is too short to fill. *)
Abbreviation cell := (option string).

Definition of_cell (c : cell) : value :=
  match c with
  | Some s => VStr s
  | None => VNone
  end.

(** ** datetime.strptime(_, '%m/%d/%Y') and date ordinals *)

Module Date.

Record date : Type := mkdate { year : Z; month : Z; day : Z }.

Definition is_digit (c : ascii) : bool :=
  let n := Z.of_N (N_of_ascii c) in (48 <=? n) && (n <=? 57).

Definition digit (c : ascii) : Z := Z.of_N (N_of_ascii c) - 48.

Definition in_range (lo hi : Z) (c : ascii) : bool :=
  is_digit c && (lo <=? digit c) && (digit c <=? hi).

Definition is_ascii (c : ascii) : bool := Z.of_N (N_of_ascii c) <? 128.

Fixpoint all_ascii (s : string) : bool :=
  match s with
  | EmptyString => true
  | String c s' => is_ascii c && all_ascii s'
  end.

(** *** The text of a date

    [strptime] matches the text against the regular expression it makes of
    the format: the alternatives of a directive are tried in order, each
    with what follows it, and the text may go on after the match. *)

(** One alternative: a value and the text left, when it matches at the
    head of the text. *)
Abbreviation alternative := (string -> option (Z * string)).

(** Two characters, read as a number of two digits. *)
Definition two (p1 p2 : ascii -> bool) : alternative := fun s =>
  match s with
  | String a (String b rest) =>
      if p1 a && p2 b then Some (10 * digit a + digit b, rest) else None
  | _ => None
  end.

(** One digit. *)
Definition one (p : ascii -> bool) : alternative := fun s =>
  match s with
  | String a rest => if p a then Some (digit a, rest) else None
  | EmptyString => None
  end.

(** A blank and one digit. *)
Definition blank_one (p : ascii -> bool) : alternative := fun s =>
  match s with
  | String a (String b rest) =>
      if Ascii.eqb a " " && p b then Some (digit b, rest) else None
  | _ => None
  end.

(** The first alternative that matches and after which [k] matches. *)
Fixpoint alternatives {A} (alts : list alternative) (s : string)
    (k : Z -> string -> option A) : option A :=
  match alts with
  | [] => None
  | alt :: alts' =>
      match alt s with
      | Some (v, rest) =>
          match k v rest with
          | Some x => Some x
          | None => alternatives alts' s k
          end
      | None => alternatives alts' s k
      end
  end.

(** The directive [%m]: the pattern [1[0-2]|0[1-9]|[1-9]]. *)
Definition month_field : list alternative :=
  [two (Ascii.eqb "1") (in_range 0 2); two (Ascii.eqb "0") (in_range 1 9);
   one (in_range 1 9)].

(** The directive [%d]: the pattern [3[0-1]|[1-2]\d|0[1-9]|[1-9]| [1-9]]. *)
Definition day_field : list alternative :=
  [two (Ascii.eqb "3") (in_range 0 1); two (in_range 1 2) is_digit;
   two (Ascii.eqb "0") (in_range 1 9); one (in_range 1 9); blank_one (in_range 1 9)].

(** The directive [%Y]: four digits. *)
Definition year_field : alternative := fun s =>
  match s with
  | String a (String b (String c (String d rest))) =>
      if is_digit a && is_digit b && is_digit c && is_digit d
      then Some (1000 * digit a + 100 * digit b + 10 * digit c + digit d, rest)
      else None
  | _ => None
  end.

(** The slash of the format. *)
Definition slash (s : string) : option string :=
  match s with
  | String c rest => if Ascii.eqb c "/" then Some rest else None
  | EmptyString => None
  end.

(** [format_regex.match(data_string)] for the format [%m/%d/%Y]: the
    month, the day, the year and the text after the match. *)
Definition match_format (s : string) : option (Z * Z * Z * string) :=
  alternatives month_field s (fun m s1 =>
    s2 ← slash s1;
    alternatives day_field s2 (fun d s3 =>
      s4 ← slash s3;
      match year_field s4 with
      | Some (y, rest) => Some (m, d, y, rest)
      | None => None
      end)).

(** *** [repr] of a string of ASCII characters *)

Definition squote : ascii := "'".
Definition dquote : ascii := Ascii.ascii_of_nat 34.
Definition backslash : ascii := "\".

Fixpoint contains (c : ascii) (s : string) : bool :=
  match s with
  | EmptyString => false
  | String a s' => Ascii.eqb a c || contains c s'
  end.

Definition hex_digit (n : N) : ascii :=
  ascii_of_N (if (n <? 10)%N then 48 + n else 87 + n)%N.

(** One character between the quotes [q]. *)
Definition repr_char (q : ascii) (c : ascii) : string :=
  let n := N_of_ascii c in
  if Ascii.eqb c q || Ascii.eqb c backslash then String backslash (String c EmptyString)
  else if (n =? 9)%N then "\t"
  else if (n =? 10)%N then "\n"
  else if (n =? 13)%N then "\r"
  else if (n <? 32)%N || (n =? 127)%N
  then String backslash
         (String "x" (String (hex_digit (n / 16)) (String (hex_digit (n mod 16)) "")))
  else String c EmptyString.

Fixpoint repr_chars (q : ascii) (s : string) : string :=
  match s with
  | EmptyString => String q EmptyString
  | String c s' => repr_char q c +:+ repr_chars q s'
  end.

(** The string between single quotes, or between double quotes when it
    holds a single quote and no double quote. *)
Definition repr (s : string) : string :=
  let q := if contains squote s && negb (contains dquote s) then dquote else squote in
  String q (repr_chars q s).

Definition is_leap (y : Z) : bool :=
  (y mod 4 =? 0) && (negb (y mod 100 =? 0) || (y mod 400 =? 0)).

Definition days_in_month (y m : Z) : Z :=
  match m with
  | 1 => 31 | 2 => if is_leap y then 29 else 28 | 3 => 31 | 4 => 30
  | 5 => 31 | 6 => 30 | 7 => 31 | 8 => 31 | 9 => 30 | 10 => 31
  | 11 => 30 | 12 => 31
  | _ => 0
  end.

(** Days in the year [y] before the first of month [m]. *)
Definition days_before_month (y m : Z) : Z :=
  match m with
  | 1 => 0 | 2 => 31 | 3 => 59 | 4 => 90 | 5 => 120 | 6 => 151
  | 7 => 181 | 8 => 212 | 9 => 243 | 10 => 273 | 11 => 304 | 12 => 334
  | _ => 0
  end + (if (2 <? m) && is_leap y then 1 else 0).

(** Days before January 1st of year [y]. *)
Definition days_before_year (y : Z) : Z :=
  let p := y - 1 in p * 365 + p / 4 - p / 100 + p / 400.

(** [date.toordinal()]: 1 for 1 January of year 1. *)
Definition toordinal (d : date) : Z :=
  days_before_year (year d) + days_before_month (year d) (month d) + day d.

Definition valid (d : date) : bool :=
  (1 <=? year d) && (year d <=? 9999) &&
  (1 <=? month d) && (month d <=? 12) &&
  (1 <=? day d) && (day d <=? days_in_month (year d) (month d)).

(** [datetime.strptime(s, '%m/%d/%Y')].  The text must begin with month,
    day and year separated by slashes, and end there; then the date is
    made, which must exist.  Text with a non-ASCII character is outside the
    model (the interpreter's [\d] also accepts non-ASCII decimal
    digits). *)
Definition strptime (s : string) : result date :=
  if negb (all_ascii s) then Raise Unsupported
  else
    match match_format s with
    | None =>
        Raise (ValueError ("time data " +:+ repr s +:+
                           " does not match format '%m/%d/%Y'"))
    | Some (m, d, y, rest) =>
        match rest with
        | String _ _ => Raise (ValueError ("unconverted data remains: " +:+ rest))
        | EmptyString =>
            let dt := mkdate y m d in
            if y =? 0 then Raise (ValueError "year 0 is out of range")
            else if valid dt then Ok dt
            else Raise (ValueError "day is out of range for month")
        end
    end.

(** [(b - a).days] for two dates. *)
Definition days_between (a b : date) : Z := toordinal b - toordinal a.

(** Calendar order on dates: by year, then month, then day. *)
Definition precedes (a b : date) : Prop :=
  year a < year b \/
  (year a = year b /\ (month a < month b \/ (month a = month b /\ day a < day b))).

(** *** Whole days, counted on the calendar

    The difference of two dates in whole days, said without ordinals: the
    number of times one passes from a day to the next to get from the one
    date to the other. *)

(** The day after [d]: the next day of the month, else the first of the
    next month, else the first of January of the next year. *)
Definition next_day (d : date) : date :=
  if day d <? days_in_month (year d) (month d) then mkdate (year d) (month d) (day d + 1)
  else if month d <? 12 then mkdate (year d) (month d + 1) 1
  else mkdate (year d + 1) 1 1.

(** The date [n] days after [d]. *)
Fixpoint days_later (n : nat) (d : date) : date :=
  match n with
  | O => d
  | S n' => days_later n' (next_day d)
  end.

(** A day of the calendar, in whatever year from year 1 on. *)
Definition in_calendar (d : date) : Prop :=
  1 <= year d /\ 1 <= month d <= 12 /\ 1 <= day d <= days_in_month (year d) (month d).

End Date.

(** ** Transform.py *)

Module Transform.

(** A row as [csv.DictReader] yields it, and as [transform] emits it. *)
Abbreviation raw_row := (gmap string cell).
Abbreviation out_row := (gmap string value).

(** [row[k]] *)
Definition getitem (row : raw_row) (k : string) : result cell :=
  match row !! k with
  | Some c => Ok c
  | None => Raise (KeyError k)
  end.

(** [datetime.strptime(c, '%m/%d/%Y')] on a cell. *)
Definition strptime_cell (c : cell) : result Date.date :=
  match c with
  | Some s => Date.strptime s
  | None => Raise TypeError
  end.

Definition order_priority_mapping : gmap string string :=
  list_to_map [("H", "High"); ("C", "Critical"); ("L", "Low"); ("M", "Medium")].

(** [order_priority_mapping.get(c, 'Unknown')] *)
Definition priority (c : cell) : string :=
  match c with
  | Some code => default "Unknown" (order_priority_mapping !! code)
  | None => "Unknown"
  end.

(** Truth value of a float: false exactly for the two zeros. *)
Definition float_truthy (x : float) : bool := negb (PrimFloat.eqb x 0%float).

(** [a / b] on floats. *)
Definition float_truediv (a b : float) : result float :=
  if PrimFloat.eqb b 0%float then Raise ZeroDivisionError
  else Ok (PrimFloat.div a b).

(** [total_profit / total_revenue if total_revenue else 0] *)
Definition gross_margin (total_profit total_revenue : float) : result value :=
  if float_truthy total_revenue
  then q ← float_truediv total_profit total_revenue; mret (VFloat q)
  else mret (VInt 0).

(** The state of the loop of [transform]: the set [seen_order_ids] and
    the list [transformed_rows]. *)
Abbreviation loop_state := (gset cell * list out_row)%type.

Section WithFloat.

(** The builtin [float] applied to a string: [None] when it raises
    [ValueError].  Its parsing of decimal text is the interpreter's and
    is left as a parameter.  The message of its [ValueError] goes on with
    a colon and the text; the model keeps what is before the colon. *)
Variable py_float : string -> option float.

Definition float_cell (c : cell) : result float :=
  match c with
  | Some s =>
      match py_float s with
      | Some x => Ok x
      | None => Raise (ValueError "could not convert string to float")
      end
  | None => Raise TypeError
  end.

(** The body of the loop after the duplicate test: the three derived
    fields are computed in the order of the source and stored in the
    row.  The keys the source assigns are not among those it reads
    afterwards, so every read is made on the row as the reader gave it. *)
Definition enrich (row : raw_row) : result out_row :=
  od ← getitem row "Order Date";
  order_date ← strptime_cell od;
  sd ← getitem row "Ship Date";
  ship_date ← strptime_cell sd;
  let row1 : out_row :=
    <["Order Processing Time" := VInt (Date.days_between order_date ship_date)]>
      (of_cell <$> row) in
  op ← getitem row "Order Priority";
  let row2 : out_row := <["Order Priority" := VStr (priority op)]> row1 in
  tp ← getitem row "Total Profit";
  total_profit ← float_cell tp;
  tr ← getitem row "Total Revenue";
  total_revenue ← float_cell tr;
  gm ← gross_margin total_profit total_revenue;
  mret (<["Gross Margin" := gm]> row2).

(** One iteration: a row whose Order ID was seen is skipped; otherwise
    the ID is recorded, the row enriched and appended.  An exception of
    [enrich] ends the whole loop, so that the ID was recorded before it is
    not observable. *)
Definition loop_body (st : loop_state) (row : raw_row) : result loop_state :=
  oid ← getitem row "Order ID";
  if decide (oid ∈ st.1) then mret st
  else
    let seen_order_ids := {[oid]} ∪ st.1 in
    out ← enrich row;
    mret (seen_order_ids, st.2 ++ [out]).

Fixpoint for_each (rows : list raw_row) (st : loop_state) : result loop_state :=
  match rows with
  | [] => Ok st
  | row :: rest => st' ← loop_body st row; for_each rest st'
  end.

(** The loop of [transform], lines 86 to 109: the list [transformed_rows]
    at its end, which holds the rows handed to the writer, in order. *)
Definition transform (rows : list raw_row) : result (list out_row) :=
  st ← for_each rows (∅, []); mret (st.2).

(** The invariant of the loop: the emitted rows carry pairwise distinct
    Order IDs, all of them in the seen set. *)
Definition ids_ok (st : loop_state) : Prop :=
  NoDup ((.!! "Order ID") <$> st.2) /\
  forall o, o ∈ st.2 -> exists oid, o !! "Order ID" = Some (of_cell oid) /\ oid ∈ st.1.

End WithFloat.

(** An instance of the parameter for the sample rows: [float] on unsigned
    decimal integers below 2^53, where the conversion is exact.  It gives
    no value on any other text, which the samples do not contain. *)
Fixpoint digits_value (acc : Z) (s : string) : option Z :=
  match s with
  | EmptyString => Some acc
  | String c s' =>
      if Date.is_digit c then digits_value (10 * acc + Date.digit c) s'
      else None
  end.

Definition float_of_digits (s : string) : option float :=
  match s with
  | EmptyString => None
  | _ =>
      match digits_value 0 s with
      | Some n =>
          if n <? 2 ^ 53 then Some (PrimFloat.of_uint63 (Uint63.of_Z n)) else None
      | None => None
      end
  end.

End Transform.

(** ** Sample rows *)

Module Sample.

(** A raw row with the columns [transform] reads. *)
Definition raw (oid od sd prio profit revenue : string) : Transform.raw_row :=
  list_to_map
    [("Order ID", Some oid); ("Order Date", Some od); ("Ship Date", Some sd);
     ("Order Priority", Some prio); ("Total Profit", Some profit);
     ("Total Revenue", Some revenue)].

Definition row_a : Transform.raw_row := raw "100" "1/1/2020" "1/5/2020" "H" "10" "40".
Definition row_b : Transform.raw_row := raw "101" "1/5/2020" "1/1/2020" "X" "7" "0".
(** Same Order ID as [row_a], other values. *)
Definition row_c : Transform.raw_row := raw "100" "2/1/2020" "3/1/2020" "L" "1" "2".

Definition rows : list Transform.raw_row := [row_a; row_b; row_c].

(** What [enrich] makes of a raw row. *)
Definition enriched (oid od sd prio profit revenue : string)
    (opt : Z) (prio' : string) (gm : value) : Transform.out_row :=
  <["Gross Margin" := gm]>
    (<["Order Priority" := VStr prio']>
    (<["Order Processing Time" := VInt opt]>
    (of_cell <$> raw oid od sd prio profit revenue))).

Definition out_a : Transform.out_row :=
  enriched "100" "1/1/2020" "1/5/2020" "H" "10" "40" 4 "High" (VFloat 0.25).
Definition out_b : Transform.out_row :=
  enriched "101" "1/5/2020" "1/1/2020" "X" "7" "0" (-4) "Unknown" (VInt 0).

Definition out : list Transform.out_row := [out_a; out_b].

End Sample.

(** ** The orders table *)

Module Store.

(** A row of the table [orders] as [Load.py] fills it when it stores no
    NULL (the surrogate key [id], which no condition and no aggregate of
    the handler names, is left out): text columns hold strings, INTEGER
    columns integers, REAL columns floats. *)
Record order : Type := mkorder {
  Region : string;
  Country : string;
  ItemType : string;
  SalesChannel : string;
  OrderPriority : string;
  OrderDate : string;
  OrderID : Z;
  ShipDate : string;
  UnitsSold : Z;
  UnitPrice : float;
  UnitCost : float;
  TotalRevenue : float;
  TotalCost : float;
  TotalProfit : float;
  OrderProcessingTime : Z;
  GrossMargin : float
}.

Inductive column : Type :=
  | CRegion | CCountry | CItemType | CSalesChannel | COrderPriority
  | COrderDate | COrderID | CShipDate | CUnitsSold | CUnitPrice | CUnitCost
  | CTotalRevenue | CTotalCost | CTotalProfit | COrderProcessingTime
  | CGrossMargin.

#[global] Instance column_eq_dec : EqDecision column.
Proof. solve_decision. Defined.

Definition column_name (c : column) : string :=
  match c with
  | CRegion => "Region" | CCountry => "Country" | CItemType => "ItemType"
  | CSalesChannel => "SalesChannel" | COrderPriority => "OrderPriority"
  | COrderDate => "OrderDate" | COrderID => "OrderID" | CShipDate => "ShipDate"
  | CUnitsSold => "UnitsSold" | CUnitPrice => "UnitPrice" | CUnitCost => "UnitCost"
  | CTotalRevenue => "TotalRevenue" | CTotalCost => "TotalCost"
  | CTotalProfit => "TotalProfit"
  | COrderProcessingTime => "OrderProcessingTime" | CGrossMargin => "GrossMargin"
  end.

Definition columns : list column :=
  [CRegion; CCountry; CItemType; CSalesChannel; COrderPriority; COrderDate;
   COrderID; CShipDate; CUnitsSold; CUnitPrice; CUnitCost; CTotalRevenue;
   CTotalCost; CTotalProfit; COrderProcessingTime; CGrossMargin].

(** The column an identifier names, spelled as in the table definition. *)
Definition column_of_name (s : string) : option column :=
  List.find (fun c => String.eqb (column_name c) s) columns.

Inductive affinity : Type := TEXT | INTEGER | REAL.

(** The declared type of a column. *)
Definition column_type (c : column) : affinity :=
  match c with
  | CRegion | CCountry | CItemType | CSalesChannel | COrderPriority
  | COrderDate | CShipDate => TEXT
  | COrderID | CUnitsSold | COrderProcessingTime => INTEGER
  | CUnitPrice | CUnitCost | CTotalRevenue | CTotalCost | CTotalProfit
  | CGrossMargin => REAL
  end.

(** The value of a TEXT column. *)
Definition text_of (c : column) (o : order) : option string :=
  match c with
  | CRegion => Some (Region o) | CCountry => Some (Country o)
  | CItemType => Some (ItemType o) | CSalesChannel => Some (SalesChannel o)
  | COrderPriority => Some (OrderPriority o) | COrderDate => Some (OrderDate o)
  | CShipDate => Some (ShipDate o)
  | _ => None
  end.

(** The value of an INTEGER column. *)
Definition integer_of (c : column) (o : order) : option Z :=
  match c with
  | COrderID => Some (OrderID o) | CUnitsSold => Some (UnitsSold o)
  | COrderProcessingTime => Some (OrderProcessingTime o)
  | _ => None
  end.

End Store.

(** ** The database engine on the statements of Query.py

    [cursor.execute] and [fetchall] are the engine's, not the program's.
    They are modelled on the statements the program can send: one of its
    two fixed heads followed by a tail [WHERE ... GROUP BY ...] whose
    condition is built from comparisons [operand = operand] of TEXT columns
    and string literals, joined by AND and OR, and whose grouping terms are
    TEXT or INTEGER columns; comments are read as the engine reads them.
    A statement outside this fragment yields [Unsupported].  A statement
    with a NUL character, with a string literal left open or with more
    grouping terms than the engine allows yields [SqlError], and a grouping
    term that names nothing yields [NoSuchColumn], the exceptions
    [cursor.execute] raises on them. *)

Module Sql.
Import Store.

Inductive token : Type :=
  | TId (s : string)
  | TStr (s : string)
  | TEq
  | TComma.

(** The states of the tokenizer: between two tokens, in an identifier, in
    a string literal, after a quote met in a string literal; after one
    dash, in a comment that runs to the end of the line, after one slash,
    after the two characters that open a comment, in that comment, and in
    it after a star. *)
Inductive lex_state : Type :=
  | LStart
  | LIdent (acc : string)
  | LStr (acc : string)
  | LStrQ (acc : string)
  | LDash
  | LLine
  | LSlash
  | LBlockOpen
  | LBlock
  | LBlockStar.

Definition code (c : ascii) : Z := Z.of_N (N_of_ascii c).

(** Space, tab, line feed, form feed and carriage return. *)
Definition is_space (c : ascii) : bool :=
  let n := code c in
  (n =? 32) || (n =? 9) || (n =? 10) || (n =? 12) || (n =? 13).

Definition is_ident_start (c : ascii) : bool :=
  let n := code c in
  ((65 <=? n) && (n <=? 90)) || ((97 <=? n) && (n <=? 122)) || (n =? 95).

Definition is_ident_char (c : ascii) : bool :=
  is_ident_start c || Date.is_digit c.

Definition is_quote (c : ascii) : bool := Ascii.eqb c "'".

Fixpoint all_ident_chars (s : string) : bool :=
  match s with
  | EmptyString => true
  | String c s' => is_ident_char c && all_ident_chars s'
  end.

(** A text that the tokenizer reads as one identifier. *)
Definition is_identifier (s : string) : bool :=
  match s with
  | EmptyString => false
  | String c s' => is_ident_start c && all_ident_chars s'
  end.

Definition snoc (s : string) (c : ascii) : string := s +:+ String c EmptyString.

(** A character met between two tokens. *)
Definition start_char (c : ascii) : result (list token * lex_state) :=
  if is_space c then Ok ([], LStart)
  else if is_ident_start c then Ok ([], LIdent (String c EmptyString))
  else if is_quote c then Ok ([], LStr EmptyString)
  else if Ascii.eqb c "=" then Ok ([TEq], LStart)
  else if Ascii.eqb c "," then Ok ([TComma], LStart)
  else if Ascii.eqb c "-" then Ok ([], LDash)
  else if Ascii.eqb c "/" then Ok ([], LSlash)
  else Raise Unsupported.

(** One character of the statement.  Inside a string literal a quote
    either ends the literal or, doubled, stands for one quote.  Two dashes
    open a comment that ends with the line; a slash and a star open a
    comment that ends with the next star followed by a slash.  A dash or a
    slash alone is an operator, outside the fragment. *)
Definition lex_step (st : lex_state) (c : ascii) : result (list token * lex_state) :=
  match st with
  | LStart => start_char c
  | LIdent acc =>
      if is_ident_char c then Ok ([], LIdent (snoc acc c))
      else p ← start_char c; mret (TId acc :: p.1, p.2)
  | LStr acc =>
      if is_quote c then Ok ([], LStrQ acc) else Ok ([], LStr (snoc acc c))
  | LStrQ acc =>
      if is_quote c then Ok ([], LStr (snoc acc c))
      else p ← start_char c; mret (TStr acc :: p.1, p.2)
  | LDash => if Ascii.eqb c "-" then Ok ([], LLine) else Raise Unsupported
  | LLine => if code c =? 10 then Ok ([], LStart) else Ok ([], LLine)
  | LSlash => if Ascii.eqb c "*" then Ok ([], LBlockOpen) else Raise Unsupported
  | LBlockOpen | LBlock =>
      if Ascii.eqb c "*" then Ok ([], LBlockStar) else Ok ([], LBlock)
  | LBlockStar =>
      if Ascii.eqb c "/" then Ok ([], LStart)
      else if Ascii.eqb c "*" then Ok ([], LBlockStar)
      else Ok ([], LBlock)
  end.

Fixpoint lex_run (st : lex_state) (s : string) : result (list token * lex_state) :=
  match s with
  | EmptyString => Ok ([], st)
  | String c s' =>
      p ← lex_step st c;
      q ← lex_run p.2 s';
      mret (p.1 ++ q.1, q.2)
  end.

(** The end of the statement: a string literal left open is an error of
    the engine; a comment left open ends there.  A slash and a star with
    nothing after them are two operators. *)
Definition lex_finish (st : lex_state) : result (list token) :=
  match st with
  | LStart => Ok []
  | LIdent acc => Ok [TId acc]
  | LStr _ => Raise SqlError
  | LStrQ acc => Ok [TStr acc]
  | LLine | LBlock | LBlockStar => Ok []
  | LDash | LSlash | LBlockOpen => Raise Unsupported
  end.

(** The states in which the tokenizer is inside a comment. *)
Definition in_comment (st : lex_state) : bool :=
  match st with
  | LLine | LBlock | LBlockStar => true
  | _ => false
  end.

Definition lex (s : string) : result (list token) :=
  p ← lex_run LStart s;
  fin ← lex_finish p.2;
  mret (p.1 ++ fin).

(** *** Conditions *)

Inductive operand : Type :=
  | Col (c : column)
  | Lit (s : string).

(** A condition in disjunctive form: OR binds weaker than AND, AND weaker
    than [=]. *)
Abbreviation comparison := (operand * operand)%type.
Abbreviation condition := (list (list comparison)).

Record plan : Type := mkplan {
  where_ : option condition;
  group_by : list column
}.

Definition is_kw (k : string) (t : token) : bool :=
  match t with
  | TId s => String.eqb s k
  | _ => false
  end.

(** The pieces of [ts] between the occurrences of the keyword [k]. *)
Fixpoint split_kw (k : string) (ts : list token) : list (list token) :=
  match ts with
  | [] => [[]]
  | t :: ts' =>
      if is_kw k t then [] :: split_kw k ts'
      else
        match split_kw k ts' with
        | piece :: pieces => (t :: piece) :: pieces
        | [] => [[t]]
        end
  end.

Definition parse_operand (t : token) : option operand :=
  match t with
  | TStr s => Some (Lit s)
  | TId s =>
      match column_of_name s with
      | Some c =>
          match column_type c with
          | TEXT => Some (Col c)
          | _ => None
          end
      | None => None
      end
  | _ => None
  end.

Definition parse_comparison (ts : list token) : option comparison :=
  match ts with
  | [a; TEq; b] =>
      a' ← parse_operand a; b' ← parse_operand b; mret (a', b')
  | _ => None
  end.

Definition parse_condition (ts : list token) : option condition :=
  mapM (fun conj => mapM parse_comparison (split_kw "AND" conj)) (split_kw "OR" ts).

Definition groupable (c : column) : bool :=
  match column_type c with
  | REAL => false
  | _ => true
  end.

(** *** Grouping terms *)

Definition upper (c : ascii) : ascii :=
  let n := N_of_ascii c in
  if ((97 <=? n) && (n <=? 122))%N then ascii_of_N (n - 32) else c.

Fixpoint upper_string (s : string) : string :=
  match s with
  | EmptyString => EmptyString
  | String c s' => String (upper c) (upper_string s')
  end.

(** The keywords of the engine, in capitals.  A keyword is read without
    regard to case. *)
Definition keywords : list string :=
  ["ABORT"; "ACTION"; "ADD"; "AFTER"; "ALL"; "ALTER"; "ALWAYS"; "ANALYZE"; "AND";
   "AS"; "ASC"; "ATTACH"; "AUTOINCREMENT"; "BEFORE"; "BEGIN"; "BETWEEN"; "BY";
   "CASCADE"; "CASE"; "CAST"; "CHECK"; "COLLATE"; "COLUMN"; "COMMIT"; "CONFLICT";
   "CONSTRAINT"; "CREATE"; "CROSS"; "CURRENT"; "CURRENT_DATE"; "CURRENT_TIME";
   "CURRENT_TIMESTAMP"; "DATABASE"; "DEFAULT"; "DEFERRABLE"; "DEFERRED"; "DELETE";
   "DESC"; "DETACH"; "DISTINCT"; "DO"; "DROP"; "EACH"; "ELSE"; "END"; "ESCAPE";
   "EXCEPT"; "EXCLUDE"; "EXCLUSIVE"; "EXISTS"; "EXPLAIN"; "FAIL"; "FILTER"; "FIRST";
   "FOLLOWING"; "FOR"; "FOREIGN"; "FROM"; "FULL"; "GENERATED"; "GLOB"; "GROUP";
   "GROUPS"; "HAVING"; "IF"; "IGNORE"; "IMMEDIATE"; "IN"; "INDEX"; "INDEXED";
   "INITIALLY"; "INNER"; "INSERT"; "INSTEAD"; "INTERSECT"; "INTO"; "IS"; "ISNULL";
   "JOIN"; "KEY"; "LAST"; "LEFT"; "LIKE"; "LIMIT"; "MATCH"; "MATERIALIZED";
   "NATURAL"; "NO"; "NOT"; "NOTHING"; "NOTNULL"; "NULL"; "NULLS"; "OF"; "OFFSET";
   "ON"; "OR"; "ORDER"; "OTHERS"; "OUTER"; "OVER"; "PARTITION"; "PLAN"; "PRAGMA";
   "PRECEDING"; "PRIMARY"; "QUERY"; "RAISE"; "RANGE"; "RECURSIVE"; "REFERENCES";
   "REGEXP"; "REINDEX"; "RELEASE"; "RENAME"; "REPLACE"; "RESTRICT"; "RETURNING";
   "RIGHT"; "ROLLBACK"; "ROW"; "ROWS"; "SAVEPOINT"; "SELECT"; "SET"; "TABLE";
   "TEMP"; "TEMPORARY"; "THEN"; "TIES"; "TO"; "TRANSACTION"; "TRIGGER"; "UNBOUNDED";
   "UNION"; "UNIQUE"; "UPDATE"; "USING"; "VACUUM"; "VALUES"; "VIEW"; "VIRTUAL";
   "WHEN"; "WHERE"; "WINDOW"; "WITH"; "WITHIN"; "WITHOUT"].

(** The names the select list of the aggregation statement gives to its
    terms.  Two of them, TotalRevenue and TotalProfit, are columns as
    well. *)
Definition aliases : list string :=
  ["AVGORDERPROCESSINGTIME"; "AVGGROSSMARGIN"; "AVGUNITSSOLD"; "MAXUNITSSOLD";
   "MINUNITSSOLD"; "TOTALUNITSSOLD"; "TOTALREVENUE"; "TOTALPROFIT"; "NUMBEROFORDERS"].

(** The names that stand for a value in every table: the key of the row
    under its three names, and the two truth values. *)
Definition implicit_names : list string := ["ROWID"; "OID"; "_ROWID_"; "TRUE"; "FALSE"].

Definition among (l : list string) (s : string) : bool :=
  existsb (String.eqb (upper_string s)) l.

(** A name of a column of the table, in whatever case; the table has the
    column [id] besides those of [Store.order]. *)
Definition names_column (s : string) : bool :=
  among ("ID" :: (upper_string <$> (column_name <$> columns))) s.

(** A grouping term made of one identifier: a keyword, a name of the
    select list, a name that has a value, or a name that has none. *)
Definition is_keyword (s : string) : bool := among keywords s.
Definition is_alias (s : string) : bool := among aliases s.
Definition has_value (s : string) : bool := names_column s || among implicit_names s.

(** The identifiers of a list of identifiers separated by commas. *)
Fixpoint group_names (ts : list token) : option (list string) :=
  match ts with
  | [TId s] => Some [s]
  | TId s :: TComma :: ts' => ns ← group_names ts'; mret (s :: ns)
  | _ => None
  end.

(** A name the model groups by: a TEXT or INTEGER column under the name
    the table definition gives it. *)
Definition parse_group_term (s : string) : option column :=
  match column_of_name s with
  | Some c => if groupable c then Some c else None
  | None => None
  end.

(** The most grouping terms the engine accepts. *)
Definition max_terms : nat := 2000.

(** The grouping columns of a list of names.  The engine resolves the
    names from left to right and stops at the first that has no value;
    then it counts the terms.  A list with a keyword or with a name of the
    select list is outside the fragment, as is a name that has a value
    and is no TEXT or INTEGER column under its own name. *)
Definition resolve_group (names : list string) : result (list column) :=
  if existsb (fun s => is_keyword s || is_alias s) names then Raise Unsupported
  else
    match List.find (fun s => negb (has_value s)) names with
    | Some s => Raise (NoSuchColumn s)
    | None =>
        match mapM parse_group_term names with
        | Some cols =>
            if (max_terms <? length cols)%nat then Raise SqlError else Ok cols
        | None => Raise Unsupported
        end
    end.

(** The tokens up to the keyword GROUP, and those from it on. *)
Fixpoint break_group (ts : list token) : list token * list token :=
  match ts with
  | [] => ([], [])
  | t :: ts' =>
      if is_kw "GROUP" t then ([], ts)
      else let p := break_group ts' in (t :: p.1, p.2)
  end.

Definition parse_group (ts : list token) : result (list column) :=
  match ts with
  | [] => Ok []
  | TId g :: TId b :: terms =>
      if String.eqb g "GROUP" && String.eqb b "BY" then
        match group_names terms with
        | Some names => resolve_group names
        | None => Raise Unsupported
        end
      else Raise Unsupported
  | _ => Raise Unsupported
  end.

(** The tail of a statement after [FROM orders]. *)
Definition parse_tail (ts : list token) : result plan :=
  match ts with
  | TId w :: ts' =>
      if String.eqb w "WHERE" then
        let p := break_group ts' in
        match parse_condition p.1 with
        | Some cond => g ← parse_group p.2; mret (mkplan (Some cond) g)
        | None => Raise Unsupported
        end
      else g ← parse_group ts; mret (mkplan None g)
  | _ => g ← parse_group ts; mret (mkplan None g)
  end.

(** *** Evaluation *)

Definition eval_operand (o : order) (a : operand) : string :=
  match a with
  | Col c => default "" (text_of c o)
  | Lit s => s
  end.

Definition eval_comparison (o : order) (c : comparison) : bool :=
  String.eqb (eval_operand o c.1) (eval_operand o c.2).

Definition eval_condition (cond : condition) (o : order) : bool :=
  existsb (forallb (eval_comparison o)) cond.

Definition select_where (w : option condition) (db : list order) : list order :=
  match w with
  | Some cond => List.filter (eval_condition cond) db
  | None => db
  end.

(** *** Grouping *)

(** A grouping value: the content of a TEXT or INTEGER column. *)
Inductive keyval : Type :=
  | KInt (z : Z)
  | KText (s : string).

#[global] Instance keyval_eq_dec : EqDecision keyval.
Proof. solve_decision. Defined.

Definition key_of_column (o : order) (c : column) : keyval :=
  match integer_of c o with
  | Some z => KInt z
  | None => KText (default "" (text_of c o))
  end.

Definition key_of (cols : list column) (o : order) : list keyval :=
  key_of_column o <$> cols.

(** The engine's order on values: integers before text, integers by
    value, text byte by byte. *)
Definition keyval_leb (a b : keyval) : bool :=
  match a, b with
  | KInt x, KInt y => x <=? y
  | KInt _, KText _ => true
  | KText _, KInt _ => false
  | KText x, KText y =>
      match String.compare x y with
      | Gt => false
      | _ => true
      end
  end.

Fixpoint key_leb (a b : list keyval) : bool :=
  match a, b with
  | [], _ => true
  | _ :: _, [] => false
  | x :: a', y :: b' =>
      if decide (x = y) then key_leb a' b' else keyval_leb x y
  end.

Definition key_le (a b : list keyval) : Prop := key_leb a b = true.

#[global] Instance key_le_dec a b : Decision (key_le a b).
Proof. unfold key_le. apply _. Defined.

(** The groups of [rows] under the grouping columns [cols]: one group for
    each distinct key, in ascending order of the keys as the engine's
    sorter delivers them; within a group the rows keep their order. *)
Definition group_keys (cols : list column) (rows : list order) : list (list keyval) :=
  merge_sort key_le (remove_dups (key_of cols <$> rows)).

Definition group_rows (cols : list column) (rows : list order) : list (list order) :=
  (fun k => List.filter (fun o => bool_decide (key_of cols o = k)) rows)
    <$> group_keys cols rows.

(** *** Aggregates *)

(** The engine's floating-point accumulation, which is not fixed by the
    program: the average of integers, the average and the sum of reals,
    each on a list that is not empty, and the conversion of an integer to
    a real.  The averages and the sum return a value of the engine: a
    real, or NULL where the engine has no number to give. *)
Record arithmetic : Type := mkarith {
  avg_integers : list Z -> value;
  avg_reals : list float -> value;
  sum_reals : list float -> value;
  cast_real : Z -> float
}.

(** A row of the aggregation statement, column by column. *)
Record agg_row : Type := mkagg {
  AvgOrderProcessingTime : value;
  AvgGrossMargin : value;
  AvgUnitsSold : value;
  MaxUnitsSold : value;
  MinUnitsSold : value;
  TotalUnitsSold : value;
  TotalRevenue : value;
  TotalProfit : value;
  NumberOfOrders : value
}.

(** An aggregate over no value at all is NULL. *)
Definition nonempty {A} (f : list A -> value) (xs : list A) : value :=
  match xs with
  | [] => VNone
  | _ => f xs
  end.

Definition max_integers (xs : list Z) : value :=
  match xs with
  | [] => VNone
  | x :: xs' => VInt (fold_left Z.max xs' x)
  end.

Definition min_integers (xs : list Z) : value :=
  match xs with
  | [] => VNone
  | x :: xs' => VInt (fold_left Z.min xs' x)
  end.

Definition int64_min : Z := - 2 ^ 63.
Definition int64_max : Z := 2 ^ 63 - 1.

(** SUM over integers fails as soon as a partial sum leaves 64 bits. *)
Fixpoint sum_checked (acc : Z) (xs : list Z) : result Z :=
  match xs with
  | [] => Ok acc
  | x :: xs' =>
      let s := acc + x in
      if (int64_min <=? s) && (s <=? int64_max) then sum_checked s xs'
      else Raise SqlError
  end.

Definition sum_integers (xs : list Z) : result value :=
  match xs with
  | [] => Ok VNone
  | _ => s ← sum_checked 0 xs; mret (VInt s)
  end.

Definition count_distinct (xs : list Z) : value :=
  VInt (Z.of_nat (length (remove_dups xs))).





Section WithArithmetic.
Variable ar : arithmetic.

(** The select list of the aggregation statement over one group. *)
Definition aggregate (g : list order) : result agg_row :=
  total_units ← sum_integers (UnitsSold <$> g);
  mret {|
    AvgOrderProcessingTime := nonempty (avg_integers ar) (OrderProcessingTime <$> g);
    AvgGrossMargin := nonempty (avg_reals ar) (GrossMargin <$> g);
    AvgUnitsSold := nonempty (avg_reals ar) (cast_real ar <$> (UnitsSold <$> g));
    MaxUnitsSold := max_integers (UnitsSold <$> g);
    MinUnitsSold := min_integers (UnitsSold <$> g);
    TotalUnitsSold := total_units;
    TotalRevenue := nonempty (sum_reals ar) (Store.TotalRevenue <$> g);
    TotalProfit := nonempty (sum_reals ar) (Store.TotalProfit <$> g);
    NumberOfOrders := count_distinct (OrderID <$> g)
  |}.

(** The rows of the aggregation statement under a plan: without GROUP
    BY one row over all selected rows, even when there is none; with
    GROUP BY one row for each group. *)
Definition aggregate_plan (p : plan) (db : list order) : result (list agg_row) :=
  let rows := select_where (where_ p) db in
  match group_by p with
  | [] => r ← aggregate rows; mret [r]
  | cols => mapM aggregate (group_rows cols rows)
  end.

End WithArithmetic.

(** *** Statements *)

Fixpoint has_nul (s : string) : bool :=
  match s with
  | EmptyString => false
  | String c s' => (code c =? 0) || has_nul s'
  end.

(** [s] without its prefix [p], when it has it. *)
Fixpoint strip_prefix (p s : string) : option string :=
  match p, s with
  | EmptyString, _ => Some s
  | String a p', String b s' => if Ascii.eqb a b then strip_prefix p' s' else None
  | String _ _, EmptyString => None
  end.

(** The plan of a statement made of the head [head] and a tail.  A
    statement with a NUL character is refused before it reaches the
    engine; a tail glued to the table name changes that name. *)
Definition plan_of (head sql : string) : result plan :=
  if has_nul sql then Raise SqlError
  else
    match strip_prefix head sql with
    | Some tail =>
        match tail with
        | String c _ => if is_space c then Ok () else Raise Unsupported
        | EmptyString => Ok ()
        end;;
        ts ← lex tail;
        parse_tail ts
    | None => Raise Unsupported
    end.

End Sql.

(** ** Query.py *)

Module Query.
Import Store Sql.

(** The request: [bucket_name] and [key] as [event.get] returns them,
    [Filters] and [Group By] with their defaults, an empty mapping and an
    empty list. *)
Record event : Type := mkevent {
  bucket_name : option string;
  key : option string;
  Filters : gmap string string;
  Group_By : list string
}.

(** Truth value of the result of [dict.get] on strings. *)
Definition truthy (v : option string) : bool :=
  match v with
  | Some s => negb (String.eqb s "")
  | None => false
  end.

Definition sql_query_agg_head : string :=
"
            SELECT 
                AVG(OrderProcessingTime) AS AvgOrderProcessingTime, 
                AVG(GrossMargin) AS AvgGrossMargin,
                AVG(CAST(UnitsSold AS FLOAT)) AS AvgUnitsSold,
                MAX(CAST(UnitsSold AS INTEGER)) AS MaxUnitsSold,
                MIN(CAST(UnitsSold AS INTEGER)) AS MinUnitsSold,
                SUM(CAST(UnitsSold AS INTEGER)) AS TotalUnitsSold,
                SUM(TotalRevenue) AS TotalRevenue,
                SUM(TotalProfit) AS TotalProfit,
                COUNT(DISTINCT OrderID) AS NumberOfOrders
            FROM 
                orders
        ".

Definition sql_query_filters_head : string := "SELECT * FROM orders".

(** [sep.join(l)] *)
Fixpoint join (sep : string) (l : list string) : string :=
  match l with
  | [] => ""
  | x :: l' =>
      match l' with
      | [] => x
      | _ => x +:+ sep +:+ join sep l'
      end
  end.

(** One of the five tests on [filters]: when the value under [key] is
    true, the comparison of [column] with it, the value between quotes. *)
Definition filter_term (filters : gmap string string) (key column : string)
    : list string :=
  if truthy (filters !! key)
  then [column +:+ " = '" +:+ default "" (filters !! key) +:+ "'"]
  else [].

Definition query_filters (filters : gmap string string) : list string :=
  filter_term filters "Region" "Region" ++
  filter_term filters "Item Type" "ItemType" ++
  filter_term filters "Sales Channel" "SalesChannel" ++
  filter_term filters "Order Priority" "OrderPriority" ++
  filter_term filters "Country" "Country".

Definition where_clause (query_filters : list string) : string :=
  match query_filters with
  | [] => ""
  | _ => " WHERE " +:+ join " AND " query_filters
  end.

Definition group_by_clause (group_by : list string) : string :=
  match group_by with
  | [] => ""
  | _ => " GROUP BY " +:+ join ", " group_by
  end.

(** The text of the filter statement. *)
Definition sql_query_filters (ev : event) : string :=
  sql_query_filters_head +:+ where_clause (query_filters (Filters ev)).

(** The text of the aggregation statement. *)
Definition sql_query_agg (ev : event) : string :=
  (sql_query_agg_head +:+ where_clause (query_filters (Filters ev)))
    +:+ group_by_clause (Group_By ev).

(** [cursor.execute(sql_query_filters); cursor.fetchall()] *)
Definition fetch_filter (db : list order) (sql : string) : result (list order) :=
  p ← plan_of sql_query_filters_head sql;
  match Sql.group_by p with
  | [] => Ok (select_where (where_ p) db)
  | _ => Raise Unsupported
  end.

(** [int(v)] on a value of the engine. *)
Definition py_int (v : value) : result Z :=
  match v with
  | VInt z => Ok z
  | VNone => Raise TypeError
  | _ => Raise Unsupported
  end.

(** The response, a dictionary, before the runtime metrics of the
    inspector are merged into it. *)
Inductive rvalue : Type :=
  | RInt (z : Z)
  | RError (e : exn)
  | RDict (d : gmap string value).

Abbreviation response := (gmap string rvalue).

(** The dictionary made of the first row of the aggregation result, empty
    when there is no row. *)
Definition aggregations_of (agg_result : list agg_row) : result (gmap string value) :=
  match agg_result with
  | row :: _ =>
      n ← py_int (NumberOfOrders row);
      mret (list_to_map
        [("Average Order Processing Time in days", AvgOrderProcessingTime row);
         ("Average Gross Margin", AvgGrossMargin row);
         ("Average Units Sold", AvgUnitsSold row);
         ("Max Units Sold", MaxUnitsSold row);
         ("Min Units Sold", MinUnitsSold row);
         ("Total Units Sold", TotalUnitsSold row);
         ("Total Revenue", Sql.TotalRevenue row);
         ("Total Profit", Sql.TotalProfit row);
         ("Number of Orders", VInt n)])
  | [] => mret ∅
  end.

Definition error_response (e : exn) : response :=
  list_to_map [("statusCode", RInt 500); ("error", RError e)].

Section WithArithmetic.
Variable ar : arithmetic.

(** [cursor.execute(sql_query_agg); cursor.fetchall()] *)
Definition fetch_agg (db : list order) (sql : string) : result (list agg_row) :=
  p ← plan_of sql_query_agg_head sql;
  aggregate_plan ar p db.

(** The body of the [try] block; [db] is the content of the table in
    the downloaded database file. *)
Definition handle (db : list order) (ev : event) : result response :=
  (if negb (truthy (bucket_name ev)) || negb (truthy (key ev))
   then Raise (ValueError "Both 'bucket_name' and 'key' are required.")
   else Ok ());;
  filter_result ← fetch_filter db (sql_query_filters ev);
  agg_result ← fetch_agg db (sql_query_agg ev);
  aggregations ← aggregations_of agg_result;
  mret (list_to_map [("statusCode", RInt 200); ("aggregations", RDict aggregations)]).

(** [lambda_handler]: every exception of the body becomes the error
    response. *)
Definition lambda_handler (db : list order) (ev : event) : result response :=
  match handle db ev with
  | Ok r => Ok r
  | Raise Unsupported => Raise Unsupported
  | Raise e => Ok (error_response e)
  end.

End WithArithmetic.

(** *** What the request asks for, read literally *)

(** The request keys the handler reads, each with its column. *)
Definition filter_keys : list (string * column) :=
  [("Region", CRegion); ("Item Type", CItemType); ("Sales Channel", CSalesChannel);
   ("Order Priority", COrderPriority); ("Country", CCountry)].

(** A record matches when, for each key whose value is true, its column
    equals that value. *)
Definition matches (filters : gmap string string) (o : order) : bool :=
  forallb (fun kc : string * column =>
    if truthy (filters !! kc.1)
    then bool_decide (text_of kc.2 o = filters !! kc.1)
    else true) filter_keys.

End Query.

(** ** A plain instance of the engine's arithmetic and a small table *)

Module SampleDb.
Import Store Sql Query.

Definition float_of_Z (z : Z) : float :=
  if 0 <=? z then PrimFloat.of_uint63 (Uint63.of_Z z)
  else PrimFloat.opp (PrimFloat.of_uint63 (Uint63.of_Z (- z))).

Definition sum_floats (xs : list float) : float :=
  fold_left PrimFloat.add xs 0%float.

(** Left-to-right accumulation in IEEE doubles. *)
Definition plain : arithmetic := {|
  avg_integers xs :=
    VFloat (PrimFloat.div (float_of_Z (fold_left Z.add xs 0))
                          (float_of_Z (Z.of_nat (length xs))));
  avg_reals xs :=
    VFloat (PrimFloat.div (sum_floats xs) (float_of_Z (Z.of_nat (length xs))));
  sum_reals xs := VFloat (sum_floats xs);
  cast_real := float_of_Z
|}.

Definition asia : order :=
  mkorder "Asia" "Japan" "Snacks" "Online" "High" "1/1/2020" 100 "1/5/2020"
          10 2 1 20 10 10 4 0.5.
Definition europe : order :=
  mkorder "Europe" "France" "Cereal" "Offline" "Low" "2/1/2020" 101 "2/4/2020"
          30 2 1 60 30 30 3 0.5.

Definition db : list order := [asia; europe].

Definition request (filters : list (string * string)) (group_by : list string) : event :=
  mkevent (Some "bucket") (Some "databases/data.db") (list_to_map filters) group_by.

(** An [aggregations] dictionary, from its nine values. *)
Definition aggregations (avg_opt avg_gm avg_units max_units min_units total_units
    revenue profit orders : value) : gmap string value :=
  list_to_map
    [("Average Order Processing Time in days", avg_opt);
     ("Average Gross Margin", avg_gm);
     ("Average Units Sold", avg_units);
     ("Max Units Sold", max_units);
     ("Min Units Sold", min_units);
     ("Total Units Sold", total_units);
     ("Total Revenue", revenue);
     ("Total Profit", profit);
     ("Number of Orders", orders)].

(** The aggregates of the whole table, and of the record [asia] alone. *)
Definition aggs_db : gmap string value :=
  aggregations (VFloat 3.5) (VFloat 0.5) (VFloat 20) (VInt 30) (VInt 10) (VInt 40)
               (VFloat 80) (VFloat 40) (VInt 2).
Definition aggs_asia : gmap string value :=
  aggregations (VFloat 4) (VFloat 0.5) (VFloat 10) (VInt 10) (VInt 10) (VInt 10)
               (VFloat 20) (VFloat 10) (VInt 1).

End SampleDb.

(** ** Reading the generated statements *)

Module Generated.
Import Store Sql Query.

(** A string without quote and without NUL: a value that a string literal
    holds as it is. *)
Fixpoint clean (s : string) : bool :=
  match s with
  | EmptyString => true
  | String c s' => negb (is_quote c) && negb (code c =? 0) && clean s'
  end.

(** The filter values the handler reads are all clean. *)
Definition clean_filters (filters : gmap string string) : Prop :=
  forall kc v, kc ∈ filter_keys -> filters !! kc.1 = Some v -> clean v = true.

(** The same, as a test. *)
Definition clean_filtersb (filters : gmap string string) : bool :=
  forallb (fun kc : string * column =>
    match filters !! kc.1 with
    | Some v => clean v
    | None => true
    end) filter_keys.

(** [s], read from the start state, gives the tokens [toks] once the token
    being read at its end is closed, and does not end in a comment. *)
Definition lexes_to (s : string) (toks : list token) : Prop :=
  exists t st f,
    lex_run LStart s = Ok (t, st) /\ lex_finish st = Ok f /\ toks = t ++ f /\
    in_comment st = false.

(** The comparisons the handler adds, in its order: the column and the
    value of each key whose value is true. *)
Definition active (filters : gmap string string) : list (column * string) :=
  omap (fun kc : string * column =>
    if truthy (filters !! kc.1) then Some (kc.2, default "" (filters !! kc.1))
    else None) filter_keys.

Definition term (cv : column * string) : string :=
  column_name cv.1 +:+ " = '" +:+ cv.2 +:+ "'".

Definition term_tokens (cv : column * string) : list token :=
  [TId (column_name cv.1); TEq; TStr cv.2].

Fixpoint terms_tokens (conds : list (column * string)) : list token :=
  match conds with
  | [] => []
  | cv :: rest =>
      match rest with
      | [] => term_tokens cv
      | _ => term_tokens cv ++ TId "AND" :: terms_tokens rest
      end
  end.

Definition where_tokens (conds : list (column * string)) : list token :=
  match conds with
  | [] => []
  | _ => TId "WHERE" :: terms_tokens conds
  end.

Fixpoint names_tokens (names : list string) : list token :=
  match names with
  | [] => []
  | n :: rest =>
      match rest with
      | [] => [TId n]
      | _ => TId n :: TComma :: names_tokens rest
      end
  end.

Definition group_tokens (names : list string) : list token :=
  match names with
  | [] => []
  | _ => TId "GROUP" :: TId "BY" :: names_tokens names
  end.

(** A Group By name that reaches the resolution of names: one identifier
    that is no keyword of the engine and no name of the select list. *)
Definition plain_name (s : string) : bool :=
  is_identifier s && negb (is_keyword s || is_alias s).

(** The condition of the comparisons [conds], all to hold. *)
Definition where_of (conds : list (column * string)) : option condition :=
  match conds with
  | [] => None
  | _ => Some [(fun cv : column * string => (Col cv.1, Lit cv.2)) <$> conds]
  end.

(** The event [ev] with other filters. *)
Definition with_filters (ev : event) (filters : gmap string string) : event :=
  mkevent (bucket_name ev) (key ev) filters (Group_By ev).


(** The [aggregations] dictionary of an aggregation over no record. *)
Definition null_aggregations : gmap string value :=
  list_to_map
    [("Average Order Processing Time in days", VNone);
     ("Average Gross Margin", VNone);
     ("Average Units Sold", VNone);
     ("Max Units Sold", VNone);
     ("Min Units Sold", VNone);
     ("Total Units Sold", VNone);
     ("Total Revenue", VNone);
     ("Total Profit", VNone);
     ("Number of Orders", VInt 0)].


Definition success_response (aggregations : gmap string value) : response :=
  list_to_map [("statusCode", RInt 200); ("aggregations", RDict aggregations)].

End Generated.

(** ** More tables *)

Module SampleTables.
Import Store Sql Query SampleDb.




(** An order whose Region is the empty string. *)
Definition blank : order :=
  mkorder "" "Peru" "Snacks" "Online" "Low" "3/1/2020" 103 "3/2/2020"
          5 2 1 10 5 5 1 0.5.



(** More Group By names than the engine takes. *)
Definition too_many : list string := replicate 2001 "Region".

End SampleTables.

(** ** Notions used to state further properties of Transform.py *)

Module Rows.
Import Transform.

(** The Order IDs of the rows that have the column, in order. *)
Definition order_ids (rows : list raw_row) : list cell :=
  omap (fun row : raw_row => row !! "Order ID") rows.

(** The row carries an Order ID that no row of [earlier] carries, or has no
    such column. *)
Definition unseen (earlier : list raw_row) (row : raw_row) : bool :=
  match row !! "Order ID" with
  | Some oid => bool_decide (oid ∉ order_ids earlier)
  | None => true
  end.

(** The row at index [i] is the first of [rows] with its Order ID. *)
Definition first_at (rows : list raw_row) (i : nat) (row : raw_row) : Prop :=
  rows !! i = Some row /\
  forall k r, (k < i)%nat -> rows !! k = Some r -> r !! "Order ID" ≠ row !! "Order ID".

(** The three columns [transform] assigns. *)
Definition assigned : gset string :=
  {[ "Order Processing Time"; "Order Priority"; "Gross Margin" ]}.

End Rows.

(** ** Notions used to state further properties of Query.py *)

Module Requests.
Import Store Sql Query Generated.

(** The number of quote characters of a string. *)
Fixpoint count_quotes (s : string) : nat :=
  match s with
  | EmptyString => 0%nat
  | String c s' => ((if is_quote c then 1 else 0) + count_quotes s')%nat
  end.

(** The number of quote characters in the filter values the handler puts
    into its statements. *)
Definition value_quotes (filters : gmap string string) : nat :=
  foldr (fun cv : column * string => Nat.add (count_quotes cv.2)) 0%nat (active filters).

(** The lexer is inside a string literal. *)
Definition in_literal (st : lex_state) : bool :=
  match st with
  | LStr _ => true
  | _ => false
  end.

(** The lexer is between tokens, in an identifier or at a string
    literal. *)
Definition token_state (st : lex_state) : bool :=
  match st with
  | LStart | LIdent _ | LStr _ | LStrQ _ => true
  | _ => false
  end.

(** A letter, an underscore, a blank, an equals sign, a comma or a quote:
    the characters that, outside a string literal, neither open a comment
    or a quoted name nor belong to a number or an operator. *)
Definition plain_char (c : ascii) : bool :=
  is_space c || is_ident_start c || is_quote c || Ascii.eqb c "=" || Ascii.eqb c ",".

Fixpoint plain_text (s : string) : bool :=
  match s with
  | EmptyString => true
  | String c s' => plain_char c && plain_text s'
  end.

(** The filter values the handler reads are made of such characters. *)
Definition plain_filters (filters : gmap string string) : Prop :=
  forall kc v, kc ∈ filter_keys -> filters !! kc.1 = Some v -> plain_text v = true.

(** No filter of the request is in force: each of the five keys is absent
    or has the empty value. *)
Definition no_filter (filters : gmap string string) : Prop :=
  forall kc, kc ∈ filter_keys -> truthy (filters !! kc.1) = false.

(** The units sold are not negative and their sum over the table fits in a
    64-bit integer. *)
Definition units_fit (db : list order) : Prop :=
  Forall (fun o => 0 <= UnitsSold o) db /\
  fold_right Z.add 0 (UnitsSold <$> db) <= int64_max.

End Requests.

(** ** Load.py *)

Module Load.
Import Store.

(** The request: [bucket_name] and [key] as [event.get] returns them, and
    [db_file_name], absent or a string. *)
Record event : Type := mkevent {
  bucket_name : option string;
  key : option string;
  db_file_name : option string
}.

(** [event.get("db_file_name", "data.db")] *)
Definition db_name (ev : event) : string := default "data.db" (db_file_name ev).

(** One tuple of [data_to_insert]: the text cells as the reader gave them,
    the numbers as [int] and [float] returned them. *)
Record params : Type := mkparams {
  p_region : cell;
  p_country : cell;
  p_item_type : cell;
  p_sales_channel : cell;
  p_order_priority : cell;
  p_order_date : cell;
  p_order_id : Z;
  p_ship_date : cell;
  p_units_sold : Z;
  p_unit_price : float;
  p_unit_cost : float;
  p_total_revenue : float;
  p_total_cost : float;
  p_total_profit : float;
  p_order_processing_time : Z;
  p_gross_margin : float
}.

(** A record of the table [orders] as the engine holds it: each of the
    sixteen columns of the insertion holds a value or NULL. *)
Record stored : Type := mkstored {
  c_region : option string;
  c_country : option string;
  c_item_type : option string;
  c_sales_channel : option string;
  c_order_priority : option string;
  c_order_date : option string;
  c_order_id : option Z;
  c_ship_date : option string;
  c_units_sold : option Z;
  c_unit_price : option float;
  c_unit_cost : option float;
  c_total_revenue : option float;
  c_total_cost : option float;
  c_total_profit : option float;
  c_order_processing_time : option Z;
  c_gross_margin : option float
}.

(** A record without NULL, as [Query.py] is modelled to read it, and back. *)
Definition of_order (o : order) : stored :=
  mkstored (Some (Region o)) (Some (Country o)) (Some (ItemType o))
    (Some (SalesChannel o)) (Some (OrderPriority o)) (Some (OrderDate o))
    (Some (OrderID o)) (Some (ShipDate o)) (Some (UnitsSold o)) (Some (UnitPrice o))
    (Some (UnitCost o)) (Some (TotalRevenue o)) (Some (TotalCost o))
    (Some (TotalProfit o)) (Some (OrderProcessingTime o)) (Some (GrossMargin o)).

Definition to_order (r : stored) : option order :=
  match c_region r, c_country r, c_item_type r, c_sales_channel r,
        c_order_priority r, c_order_date r, c_order_id r, c_ship_date r,
        c_units_sold r, c_unit_price r, c_unit_cost r, c_total_revenue r,
        c_total_cost r, c_total_profit r, c_order_processing_time r,
        c_gross_margin r with
  | Some region, Some country, Some item_type, Some sales_channel,
    Some order_priority, Some order_date, Some order_id, Some ship_date,
    Some units_sold, Some unit_price, Some unit_cost, Some total_revenue,
    Some total_cost, Some total_profit, Some order_processing_time,
    Some gross_margin =>
      Some (mkorder region country item_type sales_channel order_priority order_date
              order_id ship_date units_sold unit_price unit_cost total_revenue
              total_cost total_profit order_processing_time gross_margin)
  | _, _, _, _, _, _, _, _, _, _, _, _, _, _, _, _ => None
  end.

(** A text parameter as the engine stores it: [None] is stored as NULL. *)
Definition bind_text (c : cell) : option string := c.

(** An integer parameter: within 64 bits it is stored as it is.  Beyond,
    the cursor raises OverflowError. *)
Definition bind_integer (z : Z) : result (option Z) :=
  if (Sql.int64_min <=? z) && (z <=? Sql.int64_max) then Ok (Some z)
  else Raise OverflowError.

(** A real as the table gives it back.  The engine writes a real without
    fraction as an integer and reads it as a real again, which turns the
    negative zero into zero and changes no other real. *)
Definition stored_real (x : float) : float :=
  if PrimFloat.eqb x 0%float then 0%float else x.

(** A real parameter: NaN is stored as NULL. *)
Definition bind_real (x : float) : option float :=
  if PrimFloat.is_nan x then None else Some (stored_real x).

(** The record one tuple adds to the table. *)
Definition bind_params (p : params) : result stored :=
  order_id ← bind_integer (p_order_id p);
  units_sold ← bind_integer (p_units_sold p);
  order_processing_time ← bind_integer (p_order_processing_time p);
  mret (mkstored (bind_text (p_region p)) (bind_text (p_country p))
          (bind_text (p_item_type p)) (bind_text (p_sales_channel p))
          (bind_text (p_order_priority p)) (bind_text (p_order_date p))
          order_id (bind_text (p_ship_date p)) units_sold
          (bind_real (p_unit_price p)) (bind_real (p_unit_cost p))
          (bind_real (p_total_revenue p)) (bind_real (p_total_cost p))
          (bind_real (p_total_profit p)) order_processing_time
          (bind_real (p_gross_margin p))).

(** [cursor.executemany(insert_query, data_to_insert)]: one record for each
    tuple, in order, after the records the table had. *)
Definition executemany (table : list stored) (data_to_insert : list params)
    : result (list stored) :=
  records ← mapM bind_params data_to_insert;
  mret (table ++ records).

(** The response, a dictionary, before the runtime metrics of the
    inspector are merged into it. *)
Inductive lvalue : Type :=
  | LInt (z : Z)
  | LStr (s : string)
  | LError (e : exn).

Abbreviation response := (gmap string lvalue).

Definition error_response (e : exn) : response :=
  list_to_map [("statusCode", LInt 500); ("error", LError e)].

Section WithParsers.

(** The builtins [int] and [float] applied to a string: [None] when they
    raise [ValueError].  Their parsing is the interpreter's and is left as a
    parameter.  The message of the [ValueError] of [int] goes on with a
    colon and the text; the model keeps what is before the colon. *)
Variable py_int : string -> option Z.
Variable py_float : string -> option float.

Definition int_cell (c : cell) : result Z :=
  match c with
  | Some s =>
      match py_int s with
      | Some z => Ok z
      | None => Raise (ValueError "invalid literal for int() with base 10")
      end
  | None => Raise TypeError
  end.

(** The tuple built from one row of the reader, its sixteen items evaluated
    from left to right. *)
Definition row_params (row : Transform.raw_row) : result params :=
  region ← Transform.getitem row "Region";
  country ← Transform.getitem row "Country";
  item_type ← Transform.getitem row "Item Type";
  sales_channel ← Transform.getitem row "Sales Channel";
  order_priority ← Transform.getitem row "Order Priority";
  order_date ← Transform.getitem row "Order Date";
  oid ← Transform.getitem row "Order ID";
  order_id ← int_cell oid;
  ship_date ← Transform.getitem row "Ship Date";
  us ← Transform.getitem row "Units Sold";
  units_sold ← int_cell us;
  up ← Transform.getitem row "Unit Price";
  unit_price ← Transform.float_cell py_float up;
  uc ← Transform.getitem row "Unit Cost";
  unit_cost ← Transform.float_cell py_float uc;
  tr ← Transform.getitem row "Total Revenue";
  total_revenue ← Transform.float_cell py_float tr;
  tc ← Transform.getitem row "Total Cost";
  total_cost ← Transform.float_cell py_float tc;
  tp ← Transform.getitem row "Total Profit";
  total_profit ← Transform.float_cell py_float tp;
  opt ← Transform.getitem row "Order Processing Time";
  order_processing_time ← int_cell opt;
  gm ← Transform.getitem row "Gross Margin";
  gross_margin ← Transform.float_cell py_float gm;
  mret (mkparams region country item_type sales_channel order_priority order_date
          order_id ship_date units_sold unit_price unit_cost total_revenue total_cost
          total_profit order_processing_time gross_margin).

(** The table after the insertion: [data_to_insert] is built from all the
    rows of the file first, then the tuples are inserted. *)
Definition insert_rows (table : list stored) (rows : list Transform.raw_row)
    : result (list stored) :=
  data_to_insert ← mapM row_params rows;
  executemany table data_to_insert.

(** The same on tables without NULL, the tables [Query.py] is modelled to
    read: an insertion that stores a NULL is declined. *)
Definition load (table : list order) (rows : list Transform.raw_row)
    : result (list order) :=
  table' ← insert_rows (of_order <$> table) rows;
  match mapM to_order table' with
  | Some orders => Ok orders
  | None => Raise Unsupported
  end.

(** The response of a load that was carried out. *)
Definition uploaded_response (ev : event) : response :=
  let s3_key := "databases/" +:+ db_name ev in
  list_to_map
    [("statusCode", LInt 200);
     ("message", LStr "Database created and uploaded successfully");
     ("bucket_name", LStr (default "" (bucket_name ev)));
     ("s3_key", LStr s3_key)].

(** The body of the [try] block: [rows] are the rows of the downloaded
    file, [table] the content of the table [orders] of the local database
    file, empty when the file is new.  It returns the table uploaded under
    the key [s3_key] of the bucket of the request, and the response. *)
Definition handle (table : list stored) (rows : list Transform.raw_row) (ev : event)
    : result (list stored * response) :=
  (if negb (Query.truthy (bucket_name ev)) || negb (Query.truthy (key ev))
   then Raise (ValueError "Both 'bucket_name' and 'csv_file_key' are required.")
   else Ok ());;
  table' ← insert_rows table rows;
  mret (table', uploaded_response ev).

(** [lambda_handler]: the uploaded table, if any, and the response.  Every
    exception of the body becomes the error response, and nothing is
    uploaded then. *)
Definition lambda_handler (table : list stored) (rows : list Transform.raw_row)
    (ev : event) : option (list stored) * response :=
  match handle table rows ev with
  | Ok (table', r) => (Some table', r)
  | Raise e => (None, error_response e)
  end.

End WithParsers.

(** A row of the file and the record inserted for it: the text columns
    hold the cells, NULL for a cell that is [None]; the integer columns
    hold what [int] read; the real columns hold what [float] read, as the
    table gives it back, NULL for NaN. *)
Definition inserted_as (py_int : string -> option Z) (py_float : string -> option float)
    (row : Transform.raw_row) (r : stored) : Prop :=
  let int_at := fun (k : string) (field : option Z) =>
    exists s z, row !! k = Some (Some s) /\ py_int s = Some z /\ field = Some z /\
                Sql.int64_min <= z <= Sql.int64_max in
  let real_at := fun (k : string) (field : option float) =>
    exists s x, row !! k = Some (Some s) /\ py_float s = Some x /\
                field = if PrimFloat.is_nan x then None else Some (stored_real x) in
  row !! "Region" = Some (c_region r) /\
  row !! "Country" = Some (c_country r) /\
  row !! "Item Type" = Some (c_item_type r) /\
  row !! "Sales Channel" = Some (c_sales_channel r) /\
  row !! "Order Priority" = Some (c_order_priority r) /\
  row !! "Order Date" = Some (c_order_date r) /\
  row !! "Ship Date" = Some (c_ship_date r) /\
  int_at "Order ID" (c_order_id r) /\
  int_at "Units Sold" (c_units_sold r) /\
  int_at "Order Processing Time" (c_order_processing_time r) /\
  real_at "Unit Price" (c_unit_price r) /\
  real_at "Unit Cost" (c_unit_cost r) /\
  real_at "Total Revenue" (c_total_revenue r) /\
  real_at "Total Cost" (c_total_cost r) /\
  real_at "Total Profit" (c_total_profit r) /\
  real_at "Gross Margin" (c_gross_margin r).

(** A row the handler can insert: the seven text columns are columns of
    the file, and the nine others hold a text that [int] and [float] read,
    an integer within 64 bits. *)
Definition insertable (py_int : string -> option Z) (py_float : string -> option float)
    (row : Transform.raw_row) : Prop :=
  let text_at := fun (k : string) => is_Some (row !! k) in
  let int_at := fun (k : string) =>
    exists s z, row !! k = Some (Some s) /\ py_int s = Some z /\
                Sql.int64_min <= z <= Sql.int64_max in
  let real_at := fun (k : string) =>
    exists s x, row !! k = Some (Some s) /\ py_float s = Some x in
  text_at "Region" /\ text_at "Country" /\ text_at "Item Type" /\
  text_at "Sales Channel" /\ text_at "Order Priority" /\ text_at "Order Date" /\
  int_at "Order ID" /\ text_at "Ship Date" /\ int_at "Units Sold" /\
  real_at "Unit Price" /\ real_at "Unit Cost" /\ real_at "Total Revenue" /\
  real_at "Total Cost" /\ real_at "Total Profit" /\
  int_at "Order Processing Time" /\ real_at "Gross Margin".

(** A row of the file and the record without NULL it is stored as: the text
    columns hold the cells, the numeric columns what [int] and [float] read
    in them, a real as the table gives it back. *)
Definition stored_as (py_int : string -> option Z) (py_float : string -> option float)
    (row : Transform.raw_row) (o : order) : Prop :=
  let int_at := fun (k : string) (z : Z) =>
    exists s, row !! k = Some (Some s) /\ py_int s = Some z in
  let real_at := fun (k : string) (y : float) =>
    exists s x, row !! k = Some (Some s) /\ py_float s = Some x /\ y = stored_real x in
  row !! "Region" = Some (Some (Region o)) /\
  row !! "Country" = Some (Some (Country o)) /\
  row !! "Item Type" = Some (Some (ItemType o)) /\
  row !! "Sales Channel" = Some (Some (SalesChannel o)) /\
  row !! "Order Priority" = Some (Some (OrderPriority o)) /\
  row !! "Order Date" = Some (Some (OrderDate o)) /\
  row !! "Ship Date" = Some (Some (ShipDate o)) /\
  int_at "Order ID" (OrderID o) /\
  int_at "Units Sold" (UnitsSold o) /\
  int_at "Order Processing Time" (OrderProcessingTime o) /\
  real_at "Unit Price" (UnitPrice o) /\
  real_at "Unit Cost" (UnitCost o) /\
  real_at "Total Revenue" (TotalRevenue o) /\
  real_at "Total Cost" (TotalCost o) /\
  real_at "Total Profit" (TotalProfit o) /\
  real_at "Gross Margin" (GrossMargin o).

End Load.

(** ** More sample data *)

Module SampleMore.
Import Store.

(** A row with the Order ID of [Sample.row_a] and a date that is none. *)
Definition row_bad_date : Transform.raw_row :=
  Sample.raw "100" "13/1/2020" "1/5/2020" "H" "10" "40".

(** A row with a new Order ID and a date that is none. *)
Definition row_new_bad_date : Transform.raw_row :=
  Sample.raw "102" "13/1/2020" "1/5/2020" "H" "10" "40".

(** An instance of the parameter [py_int] for the sample rows: [int] on
    unsigned decimal integers.  It gives no value on any other text, which
    the samples do not contain. *)
Definition int_of_digits (s : string) : option Z :=
  match s with
  | EmptyString => None
  | _ => Transform.digits_value 0 s
  end.

(** A row of a transformed file, with the sixteen columns [Load.py]
    reads. *)
Definition loadable (region country oid units : string) : Transform.raw_row :=
  list_to_map
    [("Region", Some region); ("Country", Some country); ("Item Type", Some "Snacks");
     ("Sales Channel", Some "Online"); ("Order Priority", Some "High");
     ("Order Date", Some "1/1/2020"); ("Order ID", Some oid);
     ("Ship Date", Some "1/5/2020"); ("Units Sold", Some units);
     ("Unit Price", Some "2"); ("Unit Cost", Some "1"); ("Total Revenue", Some "20");
     ("Total Cost", Some "10"); ("Total Profit", Some "10");
     ("Order Processing Time", Some "4"); ("Gross Margin", Some "1")].

Definition loaded (region country : string) (oid units : Z) : order :=
  mkorder region country "Snacks" "Online" "High" "1/1/2020" oid "1/5/2020" units
          2 1 20 10 10 4 1.

Definition file : list Transform.raw_row :=
  [loadable "Asia" "Japan" "100" "10"; loadable "Europe" "France" "101" "30"].

Definition records : list order :=
  [loaded "Asia" "Japan" 100 10; loaded "Europe" "France" 101 30].

Definition load_event : Load.event :=
  Load.mkevent (Some "bucket") (Some "transformed_sales.csv") None.

(** An instance of the parameter [py_float] that also reads the texts of
    NaN and of the negative zero. *)
Definition float_of_sample (s : string) : option float :=
  if String.eqb s "nan" then Some PrimFloat.nan
  else if String.eqb s "-0.0" then Some PrimFloat.neg_zero
  else Transform.float_of_digits s.

(** A file whose one row has no Region, the negative zero as Total
    Profit and NaN as Gross Margin, and the record inserted for it. *)
Definition file_null : list Transform.raw_row :=
  [<["Region" := None]>
     (<["Total Profit" := Some "-0.0"]>
        (<["Gross Margin" := Some "nan"]> (loadable "Asia" "Japan" "102" "10")))].

Definition records_null : list Load.stored :=
  [Load.mkstored None (Some "Japan") (Some "Snacks") (Some "Online") (Some "High")
     (Some "1/1/2020") (Some 102) (Some "1/5/2020") (Some 10)
     (Some 2%float) (Some 1%float) (Some 20%float) (Some 10%float) (Some 0%float)
     (Some 4) None].

(** A file whose second row has an Order ID beyond 64 bits. *)
Definition file_big : list Transform.raw_row :=
  [loadable "Asia" "Japan" "100" "10";
   loadable "Europe" "France" "9223372036854775808" "30"].

End SampleMore.

(** ** The files of the pipeline *)

(** A file as the [csv] module presents it: the records of its lines, each
    the list of its fields.  The text of a line, its quoting and its end,
    is the module's affair and is not modelled: a file written from records
    is the file that reads as these records. *)
Module Csv.

Abbreviation record := (list string).
Abbreviation file := (list record).

(** [dict(zip(fieldnames, row))]: of two fields under the same name the
    later one stays. *)
Definition dict_zip (fieldnames : record) (row : record) : Transform.raw_row :=
  foldl (fun d kv => <[kv.1 := Some kv.2]> d) ∅ (zip fieldnames row).

(** The row [DictReader] makes of a record, as far as its keys are
    names: the names beyond the fields of a short record hold [None].  The
    fields beyond the names of a long record are kept by the reader under
    the key [None]; [long] tells whether the row has that key. *)
Definition dict_row (fieldnames : record) (row : record) : Transform.raw_row :=
  foldl (fun d key => <[key := None]> d) (dict_zip fieldnames row)
        (drop (length row) fieldnames).

Definition blank (row : record) : bool :=
  match row with
  | [] => true
  | _ => false
  end.

Definition long (fieldnames : record) (row : record) : bool :=
  (length fieldnames <? length row)%nat.

(** [reader.fieldnames]: the first record, [None] for a file without
    records. *)
Definition fieldnames (f : file) : option record := head f.

(** The rows [for row in reader] yields: one for each record after the
    first that is not blank. *)
Definition rows_of (f : file) : list Transform.raw_row :=
  match f with
  | [] => []
  | names :: records => dict_row names <$> List.filter (fun r => negb (blank r)) records
  end.

(** For each of these rows, whether it has the key [None]. *)
Definition rests_of (f : file) : list bool :=
  match f with
  | [] => []
  | names :: records => long names <$> List.filter (fun r => negb (blank r)) records
  end.

End Csv.

Module Files.
Import Csv.

(** [str] of an integer. *)
Definition str_int (z : Z) : string := NilZero.string_of_int (Z.to_int z).

(** The two names [transform] adds to the names of the input. *)
Definition added : record := ["Order Processing Time"; "Gross Margin"].

Section WithFormats.

Variable py_int : string -> option Z.
Variable py_float : string -> option float.

(** [str] of a float, the shortest text that reads back as the float; it
    is the interpreter's and is left as a parameter. *)
Variable str_float : float -> string.

(** The field the writer makes of a value: the text itself, nothing for
    [None], [str] of a number. *)
Definition str_value (v : value) : string :=
  match v with
  | VNone => ""
  | VStr s => s
  | VInt z => str_int z
  | VFloat x => str_float x
  end.

(** [rowdict.get(key, restval) for key in fieldnames], as fields. *)
Definition row_text (names : record) (o : Transform.out_row) : record :=
  (fun key => from_option str_value "" (o !! key)) <$> names.

(** [DictWriter._dict_to_list] on a row that has the key [None] or not: a
    row with a key that is no field name is refused.  The message lists
    the keys refused; for keys that are names their order is not fixed, and
    the model does not give it. *)
Definition dict_to_list (names : record) (row : Transform.out_row * bool) : result record :=
  if decide (dom row.1 ⊆ list_to_set names)
  then
    if row.2 then Raise (ValueError "dict contains fields not in fieldnames: None")
    else Ok (row_text names row.1)
  else Raise Unsupported.

(** For the rows the loop appends to [transformed_rows], in order, whether
    they have the key [None]: the loop appends the rows whose Order ID was
    not seen, key [None] included, and never reads that key.  [seen] is the
    set of the loop and [rows] what is left to read. *)
Fixpoint appended (seen : gset cell) (rows : list (Transform.raw_row * bool)) : list bool :=
  match rows with
  | [] => []
  | row :: rows' =>
      match row.1 !! "Order ID" with
      | Some oid =>
          if decide (oid ∈ seen) then appended seen rows'
          else row.2 :: appended ({[oid]} ∪ seen) rows'
      | None => []
      end
  end.

(** [transform], from the file read to the file written.  The loop runs
    first.  After it the names of the file are asked of the reader: on a
    file without records the reader has none yet and reads on, from a file
    that is closed by then.  Then the writer writes the names and the two
    added ones, and the rows of the loop one by one. *)
Definition transform_file (f : file) : result file :=
  transformed_rows ← Transform.transform py_float (rows_of f);
  match fieldnames f with
  | None => Raise (ValueError "I/O operation on closed file.")
  | Some names =>
      let fieldnames := names ++ added in
      let rows := zip transformed_rows (appended ∅ (zip (rows_of f) (rests_of f))) in
      written ← mapM (dict_to_list fieldnames) rows;
      mret (fieldnames :: written)
  end.

(** An emitted row as a reader finds it in the file written: every value
    as its field. *)
Definition text_row (o : Transform.out_row) : Transform.raw_row :=
  (fun v => Some (str_value v)) <$> o.

(** The numbers [transform] wrote for a row read back by [int] and [float]
    as the numbers they were. *)
Definition reads_back (o : Transform.out_row) : Prop :=
  (forall z, o !! "Order Processing Time" = Some (VInt z) ->
             py_int (str_int z) = Some z) /\
  (forall x, o !! "Gross Margin" = Some (VFloat x) ->
             py_float (str_float x) = Some x) /\
  (o !! "Gross Margin" = Some (VInt 0) -> py_float "0" = Some 0%float).

(** An emitted row and the record [Load.py] stores for it. *)
Definition loaded_as (o : Transform.out_row) (r : Store.order) : Prop :=
  Load.stored_as py_int py_float (text_row o) r /\
  o !! "Order Processing Time" = Some (VInt (Store.OrderProcessingTime r)) /\
  o !! "Order Priority" = Some (VStr (Store.OrderPriority r)) /\
  ((exists x, o !! "Gross Margin" = Some (VFloat x) /\
              Store.GrossMargin r = Load.stored_real x) \/
   o !! "Gross Margin" = Some (VInt 0) /\ Store.GrossMargin r = 0%float).

End WithFormats.

End Files.

(** ** A sample file *)

Module SampleFile.
Import Csv Files Store.

Definition names : record :=
  ["Region"; "Country"; "Item Type"; "Sales Channel"; "Order Priority";
   "Order Date"; "Order ID"; "Ship Date"; "Units Sold"; "Unit Price"; "Unit Cost";
   "Total Revenue"; "Total Cost"; "Total Profit"].

(** Two orders, a blank line, a record with the Order ID of the first
    that is short and holds no date, and a record with the Order ID of the
    second that has a field more than there are names. *)
Definition records : file :=
  [["Asia"; "Japan"; "Snacks"; "Online"; "H"; "1/1/2020"; "100"; "1/5/2020";
    "10"; "2"; "1"; "20"; "10"; "10"];
   ["Europe"; "France"; "Snacks"; "Offline"; "L"; "2/27/2020"; "101"; "3/1/2020";
    "30"; "2"; "1"; "0"; "30"; "0"];
   [];
   ["Asia"; "Japan"; "Snacks"; "Online"; "M"; "none"; "100"];
   ["Europe"; "France"; "Snacks"; "Offline"; "L"; "2/27/2020"; "101"; "3/1/2020";
    "30"; "2"; "1"; "0"; "30"; "0"; "more"]].

Definition input : file := names :: records.

(** The names and one order with a field more than there are names. *)
Definition input_long : file :=
  [names;
   ["Asia"; "Japan"; "Snacks"; "Online"; "H"; "1/1/2020"; "100"; "1/5/2020";
    "10"; "2"; "1"; "20"; "10"; "10"; "more"]].

(** Instances of the parameters for the sample: [float] on the text of
    one half and on unsigned decimal integers, and [str] on the one float
    the sample leads to. *)
Definition float_of_text (s : string) : option float :=
  if String.eqb s "0.5" then Some 0.5%float else Transform.float_of_digits s.

Definition str_half (x : float) : string :=
  if PrimFloat.eqb x 0.5%float then "0.5" else "".

Definition out_a : Transform.out_row :=
  list_to_map
    [("Region", VStr "Asia"); ("Country", VStr "Japan"); ("Item Type", VStr "Snacks");
     ("Sales Channel", VStr "Online"); ("Order Priority", VStr "High");
     ("Order Date", VStr "1/1/2020"); ("Order ID", VStr "100");
     ("Ship Date", VStr "1/5/2020"); ("Units Sold", VStr "10");
     ("Unit Price", VStr "2"); ("Unit Cost", VStr "1"); ("Total Revenue", VStr "20");
     ("Total Cost", VStr "10"); ("Total Profit", VStr "10");
     ("Order Processing Time", VInt 4); ("Gross Margin", VFloat 0.5)].

Definition out_b : Transform.out_row :=
  list_to_map
    [("Region", VStr "Europe"); ("Country", VStr "France"); ("Item Type", VStr "Snacks");
     ("Sales Channel", VStr "Offline"); ("Order Priority", VStr "Low");
     ("Order Date", VStr "2/27/2020"); ("Order ID", VStr "101");
     ("Ship Date", VStr "3/1/2020"); ("Units Sold", VStr "30");
     ("Unit Price", VStr "2"); ("Unit Cost", VStr "1"); ("Total Revenue", VStr "0");
     ("Total Cost", VStr "30"); ("Total Profit", VStr "0");
     ("Order Processing Time", VInt 3); ("Gross Margin", VInt 0)].

Definition out : list Transform.out_row := [out_a; out_b].

Definition output : file :=
  [names ++ added;
   ["Asia"; "Japan"; "Snacks"; "Online"; "High"; "1/1/2020"; "100"; "1/5/2020";
    "10"; "2"; "1"; "20"; "10"; "10"; "4"; "0.5"];
   ["Europe"; "France"; "Snacks"; "Offline"; "Low"; "2/27/2020"; "101"; "3/1/2020";
    "30"; "2"; "1"; "0"; "30"; "0"; "3"; "0"]].

Definition loaded : list order :=
  [mkorder "Asia" "Japan" "Snacks" "Online" "High" "1/1/2020" 100 "1/5/2020" 10
           2 1 20 10 10 4 0.5;
   mkorder "Europe" "France" "Snacks" "Offline" "Low" "2/27/2020" 101 "3/1/2020" 30
           2 1 0 30 0 3 0].

End SampleFile.

(** * Properties of Transform.py *)

(** Closes an equation between closed terms by evaluation. *)
Ltac vm_refl :=
  lazymatch goal with |- _ = ?rhs => vm_cast_no_check (@eq_refl _ rhs) end.

Module ResultFacts.

(** Inversion of a bind in the [result] monad. *)
Lemma bind_Ok {A B} (r : result A) (f : A -> result B) (b : B) :
  (r ≫= f) = Ok b -> exists a, r = Ok a /\ f a = Ok b.
Proof. destruct r as [a|e]; simpl; [eauto | discriminate]. Qed.

Lemma bind_Raise {A B} (r : result A) (f : A -> result B) (e : exn) :
  (r ≫= f) = Raise e -> r = Raise e \/ exists a, r = Ok a /\ f a = Raise e.
Proof. destruct r as [a|e']; simpl; [eauto | intros [= ->]; auto]. Qed.

End ResultFacts.

Module TransformFacts.
Import Transform ResultFacts.

Lemma getitem_Ok (row : raw_row) k c : getitem row k = Ok c -> row !! k = Some c.
Proof. unfold getitem. destruct (row !! k); congruence. Qed.

Lemma of_cell_inj c1 c2 : of_cell c1 = of_cell c2 -> c1 = c2.
Proof. destruct c1, c2; simpl; congruence. Qed.

Lemma gross_margin_spec tp tr :
  gross_margin tp tr =
  Ok (if PrimFloat.eqb tr 0%float then VInt 0 else VFloat (PrimFloat.div tp tr)).
Proof.
  unfold gross_margin, float_truthy, float_truediv.
  destruct (PrimFloat.eqb tr 0%float); reflexivity.
Qed.

Lemma getitem_no_zdiv (row : raw_row) k : getitem row k ≠ Raise ZeroDivisionError.
Proof. unfold getitem. destruct (row !! k); discriminate. Qed.

Lemma strptime_no_zdiv s : Date.strptime s ≠ Raise ZeroDivisionError.
Proof.
  unfold Date.strptime. destruct (negb (Date.all_ascii s)); [discriminate|].
  destruct (Date.match_format s) as [[[[m d] y] rest]|]; [|discriminate].
  destruct rest; [|discriminate]. destruct (y =? 0); [discriminate|].
  destruct (Date.valid _); discriminate.
Qed.

Lemma strptime_cell_no_zdiv c : strptime_cell c ≠ Raise ZeroDivisionError.
Proof. destruct c; simpl; [apply strptime_no_zdiv | discriminate]. Qed.

Section WithFloat.
Variable py_float : string -> option float.

Lemma float_cell_Ok c x :
  float_cell py_float c = Ok x -> exists s, c = Some s /\ py_float s = Some x.
Proof.
  destruct c as [s|]; simpl; [|discriminate].
  destruct (py_float s) eqn:E; [|discriminate]. intros [= <-]. eauto.
Qed.

Lemma float_cell_no_zdiv c : float_cell py_float c ≠ Raise ZeroDivisionError.
Proof. destruct c as [s|]; simpl; [destruct (py_float s)|]; discriminate. Qed.

(** What [enrich] returns, field by field. *)
Lemma enrich_Ok (row : raw_row) (o : out_row) :
  enrich py_float row = Ok o ->
  exists od os d1 d2 op sp sr tp tr,
    row !! "Order Date" = Some (Some od) /\ Date.strptime od = Ok d1 /\
    row !! "Ship Date" = Some (Some os) /\ Date.strptime os = Ok d2 /\
    row !! "Order Priority" = Some op /\
    row !! "Total Profit" = Some (Some sp) /\ py_float sp = Some tp /\
    row !! "Total Revenue" = Some (Some sr) /\ py_float sr = Some tr /\
    o = <["Gross Margin" :=
           if PrimFloat.eqb tr 0%float then VInt 0 else VFloat (PrimFloat.div tp tr)]>
        (<["Order Priority" := VStr (priority op)]>
        (<["Order Processing Time" := VInt (Date.days_between d1 d2)]>
        (of_cell <$> row))).
Proof.
  unfold enrich. intros H.
  apply bind_Ok in H as (od & Hod & H). apply getitem_Ok in Hod.
  apply bind_Ok in H as (d1 & Hd1 & H).
  apply bind_Ok in H as (sd & Hsd & H). apply getitem_Ok in Hsd.
  apply bind_Ok in H as (d2 & Hd2 & H).
  apply bind_Ok in H as (op & Hop & H). apply getitem_Ok in Hop.
  apply bind_Ok in H as (ctp & Hctp & H). apply getitem_Ok in Hctp.
  apply bind_Ok in H as (tp & Htp & H). apply float_cell_Ok in Htp as (sp & -> & Hsp).
  apply bind_Ok in H as (ctr & Hctr & H). apply getitem_Ok in Hctr.
  apply bind_Ok in H as (tr & Htr & H). apply float_cell_Ok in Htr as (sr & -> & Hsr).
  apply bind_Ok in H as (gm & Hgm & H).
  rewrite gross_margin_spec in Hgm. injection Hgm as <-. injection H as <-.
  destruct od as [od|]; [|discriminate]. destruct sd as [os|]; [|discriminate].
  simpl in Hd1, Hd2.
  exists od, os, d1, d2, op, sp, sr, tp, tr. repeat split; assumption.
Qed.

(** [enrich] leaves every column it does not assign as it was. *)
Lemma enrich_other (row : raw_row) (o : out_row) k :
  enrich py_float row = Ok o ->
  k ≠ "Gross Margin" -> k ≠ "Order Priority" -> k ≠ "Order Processing Time" ->
  o !! k = of_cell <$> row !! k.
Proof.
  intros H H1 H2 H3.
  apply enrich_Ok in H as (od & os & d1 & d2 & op & sp & sr & tp & tr & H).
  destruct H as (_ & _ & _ & _ & _ & _ & _ & _ & _ & ->).
  rewrite !lookup_insert_ne by congruence. apply lookup_fmap.
Qed.

Lemma enrich_order_id (row : raw_row) (o : out_row) :
  enrich py_float row = Ok o -> o !! "Order ID" = of_cell <$> row !! "Order ID".
Proof. intros H. apply (enrich_other _ _ _ H); discriminate. Qed.

Lemma enrich_not_zero_division (row : raw_row) :
  enrich py_float row ≠ Raise ZeroDivisionError.
Proof.
  unfold enrich. intros H.
  repeat (apply bind_Raise in H as [H|(? & _ & H)];
          [ first [ by apply getitem_no_zdiv in H
                  | by apply strptime_cell_no_zdiv in H
                  | by apply float_cell_no_zdiv in H
                  | by rewrite gross_margin_spec in H ] | ]).
  discriminate H.
Qed.

(** ** The loop *)

Lemma loop_body_Ok st row st' :
  loop_body py_float st row = Ok st' ->
  exists oid, row !! "Order ID" = Some oid /\
    ((oid ∈ st.1 /\ st' = st) \/
     ((oid ∉ st.1) /\ exists o, enrich py_float row = Ok o /\
        st' = ({[oid]} ∪ st.1, st.2 ++ [o]))).
Proof.
  unfold loop_body. intros H.
  apply bind_Ok in H as (oid & Hoid & H). apply getitem_Ok in Hoid.
  exists oid. split; [assumption|].
  destruct (decide (oid ∈ st.1)) as [Hin|Hnin].
  - left. injection H as <-. auto.
  - right. apply bind_Ok in H as (o & Ho & H). injection H as <-. eauto.
Qed.

Lemma loop_body_seen st row oid :
  row !! "Order ID" = Some oid -> oid ∈ st.1 -> loop_body py_float st row = Ok st.
Proof.
  intros H Hin. unfold loop_body, getitem. rewrite H. simpl.
  destruct (decide (oid ∈ st.1)); [reflexivity | contradiction].
Qed.

Lemma for_each_app l1 l2 st :
  for_each py_float (l1 ++ l2) st =
  (for_each py_float l1 st ≫= for_each py_float l2).
Proof.
  revert st. induction l1 as [|row l1 IH]; intros st; simpl; [reflexivity|].
  destruct (loop_body py_float st row) as [st'|e]; simpl; [apply IH | reflexivity].
Qed.

(** The seen set only grows, and holds the Order ID of every row passed. *)
Lemma for_each_seen rows st st' :
  for_each py_float rows st = Ok st' ->
  st.1 ⊆ st'.1 /\
  forall row, row ∈ rows -> exists oid, row !! "Order ID" = Some oid /\ oid ∈ st'.1.
Proof.
  revert st. induction rows as [|row rest IH]; intros st H; simpl in H.
  - injection H as <-. split; [done|]. intros row Hrow. inversion Hrow.
  - apply bind_Ok in H as (st1 & Hb & H).
    destruct (IH _ H) as [Hsub Hall].
    apply loop_body_Ok in Hb as (oid & Hoid & [[Hin ->]|[Hnin (o & Ho & ->)]]).
    + split; [assumption|]. intros r Hr. apply elem_of_cons in Hr as [->|Hr]; [|auto].
      exists oid. split; [assumption|]. by apply Hsub.
    + simpl in *. split.
      { intros x Hx. apply Hsub, elem_of_union. by right. }
      intros r Hr. apply elem_of_cons in Hr as [->|Hr]; [|auto].
      exists oid. split; [assumption|].
      apply Hsub, elem_of_union. left. by apply elem_of_singleton.
Qed.

(** Rows whose Order IDs were all seen leave the state as it is. *)
Lemma for_each_all_seen rows st :
  (forall row, row ∈ rows -> exists oid, row !! "Order ID" = Some oid /\ oid ∈ st.1) ->
  for_each py_float rows st = Ok st.
Proof.
  induction rows as [|row rest IH]; intros H; simpl; [reflexivity|].
  destruct (H row) as (oid & Hoid & Hin); [left|].
  rewrite (loop_body_seen _ _ _ Hoid Hin). simpl.
  apply IH. intros r Hr. apply H. by right.
Qed.

Lemma loop_body_ids_ok st row st' :
  loop_body py_float st row = Ok st' -> ids_ok st -> ids_ok st'.
Proof.
  intros Hb [Hnd Hin].
  apply loop_body_Ok in Hb as (oid & Hoid & [[_ ->]|[Hnin (o & Ho & ->)]]); [done|].
  pose proof (enrich_order_id _ _ Ho) as Hid. rewrite Hoid in Hid. simpl in Hid.
  split; simpl.
  - rewrite fmap_app. apply NoDup_app. split; [assumption|]. split.
    + intros x Hx Hx'. apply list_elem_of_fmap in Hx as (o' & -> & Ho').
      apply list_elem_of_singleton in Hx'.
      destruct (Hin _ Ho') as (oid' & Hoid' & Hseen).
      rewrite Hoid', Hid in Hx'. injection Hx' as Hx'.
      apply of_cell_inj in Hx' as ->. contradiction.
    + apply NoDup_singleton.
  - intros o' Ho'. apply elem_of_app in Ho' as [Ho'|Ho'].
    + destruct (Hin _ Ho') as (oid' & ? & ?). exists oid'. split; [assumption|set_solver].
    + apply list_elem_of_singleton in Ho' as ->. exists oid. split; [assumption|set_solver].
Qed.

Lemma for_each_ids_ok rows st st' :
  for_each py_float rows st = Ok st' -> ids_ok st -> ids_ok st'.
Proof.
  revert st. induction rows as [|row rest IH]; intros st H Hok; simpl in H.
  - by injection H as <-.
  - apply bind_Ok in H as (st1 & Hb & H). eauto using loop_body_ids_ok.
Qed.

(** The list of emitted rows only grows, by enriched input rows. *)
Lemma for_each_emitted rows st st' :
  for_each py_float rows st = Ok st' ->
  exists new, st'.2 = st.2 ++ new /\
    forall o, o ∈ new -> exists row, row ∈ rows /\ enrich py_float row = Ok o.
Proof.
  revert st. induction rows as [|row rest IH]; intros st H; simpl in H.
  - injection H as <-. exists []. split; [by rewrite app_nil_r|]. intros o Ho. inversion Ho.
  - apply bind_Ok in H as (st1 & Hb & H).
    destruct (IH _ H) as (new & Hnew & Hall).
    apply loop_body_Ok in Hb as (oid & Hoid & [[_ ->]|[Hnin (o & Ho & ->)]]).
    + exists new. split; [assumption|]. intros o Ho.
      destruct (Hall o Ho) as (r & ? & ?). exists r. split; [by right | assumption].
    + exists (o :: new). simpl in *. split; [by rewrite Hnew, <- app_assoc|].
      intros o' Ho'. apply elem_of_cons in Ho' as [->|Ho'].
      * exists row. split; [left | assumption].
      * destruct (Hall o' Ho') as (r & ? & ?). exists r. split; [by right | assumption].
Qed.

(** The first row carrying an Order ID not yet seen is enriched and
    emitted. *)
Lemma for_each_first rows st st' i row oid :
  for_each py_float rows st = Ok st' ->
  rows !! i = Some row -> row !! "Order ID" = Some oid -> oid ∉ st.1 ->
  exists j first o,
    (j <= i)%nat /\ rows !! j = Some first /\ first !! "Order ID" = Some oid /\
    (forall k r, (k < j)%nat -> rows !! k = Some r -> r !! "Order ID" ≠ Some oid) /\
    enrich py_float first = Ok o /\ o ∈ st'.2.
Proof.
  revert st i. induction rows as [|r0 rest IH]; intros st i H Hi Hoid Hnin; [done|].
  simpl in H. apply bind_Ok in H as (st1 & Hb & H).
  destruct (decide (r0 !! "Order ID" = Some oid)) as [Heq|Hne].
  - apply loop_body_Ok in Hb as (oid' & Hoid' & Hcase).
    assert (oid' = oid) as -> by congruence.
    destruct Hcase as [[Hin _]|[_ (o & Ho & ->)]]; [contradiction|].
    destruct (for_each_emitted _ _ _ H) as (new & Hnew & _). simpl in Hnew.
    exists 0%nat, r0, o. repeat split; [lia | assumption | | assumption |].
    + intros k r Hk. lia.
    + rewrite Hnew. set_solver.
  - destruct i as [|i]; [simpl in Hi; congruence|]. simpl in Hi.
    assert (oid ∉ st1.1) as Hnin1.
    { apply loop_body_Ok in Hb as (oid' & Hoid' & [[_ ->]|[_ (o & _ & ->)]]);
        [assumption|]. simpl. intros Hu. apply elem_of_union in Hu as [Hu|Hu];
        [|contradiction]. apply elem_of_singleton in Hu. congruence. }
    destruct (IH _ _ H Hi Hoid Hnin1) as (j & first & o & Hj & Hfirst & Hfid & Hbefore & Ho & Hin).
    exists (S j), first, o. repeat split; [lia | assumption | assumption | | assumption | assumption].
    intros [|k] r Hk Hr; simpl in Hr; [congruence|]. apply (Hbefore k r); [lia | assumption].
Qed.

Lemma transform_Ok rows out :
  transform py_float rows = Ok out ->
  exists seen, for_each py_float rows (∅, []) = Ok (seen, out).
Proof.
  unfold transform. intros H. apply bind_Ok in H as ([seen acc] & Hst & H).
  injection H as <-. eauto.
Qed.

End WithFloat.
End TransformFacts.

(** ** Calendar order and ordinals *)

Module DateFacts.
Import Date.

Lemma valid_bounds d :
  valid d = true ->
  1 <= year d /\ 1 <= month d <= 12 /\ 1 <= day d <= days_in_month (year d) (month d).
Proof. unfold valid. rewrite !andb_true_iff, !Z.leb_le. tauto. Qed.

Lemma days_before_year_succ y :
  days_before_year (y + 1) = days_before_year y + 365 + (if is_leap y then 1 else 0).
Proof.
  unfold days_before_year, is_leap. cbv zeta.
  replace (y + 1 - 1) with y by lia.
  destruct (y mod 4 =? 0) eqn:E4; destruct (y mod 100 =? 0) eqn:E100;
    destruct (y mod 400 =? 0) eqn:E400; simpl;
    rewrite ?Z.eqb_eq, ?Z.eqb_neq in *;
    Z.div_mod_to_equations; lia.
Qed.

Lemma days_before_year_mono y y' : y <= y' -> days_before_year y <= days_before_year y'.
Proof.
  intros H. replace y' with (y + (y' - y)) by lia.
  assert (0 <= y' - y) as Hn by lia. revert Hn. generalize (y' - y). clear.
  intros n Hn. pattern n. apply natlike_ind; [rewrite Z.add_0_r; lia | | assumption].
  intros x Hx IH. replace (y + Z.succ x) with (y + x + 1) by lia.
  rewrite days_before_year_succ. destruct (is_leap (y + x)); lia.
Qed.

(** The last day of a month precedes the first day of every later month. *)
Lemma month_end_before y m m' :
  1 <= m -> m < m' -> m' <= 12 ->
  days_before_month y m + days_in_month y m <= days_before_month y m'.
Proof.
  intros H1 H2 H3. unfold days_before_month, days_in_month.
  assert (m = 1 \/ m = 2 \/ m = 3 \/ m = 4 \/ m = 5 \/ m = 6 \/ m = 7 \/ m = 8 \/
          m = 9 \/ m = 10 \/ m = 11) as Hm by lia.
  assert (m' = 2 \/ m' = 3 \/ m' = 4 \/ m' = 5 \/ m' = 6 \/ m' = 7 \/ m' = 8 \/
          m' = 9 \/ m' = 10 \/ m' = 11 \/ m' = 12) as Hm' by lia.
  destruct (is_leap y);
    repeat (destruct Hm as [->|Hm]); try subst m;
    repeat (destruct Hm' as [->|Hm']); try subst m'; simpl; lia.
Qed.

Lemma year_end_before y m :
  1 <= m <= 12 ->
  days_before_month y m + days_in_month y m <= 365 + (if is_leap y then 1 else 0).
Proof.
  intros H. unfold days_before_month, days_in_month.
  assert (m = 1 \/ m = 2 \/ m = 3 \/ m = 4 \/ m = 5 \/ m = 6 \/ m = 7 \/ m = 8 \/
          m = 9 \/ m = 10 \/ m = 11 \/ m = 12) as Hm by lia.
  destruct (is_leap y); repeat (destruct Hm as [->|Hm]); try subst m; simpl; lia.
Qed.

Lemma days_before_month_nonneg y m : 0 <= days_before_month y m.
Proof.
  unfold days_before_month.
  destruct ((2 <? m) && is_leap y); destruct m as [|p|p]; try lia;
    do 4 (try destruct p as [p|p|]); lia.
Qed.

(** The ordinal is strictly increasing along the calendar. *)
Lemma toordinal_lt a b :
  valid a = true -> valid b = true -> precedes a b -> toordinal a < toordinal b.
Proof.
  intros Ha Hb Hlt. apply valid_bounds in Ha, Hb. unfold toordinal.
  destruct Hlt as [Hy|[Hy [Hm|[Hm Hd]]]].
  - pose proof (year_end_before (year a) (month a)) as H1.
    pose proof (days_before_year_succ (year a)) as H2.
    pose proof (days_before_year_mono (year a + 1) (year b)) as H3.
    pose proof (days_before_month_nonneg (year b) (month b)). lia.
  - rewrite Hy in *.
    pose proof (month_end_before (year b) (month a) (month b)). lia.
  - rewrite Hy, Hm in *. lia.
Qed.

Lemma valid_in_calendar d : valid d = true -> in_calendar d.
Proof. apply valid_bounds. Qed.

Lemma toordinal_lt_calendar a b :
  in_calendar a -> in_calendar b -> precedes a b -> toordinal a < toordinal b.
Proof.
  intros Ha Hb Hlt. unfold in_calendar in Ha, Hb. unfold toordinal.
  destruct Hlt as [Hy|[Hy [Hm|[Hm Hd]]]].
  - pose proof (year_end_before (year a) (month a)) as H1.
    pose proof (days_before_year_succ (year a)) as H2.
    pose proof (days_before_year_mono (year a + 1) (year b)) as H3.
    pose proof (days_before_month_nonneg (year b) (month b)). lia.
  - rewrite Hy in *.
    pose proof (month_end_before (year b) (month a) (month b)). lia.
  - rewrite Hy, Hm in *. lia.
Qed.

(** Two days of the calendar with the same ordinal are the same day. *)
Lemma toordinal_inj a b :
  in_calendar a -> in_calendar b -> toordinal a = toordinal b -> a = b.
Proof.
  intros Ha Hb Heq.
  assert (a = b \/ precedes a b \/ precedes b a) as Htri.
  { destruct a as [ya ma da], b as [yb mb db]. unfold precedes. simpl.
    destruct (Z.lt_trichotomy ya yb) as [?|[->|?]]; [tauto | | tauto].
    destruct (Z.lt_trichotomy ma mb) as [?|[->|?]]; [tauto | | tauto].
    destruct (Z.lt_trichotomy da db) as [?|[->|?]]; tauto. }
  destruct Htri as [?|[H|H]]; [assumption| |].
  - pose proof (toordinal_lt_calendar a b Ha Hb H). lia.
  - pose proof (toordinal_lt_calendar b a Hb Ha H). lia.
Qed.

Lemma month_start_next y m :
  1 <= m -> m < 12 ->
  days_before_month y (m + 1) = days_before_month y m + days_in_month y m.
Proof.
  intros H1 H2. unfold days_before_month, days_in_month.
  assert (m = 1 \/ m = 2 \/ m = 3 \/ m = 4 \/ m = 5 \/ m = 6 \/ m = 7 \/ m = 8 \/
          m = 9 \/ m = 10 \/ m = 11) as Hm by lia.
  destruct (is_leap y); repeat (destruct Hm as [->|Hm]); try subst m; simpl; lia.
Qed.

Lemma days_in_month_pos y m : 1 <= m <= 12 -> 28 <= days_in_month y m.
Proof.
  intros H. unfold days_in_month.
  assert (m = 1 \/ m = 2 \/ m = 3 \/ m = 4 \/ m = 5 \/ m = 6 \/ m = 7 \/ m = 8 \/
          m = 9 \/ m = 10 \/ m = 11 \/ m = 12) as Hm by lia.
  destruct (is_leap y); repeat (destruct Hm as [->|Hm]); try subst m; simpl; lia.
Qed.

(** The day after a day of the calendar is a day of the calendar, and its
    ordinal is one more. *)
Lemma next_day_ordinal d :
  in_calendar d -> in_calendar (next_day d) /\ toordinal (next_day d) = toordinal d + 1.
Proof.
  intros (Hy & Hm & Hd). unfold next_day.
  destruct (day d <? days_in_month (year d) (month d)) eqn:E1.
  - apply Z.ltb_lt in E1. unfold in_calendar, toordinal. simpl. lia.
  - apply Z.ltb_ge in E1. assert (day d = days_in_month (year d) (month d)) as Hlast by lia.
    destruct (month d <? 12) eqn:E2.
    + apply Z.ltb_lt in E2. unfold in_calendar, toordinal. simpl.
      pose proof (days_in_month_pos (year d) (month d + 1)).
      rewrite month_start_next by lia. lia.
    + apply Z.ltb_ge in E2. assert (month d = 12) as H12 by lia.
      unfold in_calendar, toordinal. simpl.
      rewrite days_before_year_succ, Hlast, H12.
      unfold days_before_month, days_in_month. simpl.
      destruct (is_leap (year d)); simpl; lia.
Qed.

Lemma days_later_ordinal n d :
  in_calendar d ->
  in_calendar (days_later n d) /\ toordinal (days_later n d) = toordinal d + Z.of_nat n.
Proof.
  revert d. induction n as [|n IH]; intros d Hd; simpl days_later.
  - split; [assumption | lia].
  - destruct (next_day_ordinal d Hd) as [Hn Ho].
    destruct (IH _ Hn) as [Hc Ht]. split; [assumption | lia].
Qed.

(** Counting day by day from [a] one reaches [b] after the difference of
    the ordinals, and after no other number of days. *)
Lemma days_later_reaches a b :
  in_calendar a -> in_calendar b -> toordinal a <= toordinal b ->
  days_later (Z.to_nat (toordinal b - toordinal a)) a = b.
Proof.
  intros Ha Hb Hle.
  destruct (days_later_ordinal (Z.to_nat (toordinal b - toordinal a)) a Ha) as [Hc Ht].
  apply toordinal_inj; [assumption | assumption | lia].
Qed.

Lemma days_later_unique a b k :
  in_calendar a -> days_later k a = b -> toordinal b - toordinal a = Z.of_nat k.
Proof.
  intros Ha <-. destruct (days_later_ordinal k a Ha) as [_ Ht]. lia.
Qed.

Lemma strptime_valid s d : strptime s = Ok d -> valid d = true.
Proof.
  unfold strptime. destruct (negb (all_ascii s)); [discriminate|].
  destruct (match_format s) as [[[[m dd] y] rest]|]; [|discriminate].
  destruct rest; [|discriminate]. destruct (y =? 0); [discriminate|].
  match goal with |- context [valid ?x] => destruct (valid x) eqn:E end;
    [|discriminate].
  intros [= <-]. exact E.
Qed.

End DateFacts.

(** * The claims on Transform.py *)

Section TransformClaims.
Import Transform ResultFacts TransformFacts.
Variable py_float : string -> option float.

(** C4. The Order IDs of the emitted rows are pairwise distinct; for every
    input row, the first input row with its Order ID was enriched into an
    emitted row, which is the only emitted row carrying that ID; and a row
    that follows a row with the same Order ID contributes nothing: the
    output is the same without it. *)
Theorem transform_first_seen_wins (rows : list raw_row) (out : list out_row) :
  transform py_float rows = Ok out ->
  NoDup ((.!! "Order ID") <$> out) /\
  (forall i row, rows !! i = Some row ->
     exists oid j first o,
       row !! "Order ID" = Some oid /\
       (j <= i)%nat /\ rows !! j = Some first /\ first !! "Order ID" = Some oid /\
       (forall k r, (k < j)%nat -> rows !! k = Some r -> r !! "Order ID" ≠ Some oid) /\
       enrich py_float first = Ok o /\ o ∈ out /\
       (forall o', o' ∈ out -> o' !! "Order ID" = Some (of_cell oid) -> o' = o)) /\
  (forall l1 row l2 earlier,
     rows = l1 ++ row :: l2 -> earlier ∈ l1 ->
     earlier !! "Order ID" = row !! "Order ID" ->
     transform py_float (l1 ++ l2) = Ok out).
Proof.
  intros H. destruct (transform_Ok _ _ _ H) as (seen & Hfe).
  assert (ids_ok (seen, out)) as [Hnd Hids].
  { apply (for_each_ids_ok _ _ _ _ Hfe). split; simpl; [constructor|].
    intros o Ho. inversion Ho. }
  simpl in Hnd, Hids. split; [assumption|]. split.
  - intros i row Hi.
    destruct (for_each_seen _ _ _ _ Hfe) as [_ Hall].
    destruct (Hall row) as (oid & Hoid & _); [by eapply list_elem_of_lookup_2|].
    destruct (for_each_first _ _ _ _ _ _ oid Hfe Hi Hoid) as
      (j & first & o & Hj & Hfirst & Hfid & Hbefore & Ho & Hin); [set_solver|].
    exists oid, j, first, o. repeat split; try assumption.
    intros o' Hin' Hid'. simpl in Hin.
    pose proof (enrich_order_id _ _ _ Ho) as Hid. rewrite Hfid in Hid. simpl in Hid.
    apply list_elem_of_lookup in Hin as [a Ha]. apply list_elem_of_lookup in Hin' as [b Hb].
    assert (a = b) as ->; [|congruence].
    eapply NoDup_lookup; [exact Hnd | |]; rewrite list_lookup_fmap.
    + rewrite Ha. simpl. by rewrite Hid.
    + rewrite Hb. simpl. by rewrite Hid'.
  - intros l1 row l2 earlier -> Hearlier Hsame.
    unfold transform in *. rewrite for_each_app in *.
    destruct (for_each py_float l1 (∅, [])) as [st1|e] eqn:E1; [|exact H].
    simpl in *. destruct (for_each_seen _ _ _ _ E1) as [_ Hall].
    destruct (Hall _ Hearlier) as (oid & Hoid & Hin).
    rewrite (loop_body_seen _ st1 row oid) in H; [exact H | congruence | assumption].
Qed.

(** C5. Transforming a row sequence followed by a second copy of itself
    gives the output of transforming it once. *)
Theorem transform_twice_concatenated (rows : list raw_row) (out : list out_row) :
  transform py_float rows = Ok out ->
  transform py_float (rows ++ rows) = Ok out.
Proof.
  intros H. destruct (transform_Ok _ _ _ H) as (seen & Hfe).
  unfold transform. rewrite for_each_app, Hfe. simpl.
  rewrite for_each_all_seen; [reflexivity|].
  apply (for_each_seen _ _ _ _ Hfe).
Qed.

(** Every emitted row is an enriched input row. *)
Lemma transform_emitted (rows : list raw_row) (out : list out_row) (o : out_row) :
  transform py_float rows = Ok out -> o ∈ out ->
  exists row, row ∈ rows /\ enrich py_float row = Ok o.
Proof.
  intros H Ho. destruct (transform_Ok _ _ _ H) as (seen & Hfe).
  destruct (for_each_emitted _ _ _ _ Hfe) as (new & Hnew & Hall).
  simpl in Hnew. subst out. auto.
Qed.

Lemma for_each_no_zero_division (rows : list raw_row) st :
  for_each py_float rows st ≠ Raise ZeroDivisionError.
Proof.
  revert st. induction rows as [|row rest IH]; intros st; simpl; [discriminate|].
  intros H. apply bind_Raise in H as [H|(st' & _ & H)]; [|by apply IH in H].
  unfold loop_body in H.
  apply bind_Raise in H as [H|(oid & _ & H)]; [by apply getitem_no_zdiv in H|].
  destruct (decide (oid ∈ st.1)); [discriminate|].
  apply bind_Raise in H as [H|(? & _ & H)]; [|discriminate].
  by apply enrich_not_zero_division in H.
Qed.

(** C6. In every emitted row the Gross Margin is the quotient of the Total
    Profit by the Total Revenue when the revenue is not zero, and 0 when it
    is; no run of [transform] ends in a division fault. *)
Theorem gross_margin_emitted (rows : list raw_row) (out : list out_row) (o : out_row) :
  transform py_float rows = Ok out -> o ∈ out ->
  (exists sp sr total_profit total_revenue,
     o !! "Total Profit" = Some (VStr sp) /\ py_float sp = Some total_profit /\
     o !! "Total Revenue" = Some (VStr sr) /\ py_float sr = Some total_revenue /\
     o !! "Gross Margin" =
       Some (if PrimFloat.eqb total_revenue 0%float then VInt 0
             else VFloat (PrimFloat.div total_profit total_revenue))) /\
  (forall rows', transform py_float rows' ≠ Raise ZeroDivisionError).
Proof.
  intros H Ho. split.
  - destruct (transform_emitted _ _ _ H Ho) as (row & _ & Hen).
    pose proof (enrich_other _ _ _ "Total Profit" Hen) as Hp.
    pose proof (enrich_other _ _ _ "Total Revenue" Hen) as Hr.
    apply enrich_Ok in Hen as (od & os & d1 & d2 & op & sp & sr & tp & tr & Hen).
    destruct Hen as (_ & _ & _ & _ & _ & Hsp & Hfp & Hsr & Hfr & ->).
    exists sp, sr, tp, tr.
    rewrite Hp, Hr, Hsp, Hsr by discriminate.
    repeat split; try assumption. apply lookup_insert_eq.
  - intros rows' H'. unfold transform in H'.
    apply bind_Raise in H' as [H'|(? & _ & H')]; [|discriminate].
    by apply for_each_no_zero_division in H'.
Qed.

(** C7. In every emitted row the Order Processing Time is the number of
    whole days from the Order Date to the Ship Date, both read as
    month/day/year: counting day by day on the calendar from the Order
    Date one reaches the Ship Date after that many days and after no other
    number, and when the number is negative one counts from the Ship Date
    to the Order Date.  It is the difference of the ordinals of the two
    dates, a function of the two dates alone, 4 for 1/1/2020 and 1/5/2020,
    and negative when the Ship Date precedes the Order Date. *)
Theorem order_processing_time_emitted
    (rows : list raw_row) (out : list out_row) (o : out_row) :
  transform py_float rows = Ok out -> o ∈ out ->
  exists od sd order_date ship_date n,
    o !! "Order Date" = Some (VStr od) /\ Date.strptime od = Ok order_date /\
    o !! "Ship Date" = Some (VStr sd) /\ Date.strptime sd = Ok ship_date /\
    o !! "Order Processing Time" = Some (VInt n) /\
    (0 <= n -> Date.days_later (Z.to_nat n) order_date = ship_date) /\
    (n <= 0 -> Date.days_later (Z.to_nat (- n)) ship_date = order_date) /\
    (forall k, Date.days_later k order_date = ship_date -> n = Z.of_nat k) /\
    (forall k, Date.days_later k ship_date = order_date -> n = - Z.of_nat k) /\
    n = Date.toordinal ship_date - Date.toordinal order_date /\
    (od = "1/1/2020" -> sd = "1/5/2020" -> n = 4) /\
    (Date.precedes ship_date order_date -> n < 0).
Proof.
  intros H Ho.
  destruct (transform_emitted _ _ _ H Ho) as (row & _ & Hen).
  pose proof (enrich_other _ _ _ "Order Date" Hen) as Hod.
  pose proof (enrich_other _ _ _ "Ship Date" Hen) as Hsd.
  apply enrich_Ok in Hen as (od & os & d1 & d2 & op & sp & sr & tp & tr & Hen).
  destruct Hen as (Hrod & Hd1 & Hrsd & Hd2 & _ & _ & _ & _ & _ & ->).
  exists od, os, d1, d2, (Date.toordinal d2 - Date.toordinal d1).
  rewrite Hod, Hsd, Hrod, Hrsd by discriminate.
  assert (forall k v (m : out_row), k ≠ "Order Processing Time" ->
            <[k:=v]> m !! "Order Processing Time" = m !! "Order Processing Time") as Hne
    by (intros; by apply lookup_insert_ne).
  rewrite !Hne by discriminate. rewrite lookup_insert_eq.
  pose proof (DateFacts.valid_in_calendar _ (DateFacts.strptime_valid _ _ Hd1)) as Hc1.
  pose proof (DateFacts.valid_in_calendar _ (DateFacts.strptime_valid _ _ Hd2)) as Hc2.
  repeat split; try assumption.
  - intros Hn. apply DateFacts.days_later_reaches; [assumption | assumption | lia].
  - intros Hn.
    replace (- (Date.toordinal d2 - Date.toordinal d1))
      with (Date.toordinal d1 - Date.toordinal d2) by lia.
    apply DateFacts.days_later_reaches; [assumption | assumption | lia].
  - intros k Hk. by apply DateFacts.days_later_unique.
  - intros k Hk. pose proof (DateFacts.days_later_unique _ _ _ Hc2 Hk). lia.
  - intros -> ->. vm_compute in Hd1, Hd2. injection Hd1 as <-. injection Hd2 as <-.
    reflexivity.
  - intros Hlt. apply Z.lt_sub_0. apply DateFacts.toordinal_lt; [| |assumption].
    + apply DateFacts.strptime_valid in Hd2. exact Hd2.
    + apply DateFacts.strptime_valid in Hd1. exact Hd1.
Qed.

(** C9. In every emitted row the Order Priority is the code of the input
    row sent through the table H, C, L, M to High, Critical, Low, Medium,
    and Unknown for every other code, the empty one and a missing one
    included; the normalization has no failure case. *)
Theorem order_priority_emitted
    (rows : list raw_row) (out : list out_row) (o : out_row) :
  transform py_float rows = Ok out -> o ∈ out ->
  exists row code,
    row ∈ rows /\ enrich py_float row = Ok o /\
    row !! "Order Priority" = Some code /\
    o !! "Order Priority" = Some (VStr (priority code)) /\
    (code = Some "H" -> priority code = "High") /\
    (code = Some "C" -> priority code = "Critical") /\
    (code = Some "L" -> priority code = "Low") /\
    (code = Some "M" -> priority code = "Medium") /\
    (code = Some "X" -> priority code = "Unknown") /\
    (code = Some "" -> priority code = "Unknown") /\
    (code ≠ Some "H" -> code ≠ Some "C" -> code ≠ Some "L" -> code ≠ Some "M" ->
     priority code = "Unknown").
Proof.
  intros H Ho.
  destruct (transform_emitted _ _ _ H Ho) as (row & Hrow & Hen).
  pose proof Hen as Hen'.
  apply enrich_Ok in Hen' as (od & os & d1 & d2 & op & sp & sr & tp & tr & Hen').
  destruct Hen' as (_ & _ & _ & _ & Hop & _ & _ & _ & _ & ->).
  exists row, op. split; [assumption|]. split; [assumption|]. split; [assumption|].
  split; [by rewrite lookup_insert_ne, lookup_insert_eq|].
  repeat split; try (intros ->; reflexivity).
  intros HH HC HL HM. destruct op as [code|]; [|reflexivity].
  unfold priority, order_priority_mapping. simpl.
  rewrite !lookup_insert_ne by congruence. reflexivity.
Qed.

End TransformClaims.

Lemma transform_first_seen_wins_witness :
  Transform.transform Transform.float_of_digits Sample.rows = Ok Sample.out /\
  NoDup ((.!! "Order ID") <$> Sample.out) /\
  Transform.transform Transform.float_of_digits ([Sample.row_a; Sample.row_b] ++ []) =
    Ok Sample.out.
Proof.
  assert (Transform.transform Transform.float_of_digits Sample.rows = Ok Sample.out) as H
    by vm_refl.
  split; [exact H|].
  destruct (transform_first_seen_wins Transform.float_of_digits _ _ H) as (Hnd & _ & Hlater).
  split; [exact Hnd|].
  apply (Hlater [Sample.row_a; Sample.row_b] Sample.row_c [] Sample.row_a).
  - reflexivity.
  - left.
  - vm_refl.
Defined.

Lemma transform_twice_concatenated_witness :
  Transform.transform Transform.float_of_digits (Sample.rows ++ Sample.rows) = Ok Sample.out.
Proof.
  apply (transform_twice_concatenated Transform.float_of_digits).
  vm_refl.
Defined.

Lemma gross_margin_emitted_witness :
  Transform.transform Transform.float_of_digits Sample.rows = Ok Sample.out /\
  Sample.out_b ∈ Sample.out /\
  exists sp sr total_profit total_revenue,
    Sample.out_b !! "Total Profit" = Some (VStr sp) /\
    Transform.float_of_digits sp = Some total_profit /\
    Sample.out_b !! "Total Revenue" = Some (VStr sr) /\
    Transform.float_of_digits sr = Some total_revenue /\
    Sample.out_b !! "Gross Margin" =
      Some (if PrimFloat.eqb total_revenue 0%float then VInt 0
            else VFloat (PrimFloat.div total_profit total_revenue)).
Proof.
  assert (Transform.transform Transform.float_of_digits Sample.rows = Ok Sample.out) as H
    by vm_refl.
  assert (Sample.out_b ∈ Sample.out) as Hin by (right; left).
  split; [exact H|]. split; [exact Hin|].
  exact (proj1 (gross_margin_emitted Transform.float_of_digits _ _ _ H Hin)).
Defined.

Lemma order_processing_time_emitted_witness :
  Transform.transform Transform.float_of_digits Sample.rows = Ok Sample.out /\
  Sample.out_b ∈ Sample.out /\
  exists od sd order_date ship_date n,
    Sample.out_b !! "Order Date" = Some (VStr od) /\ Date.strptime od = Ok order_date /\
    Sample.out_b !! "Ship Date" = Some (VStr sd) /\ Date.strptime sd = Ok ship_date /\
    Sample.out_b !! "Order Processing Time" = Some (VInt n) /\
    (0 <= n -> Date.days_later (Z.to_nat n) order_date = ship_date) /\
    (n <= 0 -> Date.days_later (Z.to_nat (- n)) ship_date = order_date) /\
    (forall k, Date.days_later k order_date = ship_date -> n = Z.of_nat k) /\
    (forall k, Date.days_later k ship_date = order_date -> n = - Z.of_nat k) /\
    n = Date.toordinal ship_date - Date.toordinal order_date /\
    (od = "1/1/2020" -> sd = "1/5/2020" -> n = 4) /\
    (Date.precedes ship_date order_date -> n < 0).
Proof.
  assert (Transform.transform Transform.float_of_digits Sample.rows = Ok Sample.out) as H
    by vm_refl.
  assert (Sample.out_b ∈ Sample.out) as Hin by (right; left).
  split; [exact H|]. split; [exact Hin|].
  exact (order_processing_time_emitted Transform.float_of_digits _ _ _ H Hin).
Defined.

Lemma order_priority_emitted_witness :
  Transform.transform Transform.float_of_digits Sample.rows = Ok Sample.out /\
  Sample.out_b ∈ Sample.out /\
  exists row code,
    row ∈ Sample.rows /\ Transform.enrich Transform.float_of_digits row = Ok Sample.out_b /\
    row !! "Order Priority" = Some code /\
    Sample.out_b !! "Order Priority" = Some (VStr (Transform.priority code)) /\
    (code = Some "H" -> Transform.priority code = "High") /\
    (code = Some "C" -> Transform.priority code = "Critical") /\
    (code = Some "L" -> Transform.priority code = "Low") /\
    (code = Some "M" -> Transform.priority code = "Medium") /\
    (code = Some "X" -> Transform.priority code = "Unknown") /\
    (code = Some "" -> Transform.priority code = "Unknown") /\
    (code ≠ Some "H" -> code ≠ Some "C" -> code ≠ Some "L" -> code ≠ Some "M" ->
     Transform.priority code = "Unknown").
Proof.
  assert (Transform.transform Transform.float_of_digits Sample.rows = Ok Sample.out) as H
    by vm_refl.
  assert (Sample.out_b ∈ Sample.out) as Hin by (right; left).
  split; [exact H|]. split; [exact Hin|].
  exact (order_priority_emitted Transform.float_of_digits _ _ _ H Hin).
Defined.

(** Concrete readings of the Transform claims. *)
Example processing_time_4 :
  Sample.out_a !! "Order Processing Time" = Some (VInt 4) /\
  Sample.out_b !! "Order Processing Time" = Some (VInt (-4)) /\
  Sample.out_b !! "Gross Margin" = Some (VInt 0) /\
  Sample.out_a !! "Gross Margin" = Some (VFloat 0.25) /\
  Sample.out_a !! "Order Priority" = Some (VStr "High") /\
  Sample.out_b !! "Order Priority" = Some (VStr "Unknown").
Proof. vm_compute. repeat split. Qed.

(** * Properties of the statements of Query.py *)

Module StringFacts.

Lemma append_cons c s t : String c s +:+ t = String c (s +:+ t).
Proof. reflexivity. Qed.

Lemma append_nil_l t : "" +:+ t = t.
Proof. reflexivity. Qed.

Lemma append_nil_r s : s +:+ "" = s.
Proof. induction s as [|c s IH]; [reflexivity|]. by rewrite append_cons, IH. Qed.

Lemma append_assoc s t u : (s +:+ t) +:+ u = s +:+ (t +:+ u).
Proof. induction s as [|c s IH]; [reflexivity|]. by rewrite !append_cons, IH. Qed.

End StringFacts.

Module LexFacts.
Import Store Sql Query Generated StringFacts.

Lemma lexes_lex s toks : lexes_to s toks -> lex s = Ok toks.
Proof.
  intros (t & st & f & Hrun & Hfin & -> & _). unfold lex. rewrite Hrun. simpl.
  rewrite Hfin. reflexivity.
Qed.

Lemma lex_run_app st s1 s2 :
  lex_run st (s1 +:+ s2) =
  (p ← lex_run st s1; q ← lex_run p.2 s2; mret (p.1 ++ q.1, q.2)).
Proof.
  revert st. induction s1 as [|c s1 IH]; intros st.
  - rewrite append_nil_l. simpl. destruct (lex_run st s2) as [[t st']|e]; reflexivity.
  - rewrite append_cons. simpl.
    destruct (lex_step st c) as [[t1 st1]|e]; simpl; [|reflexivity].
    rewrite IH. destruct (lex_run st1 s1) as [[t2 st2]|e]; simpl; [|reflexivity].
    destruct (lex_run st2 s2) as [[t3 st3]|e]; simpl; [|reflexivity].
    by rewrite app_assoc.
Qed.

(** A character that belongs to no identifier and is no quote closes the
    token being read. *)
Lemma lex_step_flush st c f :
  lex_finish st = Ok f -> in_comment st = false ->
  is_ident_char c = false -> is_quote c = false ->
  lex_step st c = (p ← start_char c; mret (f ++ p.1, p.2)).
Proof.
  intros Hfin Hcom Hid Hq. destruct st as [|acc|acc|acc| | | | | |]; simpl in *;
    try discriminate.
  - injection Hfin as <-. destruct (start_char c) as [[t s]|e]; reflexivity.
  - injection Hfin as <-. rewrite Hid. reflexivity.
  - injection Hfin as <-. rewrite Hq. reflexivity.
Qed.

Lemma lexes_nil : lexes_to "" [].
Proof. exists [], LStart, []. repeat split. Qed.

Lemma lexes_sep s1 t1 c sep s2 t2 :
  lexes_to s1 t1 ->
  start_char c = Ok (sep, LStart) -> is_ident_char c = false -> is_quote c = false ->
  lexes_to s2 t2 ->
  lexes_to (s1 +:+ String c s2) (t1 ++ sep ++ t2).
Proof.
  intros (a1 & st1 & f1 & Hrun1 & Hfin1 & -> & Hcom1) Hc Hid Hq
         (a2 & st2 & f2 & Hrun2 & Hfin2 & -> & Hcom2).
  exists (a1 ++ (f1 ++ sep) ++ a2), st2, f2.
  split; [|split; [assumption|split; [|assumption]]].
  - rewrite lex_run_app, Hrun1. simpl.
    rewrite (lex_step_flush _ _ _ Hfin1 Hcom1 Hid Hq), Hc. simpl. rewrite Hrun2.
    reflexivity.
  - by rewrite <- !app_assoc.
Qed.

Lemma lexes_space s t : lexes_to s t -> lexes_to (String " " s) t.
Proof.
  intros H. apply (lexes_sep "" [] " " [] s t lexes_nil) in H; [exact H|reflexivity..].
Qed.

(** Two pieces, the second empty or opening with a space. *)
Lemma lexes_app s1 t1 s2 t2 :
  lexes_to s1 t1 -> lexes_to s2 t2 ->
  s2 = "" \/ (exists s2', s2 = String " " s2' /\ lexes_to s2' t2) ->
  lexes_to (s1 +:+ s2) (t1 ++ t2).
Proof.
  intros H1 H2 [->|(s2' & -> & H2')].
  - rewrite append_nil_r.
    destruct H2 as (a & st & f & Hrun & Hfin & -> & _). simpl in Hrun.
    injection Hrun as <- <-. injection Hfin as <-. by rewrite app_nil_r.
  - apply (lexes_sep s1 t1 " " [] s2' t2 H1); [reflexivity..|assumption].
Qed.

Lemma lexes_word (w : string) :
  lex_run LStart w = Ok ([], LIdent w) -> lexes_to w [TId w].
Proof. intros H. exists [], (LIdent w), [TId w]. repeat split. exact H. Qed.

Lemma lexes_column c : lexes_to (column_name c) [TId (column_name c)].
Proof. apply lexes_word. destruct c; reflexivity. Qed.

Lemma lexes_eq : lexes_to "=" [TEq].
Proof. exists [TEq], LStart, []. repeat split. Qed.

Lemma snoc_append acc c s : snoc acc c +:+ s = acc +:+ String c s.
Proof. unfold snoc. by rewrite append_assoc. Qed.

(** The body of a string literal and its closing quote. *)
Lemma lex_run_literal acc v :
  clean v = true ->
  lex_run (LStr acc) (v +:+ "'") = Ok ([], LStrQ (acc +:+ v)).
Proof.
  revert acc. induction v as [|c v IH]; intros acc Hv.
  - rewrite append_nil_l, append_nil_r. reflexivity.
  - simpl in Hv. apply andb_true_iff in Hv as [Hc Hv].
    apply andb_true_iff in Hc as [Hq _]. apply negb_true_iff in Hq.
    rewrite append_cons. simpl. rewrite Hq. simpl.
    rewrite (IH _ Hv), snoc_append. reflexivity.
Qed.

Lemma lexes_literal v : clean v = true -> lexes_to (String "'" (v +:+ "'")) [TStr v].
Proof.
  intros Hv. exists [], (LStrQ v), [TStr v]. repeat split.
  simpl. rewrite (lex_run_literal "" v Hv). reflexivity.
Qed.

Lemma has_nul_app s t : has_nul (s +:+ t) = has_nul s || has_nul t.
Proof.
  induction s as [|c s IH]; [reflexivity|].
  rewrite append_cons. simpl. by rewrite IH, orb_assoc.
Qed.

Lemma clean_no_nul v : clean v = true -> has_nul v = false.
Proof.
  induction v as [|c v IH]; [reflexivity|]. simpl. intros H.
  apply andb_true_iff in H as [Hc Hv]. apply andb_true_iff in Hc as [_ Hn].
  apply negb_true_iff in Hn. by rewrite Hn, (IH Hv).
Qed.

Lemma strip_prefix_app p s : strip_prefix p (p +:+ s) = Some s.
Proof.
  induction p as [|c p IH]; [by destruct s|].
  rewrite append_cons. simpl. by rewrite Ascii.eqb_refl.
Qed.

End LexFacts.

Module TextFacts.
Import Store Sql Query Generated StringFacts LexFacts.

Lemma filter_term_active filters k c :
  filter_term filters k (column_name c) =
  term <$> (if truthy (filters !! k) then [(c, default "" (filters !! k))] else []).
Proof. unfold filter_term. destruct (truthy (filters !! k)); reflexivity. Qed.

(** The list [query_filters] is made of the terms of the active
    comparisons. *)
Lemma query_filters_active filters :
  query_filters filters = term <$> active filters.
Proof.
  unfold query_filters, active, filter_keys.
  change "Region" with (column_name CRegion) at 2.
  change "ItemType" with (column_name CItemType).
  change "SalesChannel" with (column_name CSalesChannel).
  change "OrderPriority" with (column_name COrderPriority).
  change "Country" with (column_name CCountry) at 2.
  rewrite !filter_term_active. simpl.
  destruct (truthy (filters !! "Region")), (truthy (filters !! "Item Type")),
    (truthy (filters !! "Sales Channel")), (truthy (filters !! "Order Priority")),
    (truthy (filters !! "Country")); reflexivity.
Qed.

Lemma active_columns filters cv :
  cv ∈ active filters ->
  exists k, (k, cv.1) ∈ filter_keys /\ filters !! k = Some cv.2 /\ cv.2 ≠ "".
Proof.
  unfold active. intros H. apply list_elem_of_omap in H as ([k c] & Hin & H).
  simpl in H. destruct (filters !! k) as [v|] eqn:E; simpl in H; [|discriminate].
  destruct (String.eqb v "") eqn:Ev; simpl in H; [discriminate|].
  injection H as <-. simpl. exists k. split; [assumption|]. split; [exact E|].
  by apply String.eqb_neq.
Qed.

Lemma active_clean filters :
  clean_filters filters -> Forall (fun cv => clean cv.2 = true) (active filters).
Proof.
  intros Hc. apply Forall_forall. intros cv Hcv.
  destruct (active_columns _ _ Hcv) as (k & Hk & Hv & _).
  apply (Hc (k, cv.1) cv.2 Hk Hv).
Qed.

Lemma active_text filters :
  Forall (fun cv => column_type cv.1 = TEXT) (active filters).
Proof.
  apply Forall_forall. intros cv Hcv.
  destruct (active_columns _ _ Hcv) as (k & Hk & _).
  unfold filter_keys in Hk. destruct cv as [c v]. simpl in *.
  repeat (apply elem_of_cons in Hk as [[= _ ->]|Hk]; [reflexivity|]).
  inversion Hk.
Qed.

(** ** Lexing the generated text *)

Lemma lexes_term cv : clean cv.2 = true -> lexes_to (term cv) (term_tokens cv).
Proof.
  intros Hv. unfold term, term_tokens.
  apply (lexes_sep (column_name cv.1) [TId (column_name cv.1)] " " []
           ("=" +:+ String " " (String "'" (cv.2 +:+ "'"))) [TEq; TStr cv.2]);
    [apply lexes_column | reflexivity.. |].
  apply (lexes_sep "=" [TEq] " " [] (String "'" (cv.2 +:+ "'")) [TStr cv.2]);
    [apply lexes_eq | reflexivity.. |].
  by apply lexes_literal.
Qed.

Lemma lexes_terms conds :
  conds ≠ [] -> Forall (fun cv => clean cv.2 = true) conds ->
  lexes_to (join " AND " (term <$> conds)) (terms_tokens conds).
Proof.
  induction conds as [|cv rest IH]; [done|]. intros _ Hall.
  apply Forall_cons in Hall as [Hcv Hrest].
  destruct rest as [|cv' rest'].
  - simpl. by apply lexes_term.
  - change (join " AND " (term <$> cv :: cv' :: rest')) with
      (term cv +:+ String " " ("AND" +:+ String " " (join " AND " (term <$> cv' :: rest')))).
    change (terms_tokens (cv :: cv' :: rest')) with
      (term_tokens cv ++ [] ++ [TId "AND"] ++ [] ++ terms_tokens (cv' :: rest')).
    apply lexes_sep; [by apply lexes_term | reflexivity.. |].
    apply lexes_sep; [by apply lexes_word | reflexivity.. |].
    by apply IH.
Qed.

Lemma lexes_where conds :
  Forall (fun cv => clean cv.2 = true) conds ->
  lexes_to (where_clause (term <$> conds)) (where_tokens conds).
Proof.
  intros Hall. destruct conds as [|cv rest]; [apply lexes_nil|].
  change (where_clause (term <$> cv :: rest)) with
    (String " " ("WHERE" +:+ String " " (join " AND " (term <$> cv :: rest)))).
  apply lexes_space.
  change (where_tokens (cv :: rest)) with
    ([TId "WHERE"] ++ [] ++ terms_tokens (cv :: rest)).
  apply lexes_sep; [by apply lexes_word | reflexivity.. |].
  by apply lexes_terms.
Qed.

Lemma lex_run_ident acc s :
  all_ident_chars s = true -> lex_run (LIdent acc) s = Ok ([], LIdent (acc +:+ s)).
Proof.
  revert acc. induction s as [|c s IH]; intros acc H.
  - by rewrite append_nil_r.
  - simpl in H. apply andb_true_iff in H as [Hc Hs].
    simpl. rewrite Hc. simpl. rewrite (IH _ Hs), snoc_append. reflexivity.
Qed.

Lemma ident_start_char c :
  is_ident_start c = true -> start_char c = Ok ([], LIdent (String c EmptyString)).
Proof.
  intros H. unfold start_char. rewrite H.
  assert (is_space c = false) as ->; [|reflexivity].
  unfold is_ident_start, is_space in *. cbv zeta in *.
  destruct (code c =? 32) eqn:E1; [apply Z.eqb_eq in E1; rewrite E1 in H; discriminate|].
  destruct (code c =? 9) eqn:E2; [apply Z.eqb_eq in E2; rewrite E2 in H; discriminate|].
  destruct (code c =? 10) eqn:E3; [apply Z.eqb_eq in E3; rewrite E3 in H; discriminate|].
  destruct (code c =? 12) eqn:E4; [apply Z.eqb_eq in E4; rewrite E4 in H; discriminate|].
  destruct (code c =? 13) eqn:E5; [apply Z.eqb_eq in E5; rewrite E5 in H; discriminate|].
  reflexivity.
Qed.

(** An identifier is read as one token. *)
Lemma lexes_ident w : is_identifier w = true -> lexes_to w [TId w].
Proof.
  intros H. apply lexes_word. destruct w as [|c w]; [discriminate|].
  simpl in H. apply andb_true_iff in H as [Hc Hw].
  simpl. rewrite (ident_start_char _ Hc). simpl.
  rewrite (lex_run_ident _ _ Hw). reflexivity.
Qed.

Lemma lexes_names names :
  names ≠ [] -> Forall (fun n => is_identifier n = true) names ->
  lexes_to (join ", " names) (names_tokens names).
Proof.
  induction names as [|n rest IH]; [done|]. intros _ Hall.
  apply Forall_cons in Hall as [Hn Hrest].
  destruct rest as [|n' rest'].
  - simpl. by apply lexes_ident.
  - change (join ", " (n :: n' :: rest')) with
      (n +:+ String "," (String " " (join ", " (n' :: rest')))).
    change (names_tokens (n :: n' :: rest')) with
      ([TId n] ++ [TComma] ++ names_tokens (n' :: rest')).
    apply lexes_sep; [by apply lexes_ident | reflexivity.. |].
    apply lexes_space. by apply IH.
Qed.

Lemma lexes_group_body names :
  names ≠ [] -> Forall (fun n => is_identifier n = true) names ->
  lexes_to ("GROUP" +:+ String " " ("BY" +:+ String " " (join ", " names)))
           (group_tokens names).
Proof.
  intros Hne Hall. destruct names as [|n rest]; [done|].
  change (group_tokens (n :: rest)) with
    ([TId "GROUP"] ++ [] ++ [TId "BY"] ++ [] ++ names_tokens (n :: rest)).
  apply lexes_sep; [by apply lexes_word | reflexivity.. |].
  apply lexes_sep; [by apply lexes_word | reflexivity.. |].
  by apply lexes_names.
Qed.

Lemma lexes_group names :
  Forall (fun n => is_identifier n = true) names ->
  lexes_to (group_by_clause names) (group_tokens names).
Proof.
  intros Hall. destruct names as [|n rest]; [apply lexes_nil|].
  change (group_by_clause (n :: rest)) with
    (String " " ("GROUP" +:+ String " " ("BY" +:+ String " " (join ", " (n :: rest))))).
  apply lexes_space. by apply lexes_group_body.
Qed.

(** The tail of both statements. *)
Lemma lexes_tail conds names :
  Forall (fun cv => clean cv.2 = true) conds ->
  Forall (fun n => is_identifier n = true) names ->
  lexes_to (where_clause (term <$> conds) +:+ group_by_clause names)
           (where_tokens conds ++ group_tokens names).
Proof.
  intros Hall Hn. apply lexes_app; [by apply lexes_where | by apply lexes_group |].
  destruct names as [|n rest]; [by left|]. right.
  exists ("GROUP" +:+ String " " ("BY" +:+ String " " (join ", " (n :: rest)))).
  split; [reflexivity|]. by apply lexes_group_body.
Qed.

End TextFacts.

Module ParseFacts.
Import Store Sql Query Generated StringFacts LexFacts TextFacts.

Lemma column_of_name_name c : column_of_name (column_name c) = Some c.
Proof. destruct c; reflexivity. Qed.

Lemma column_name_not_kw c k :
  k = "AND" \/ k = "OR" \/ k = "GROUP" -> is_kw k (TId (column_name c)) = false.
Proof. intros [->|[->| ->]]; destruct c; reflexivity. Qed.

Lemma term_tokens_no_kw cv k :
  k = "AND" \/ k = "OR" \/ k = "GROUP" ->
  Forall (fun t => is_kw k t = false) (term_tokens cv).
Proof.
  intros Hk. unfold term_tokens.
  repeat constructor. by apply column_name_not_kw.
Qed.

Lemma terms_tokens_no_kw conds k :
  k = "OR" \/ k = "GROUP" ->
  Forall (fun t => is_kw k t = false) (terms_tokens conds).
Proof.
  intros Hk. induction conds as [|cv rest IH]; [constructor|].
  destruct rest as [|cv' rest'].
  - apply term_tokens_no_kw. tauto.
  - change (terms_tokens (cv :: cv' :: rest')) with
      (term_tokens cv ++ TId "AND" :: terms_tokens (cv' :: rest')).
    apply Forall_app. split; [apply term_tokens_no_kw; tauto|].
    constructor; [|exact IH]. destruct Hk as [->| ->]; reflexivity.
Qed.

Lemma split_kw_none k ts :
  Forall (fun t => is_kw k t = false) ts -> split_kw k ts = [ts].
Proof.
  induction 1 as [|t ts Ht _ IH]; [reflexivity|].
  simpl. by rewrite Ht, IH.
Qed.

Lemma split_kw_sep k a b :
  Forall (fun t => is_kw k t = false) a ->
  split_kw k (a ++ TId k :: b) = a :: split_kw k b.
Proof.
  induction 1 as [|t ts Ht _ IH]; simpl.
  - by rewrite String.eqb_refl.
  - by rewrite Ht, IH.
Qed.

Lemma split_and_terms conds :
  conds ≠ [] -> split_kw "AND" (terms_tokens conds) = term_tokens <$> conds.
Proof.
  induction conds as [|cv rest IH]; [done|]. intros _.
  destruct rest as [|cv' rest'].
  - simpl terms_tokens. rewrite split_kw_none; [reflexivity|].
    apply term_tokens_no_kw. tauto.
  - change (terms_tokens (cv :: cv' :: rest')) with
      (term_tokens cv ++ TId "AND" :: terms_tokens (cv' :: rest')).
    rewrite split_kw_sep by (apply term_tokens_no_kw; tauto).
    by rewrite IH.
Qed.

Lemma parse_term cv :
  column_type cv.1 = TEXT ->
  parse_comparison (term_tokens cv) = Some (Col cv.1, Lit cv.2).
Proof.
  intros Ht. unfold term_tokens, parse_comparison, parse_operand.
  rewrite column_of_name_name, Ht. reflexivity.
Qed.

Lemma parse_terms conds :
  Forall (fun cv => column_type cv.1 = TEXT) conds ->
  mapM parse_comparison (term_tokens <$> conds) =
  Some ((fun cv : column * string => (Col cv.1, Lit cv.2)) <$> conds).
Proof.
  induction 1 as [|cv rest Hcv _ IH]; [reflexivity|].
  change (mapM parse_comparison (term_tokens <$> cv :: rest)) with
    (y ← parse_comparison (term_tokens cv);
     k ← mapM parse_comparison (term_tokens <$> rest); mret (y :: k)).
  rewrite (parse_term _ Hcv), IH. reflexivity.
Qed.

Lemma parse_condition_terms conds :
  conds ≠ [] -> Forall (fun cv => column_type cv.1 = TEXT) conds ->
  parse_condition (terms_tokens conds) = where_of conds.
Proof.
  intros Hne Ht. unfold parse_condition.
  rewrite split_kw_none by (apply terms_tokens_no_kw; tauto).
  simpl. rewrite (split_and_terms _ Hne), (parse_terms _ Ht). simpl.
  destruct conds; [done | reflexivity].
Qed.

Lemma parse_group_term_name c :
  groupable c = true -> parse_group_term (column_name c) = Some c.
Proof. intros H. unfold parse_group_term. by rewrite column_of_name_name, H. Qed.

Lemma group_names_tokens names :
  names ≠ [] -> group_names (names_tokens names) = Some names.
Proof.
  induction names as [|n rest IH]; [done|]. intros _.
  destruct rest as [|n' rest']; [reflexivity|].
  change (names_tokens (n :: n' :: rest')) with
    (TId n :: TComma :: names_tokens (n' :: rest')).
  change (group_names (TId n :: TComma :: names_tokens (n' :: rest'))) with
    (ns ← group_names (names_tokens (n' :: rest')); mret (n :: ns)).
  rewrite IH by done. reflexivity.
Qed.

Lemma resolve_group_nil : resolve_group [] = Ok [].
Proof. reflexivity. Qed.

Lemma parse_group_tokens names :
  parse_group (group_tokens names) = resolve_group names.
Proof.
  destruct names as [|n rest]; [reflexivity|].
  unfold group_tokens, parse_group. simpl andb. cbv iota.
  by rewrite group_names_tokens.
Qed.

(** The name of a TEXT or INTEGER column is an identifier, no keyword, no
    name of the select list, and has a value. *)
Lemma groupable_name c :
  groupable c = true ->
  is_identifier (column_name c) = true /\
  (is_keyword (column_name c) || is_alias (column_name c)) = false /\
  has_value (column_name c) = true.
Proof. destruct c; intros H; try discriminate; repeat split; reflexivity. Qed.

Lemma mapM_columns cols :
  Forall (fun c => groupable c = true) cols ->
  mapM parse_group_term (column_name <$> cols) = Some cols.
Proof.
  induction 1 as [|c cols Hc _ IH]; [reflexivity|].
  change (mapM parse_group_term (column_name <$> c :: cols)) with
    (y ← parse_group_term (column_name c);
     k ← mapM parse_group_term (column_name <$> cols); mret (y :: k)).
  rewrite (parse_group_term_name _ Hc), IH. reflexivity.
Qed.

(** The names of TEXT and INTEGER columns, no more of them than the engine
    allows, are resolved to these columns. *)
Lemma resolve_columns cols :
  Forall (fun c => groupable c = true) cols -> (length cols <= max_terms)%nat ->
  resolve_group (column_name <$> cols) = Ok cols.
Proof.
  intros Hall Hlen. unfold resolve_group.
  assert (existsb (fun s => is_keyword s || is_alias s) (column_name <$> cols) = false)
    as ->.
  { induction Hall as [|c cols Hc _ IH]; [reflexivity|].
    rewrite fmap_cons. cbn [existsb].
    destruct (groupable_name c Hc) as (_ & -> & _). simpl in Hlen. apply IH. lia. }
  assert (List.find (fun s => negb (has_value s)) (column_name <$> cols) = None) as ->.
  { clear Hlen. induction Hall as [|c cols Hc _ IH]; [reflexivity|].
    rewrite fmap_cons. cbn [List.find].
    destruct (groupable_name c Hc) as (_ & _ & ->). exact IH. }
  rewrite (mapM_columns _ Hall).
  apply Nat.ltb_ge in Hlen. by rewrite Hlen.
Qed.

Lemma columns_identifiers cols :
  Forall (fun c => groupable c = true) cols ->
  Forall (fun n => is_identifier n = true) (column_name <$> cols).
Proof.
  intros H. apply Forall_fmap. eapply Forall_impl; [exact H|].
  intros c Hc. by destruct (groupable_name c Hc).
Qed.

Lemma break_group_app a b :
  Forall (fun t => is_kw "GROUP" t = false) a ->
  b = [] \/ (exists b', b = TId "GROUP" :: b') ->
  break_group (a ++ b) = (a, b).
Proof.
  intros Ha Hb. induction Ha as [|t ts Ht _ IH]; simpl.
  - destruct Hb as [->|(b' & ->)]; reflexivity.
  - by rewrite Ht, IH.
Qed.

(** The tokens of a generated tail parse to the condition the request
    reads as, and to the grouping its names resolve to. *)
Lemma parse_tail_generated conds names :
  Forall (fun cv => column_type cv.1 = TEXT) conds ->
  parse_tail (where_tokens conds ++ group_tokens names) =
  (g ← resolve_group names; mret (mkplan (where_of conds) g)).
Proof.
  intros Ht. destruct conds as [|cv rest].
  - simpl where_tokens. simpl app. unfold parse_tail.
    rewrite parse_group_tokens.
    destruct names as [|n names']; reflexivity.
  - unfold where_tokens. rewrite <- app_comm_cons. unfold parse_tail.
    rewrite String.eqb_refl.
    rewrite break_group_app.
    + cbn [fst snd].
      rewrite parse_condition_terms by done.
      rewrite parse_group_tokens. reflexivity.
    + apply terms_tokens_no_kw. tauto.
    + destruct names; [by left | right; eauto].
Qed.

Lemma has_nul_join sep l :
  has_nul sep = false -> Forall (fun s => has_nul s = false) l ->
  has_nul (join sep l) = false.
Proof.
  intros Hsep. induction 1 as [|x l Hx _ IH]; [reflexivity|].
  destruct l as [|y l']; [exact Hx|].
  change (join sep (x :: y :: l')) with (x +:+ sep +:+ join sep (y :: l')).
  by rewrite !has_nul_app, Hx, Hsep, IH.
Qed.

Lemma ident_chars_no_nul s : all_ident_chars s = true -> has_nul s = false.
Proof.
  induction s as [|c s IH]; [reflexivity|]. simpl. intros H.
  apply andb_true_iff in H as [Hc Hs]. rewrite (IH Hs), orb_false_r.
  destruct (code c =? 0) eqn:E; [|reflexivity].
  apply Z.eqb_eq in E. unfold is_ident_char, is_ident_start, Date.is_digit in Hc.
  cbv zeta in Hc. fold (code c) in Hc. rewrite E in Hc. discriminate.
Qed.

Lemma identifier_no_nul s : is_identifier s = true -> has_nul s = false.
Proof.
  destruct s as [|c s]; [discriminate|]. intros H.
  apply ident_chars_no_nul. simpl in *.
  apply andb_true_iff in H as [Hc Hs]. rewrite Hs, andb_true_r.
  unfold is_ident_char. by rewrite Hc.
Qed.

Lemma has_nul_tail conds names :
  Forall (fun cv => clean cv.2 = true) conds ->
  Forall (fun n => is_identifier n = true) names ->
  has_nul (where_clause (term <$> conds) +:+ group_by_clause names) = false.
Proof.
  intros Hc Hn. rewrite has_nul_app. apply orb_false_iff. split.
  - destruct conds as [|cv rest]; [reflexivity|].
    change (where_clause (term <$> cv :: rest)) with
      (" WHERE " +:+ join " AND " (term <$> cv :: rest)).
    rewrite has_nul_app. change (has_nul " WHERE ") with false.
    rewrite orb_false_l. apply has_nul_join; [reflexivity|].
    apply Forall_forall. intros s Hs.
    apply list_elem_of_fmap in Hs as ([c v] & -> & Hin).
    rewrite Forall_forall in Hc. specialize (Hc _ Hin). cbn [snd] in Hc.
    unfold term. cbn [fst snd].
    rewrite !has_nul_app, (clean_no_nul _ Hc). destruct c; reflexivity.
  - destruct names as [|n rest]; [reflexivity|].
    change (group_by_clause (n :: rest)) with
      (" GROUP BY " +:+ join ", " (n :: rest)).
    rewrite has_nul_app. change (has_nul " GROUP BY ") with false.
    rewrite orb_false_l. apply has_nul_join; [reflexivity|].
    eapply Forall_impl; [exact Hn|]. intros s Hs. by apply identifier_no_nul.
Qed.

Lemma tail_starts_clean conds names :
  match where_clause (term <$> conds) +:+ group_by_clause names with
  | String c _ => is_space c = true
  | EmptyString => True
  end.
Proof.
  destruct conds as [|cv rest]; [destruct names as [|n names']|]; reflexivity || exact I.
Qed.

(** The plan of a generated statement whose Group By names are
    identifiers. *)
Lemma plan_of_names head conds names :
  has_nul head = false ->
  Forall (fun cv => clean cv.2 = true) conds ->
  Forall (fun cv => column_type cv.1 = TEXT) conds ->
  Forall (fun n => is_identifier n = true) names ->
  plan_of head ((head +:+ where_clause (term <$> conds)) +:+ group_by_clause names) =
  (g ← resolve_group names; mret (mkplan (where_of conds) g)).
Proof.
  intros Hhead Hc Ht Hn. unfold plan_of.
  rewrite append_assoc, has_nul_app, Hhead, (has_nul_tail _ _ Hc Hn). simpl.
  rewrite strip_prefix_app.
  pose proof (tail_starts_clean conds names) as Hstart.
  rewrite (lexes_lex _ _ (lexes_tail conds names Hc Hn)).
  destruct (where_clause (term <$> conds) +:+ group_by_clause names) as [|c tail].
  - simpl. by rewrite (parse_tail_generated _ _ Ht).
  - rewrite Hstart. simpl. by rewrite (parse_tail_generated _ _ Ht).
Qed.

(** The plan of a generated statement whose Group By names are those of
    TEXT and INTEGER columns. *)
Lemma plan_of_generated head conds cols :
  has_nul head = false ->
  Forall (fun cv => clean cv.2 = true) conds ->
  Forall (fun cv => column_type cv.1 = TEXT) conds ->
  Forall (fun c => groupable c = true) cols ->
  (length cols <= max_terms)%nat ->
  plan_of head ((head +:+ where_clause (term <$> conds))
                  +:+ group_by_clause (column_name <$> cols)) =
  Ok (mkplan (where_of conds) cols).
Proof.
  intros Hhead Hc Ht Hg Hlen.
  rewrite (plan_of_names _ _ _ Hhead Hc Ht (columns_identifiers _ Hg)).
  by rewrite (resolve_columns _ Hg Hlen).
Qed.

End ParseFacts.

Module QueryFacts.
Import Store Sql Query Generated StringFacts LexFacts TextFacts ParseFacts.

Lemma text_of_text c o : column_type c = TEXT -> exists x, text_of c o = Some x.
Proof. destruct c; simpl; intros H; try discriminate; eauto. Qed.

Lemma eqb_bool_decide (x v : string) :
  String.eqb x v = bool_decide (Some x = Some v).
Proof.
  destruct (String.eqb_spec x v) as [->|Hne].
  - by rewrite bool_decide_eq_true_2.
  - rewrite bool_decide_eq_false_2; [reflexivity|]. intros [= ?]. contradiction.
Qed.

(** A record matches when every active comparison holds on it. *)
Lemma matches_active filters o :
  matches filters o =
  forallb (fun cv : column * string =>
             String.eqb (default "" (text_of cv.1 o)) cv.2) (active filters).
Proof.
  unfold matches, active.
  assert (Forall (fun kc : string * column => column_type kc.2 = TEXT) filter_keys) as Ht
    by (repeat constructor).
  induction Ht as [|[k c] l Hc _ IH]; [reflexivity|].
  cbn [forallb omap list_omap fst snd]. rewrite IH. clear IH.
  destruct (text_of_text c o Hc) as [x Hx].
  destruct (filters !! k) as [v|] eqn:E; cbn [truthy]; [|reflexivity].
  destruct (String.eqb v ""); cbn [negb]; [reflexivity|].
  cbn [forallb fst snd default]. rewrite Hx. cbn [default from_option].
  by rewrite eqb_bool_decide.
Qed.

Lemma forallb_fmap {A B} (f : A -> B) (p : B -> bool) l :
  forallb p (f <$> l) = forallb (fun x => p (f x)) l.
Proof. induction l as [|x l IH]; [reflexivity|]. cbn. by rewrite <- IH. Qed.

Lemma select_where_active filters db :
  select_where (where_of (active filters)) db = List.filter (matches filters) db.
Proof.
  destruct (active filters) as [|cv rest] eqn:E.
  - simpl. symmetry. induction db as [|o db IH]; [reflexivity|].
    simpl. rewrite matches_active, E. simpl. by rewrite IH.
  - unfold where_of, select_where. apply List.filter_ext. intros o.
    rewrite matches_active, E. unfold eval_condition.
    cbn [existsb]. rewrite orb_false_r, forallb_fmap. reflexivity.
Qed.

(** The filter statement, sent with clean values, selects the records
    that match the request read literally. *)
Lemma fetch_filter_generated db ev :
  clean_filters (Filters ev) ->
  fetch_filter db (sql_query_filters ev) = Ok (List.filter (matches (Filters ev)) db).
Proof.
  intros Hc. unfold fetch_filter, sql_query_filters.
  rewrite query_filters_active.
  pose proof (plan_of_generated sql_query_filters_head (active (Filters ev)) []
                eq_refl (active_clean _ Hc) (active_text _) (List.Forall_nil _)
                (Nat.le_0_l _)) as Hp.
  change (group_by_clause (column_name <$> [])) with "" in Hp.
  rewrite append_nil_r in Hp. rewrite Hp. simpl.
  by rewrite select_where_active.
Qed.

Section WithArithmetic.
Variable ar : arithmetic.

(** The aggregation statement, sent with clean values and the names of
    groupable columns, aggregates the matching records group by
    group. *)
Lemma fetch_agg_generated db ev cols :
  clean_filters (Filters ev) ->
  Group_By ev = column_name <$> cols ->
  Forall (fun c => groupable c = true) cols ->
  (length cols <= max_terms)%nat ->
  fetch_agg ar db (sql_query_agg ev) =
  match cols with
  | [] => r ← aggregate ar (List.filter (matches (Filters ev)) db); mret [r]
  | _ => mapM (aggregate ar) (group_rows cols (List.filter (matches (Filters ev)) db))
  end.
Proof.
  intros Hc Hg Hcols Hlen. unfold fetch_agg, sql_query_agg.
  rewrite query_filters_active, Hg.
  rewrite (plan_of_generated sql_query_agg_head (active (Filters ev)) cols
             eq_refl (active_clean _ Hc) (active_text _) Hcols Hlen).
  simpl. unfold aggregate_plan. simpl. rewrite select_where_active.
  by destruct cols.
Qed.

Lemma aggregate_nil :
  aggregate ar [] =
  Ok (mkagg VNone VNone VNone VNone VNone VNone VNone VNone (VInt 0)).
Proof. reflexivity. Qed.

End WithArithmetic.

(** ** Groups *)



Lemma group_keys_nil cols : group_keys cols [] = [].
Proof. reflexivity. Qed.

Lemma group_rows_nil cols : group_rows cols [] = [].
Proof. reflexivity. Qed.




End QueryFacts.

Module HandlerFacts.
Import Store Sql Query Generated ResultFacts StringFacts LexFacts TextFacts ParseFacts
  QueryFacts.

Lemma filter_term_ext (f g : gmap string string) k col :
  truthy (f !! k) = truthy (g !! k) ->
  (truthy (f !! k) = true -> f !! k = g !! k) ->
  filter_term f k col = filter_term g k col.
Proof.
  unfold filter_term. intros Ht Hv. rewrite <- Ht.
  destruct (truthy (f !! k)); [|reflexivity]. by rewrite Hv.
Qed.

(** [query_filters] reads the five keys of [filter_keys] and no other. *)
Lemma query_filters_ext (f g : gmap string string) :
  (forall k, k ∈ (fst <$> filter_keys) ->
     truthy (f !! k) = truthy (g !! k) /\ (truthy (f !! k) = true -> f !! k = g !! k)) ->
  query_filters f = query_filters g.
Proof.
  intros H. unfold query_filters.
  rewrite (filter_term_ext f g "Region"), (filter_term_ext f g "Item Type"),
    (filter_term_ext f g "Sales Channel"), (filter_term_ext f g "Order Priority"),
    (filter_term_ext f g "Country"); try reflexivity;
    apply H, list_elem_of_In; simpl; tauto.
Qed.

Lemma query_filters_insert_other (f : gmap string string) k v :
  k ∉ (fst <$> filter_keys) -> query_filters (<[k:=v]> f) = query_filters f.
Proof.
  intros Hk. apply query_filters_ext. intros k' Hk'.
  rewrite lookup_insert_ne by (intros ->; contradiction). auto.
Qed.



Section WithArithmetic.
Variable ar : arithmetic.

(** The handler depends on the request through the two statements and
    the two required parameters. *)
Lemma lambda_handler_ext db ev ev' :
  bucket_name ev = bucket_name ev' -> key ev = key ev' ->
  sql_query_filters ev = sql_query_filters ev' ->
  sql_query_agg ev = sql_query_agg ev' ->
  lambda_handler ar db ev = lambda_handler ar db ev'.
Proof.
  intros Hb Hk Hf Ha. unfold lambda_handler, handle.
  by rewrite Hb, Hk, Hf, Ha.
Qed.

Lemma lambda_handler_filters_ext db ev f :
  query_filters f = query_filters (Filters ev) ->
  lambda_handler ar db (with_filters ev f) = lambda_handler ar db ev.
Proof.
  intros H. apply lambda_handler_ext; try reflexivity.
  - unfold sql_query_filters. simpl. by rewrite H.
  - unfold sql_query_agg. simpl. by rewrite H.
Qed.

(** The handler on a request with the required parameters, clean filter
    values and groupable Group By columns. *)
Lemma handle_generated db ev cols :
  truthy (bucket_name ev) = true -> truthy (key ev) = true ->
  clean_filters (Filters ev) ->
  Group_By ev = column_name <$> cols ->
  Forall (fun c => groupable c = true) cols ->
  (length cols <= max_terms)%nat ->
  handle ar db ev =
  (agg_result ←
     match cols with
     | [] => r ← aggregate ar (List.filter (matches (Filters ev)) db); mret [r]
     | _ => mapM (aggregate ar)
              (group_rows cols (List.filter (matches (Filters ev)) db))
     end;
   aggregations ← aggregations_of agg_result;
   mret (list_to_map [("statusCode", RInt 200); ("aggregations", RDict aggregations)])).
Proof.
  intros Hb Hk Hc Hg Hcols Hlen. unfold handle. rewrite Hb, Hk. simpl.
  rewrite (fetch_filter_generated _ _ Hc). simpl.
  rewrite (fetch_agg_generated ar db ev cols Hc Hg Hcols Hlen). reflexivity.
Qed.

(** A Group By of identifiers of which one has no value: the filter
    statement is carried out, the aggregation statement is refused. *)
Lemma handle_unknown_name db ev bad :
  truthy (bucket_name ev) = true -> truthy (key ev) = true ->
  clean_filters (Filters ev) ->
  Forall (fun n => plain_name n = true) (Group_By ev) ->
  List.find (fun n => negb (has_value n)) (Group_By ev) = Some bad ->
  fetch_agg ar db (sql_query_agg ev) = Raise (NoSuchColumn bad) /\
  handle ar db ev = Raise (NoSuchColumn bad).
Proof.
  intros Hb Hk Hc Hplain Hbad.
  assert (fetch_agg ar db (sql_query_agg ev) = Raise (NoSuchColumn bad)) as Hagg.
  { unfold fetch_agg, sql_query_agg. rewrite query_filters_active.
    rewrite (plan_of_names sql_query_agg_head (active (Filters ev)) (Group_By ev)
               eq_refl (active_clean _ Hc) (active_text _)).
    - unfold resolve_group.
      assert (existsb (fun s => is_keyword s || is_alias s) (Group_By ev) = false) as ->.
      { clear Hbad. induction Hplain as [|n names Hn _ IH]; [reflexivity|].
        cbn [existsb]. rewrite IH, orb_false_r. unfold plain_name in Hn.
        apply andb_true_iff in Hn as [_ Hn]. by apply negb_true_iff in Hn. }
      rewrite Hbad. reflexivity.
    - eapply Forall_impl; [exact Hplain|]. intros n Hn. unfold plain_name in Hn.
      by apply andb_true_iff in Hn as [Hn _]. }
  split; [exact Hagg|].
  unfold handle. rewrite Hb, Hk. simpl.
  rewrite (fetch_filter_generated _ _ Hc). simpl. rewrite Hagg. reflexivity.
Qed.

End WithArithmetic.


Lemma fold_max_spec xs : forall x,
  let m := fold_left Z.max xs x in
  (m = x \/ m ∈ xs) /\ x <= m /\ forall y, y ∈ xs -> y <= m.
Proof.
  induction xs as [|z xs IH]; intros x; simpl.
  - split; [by left|]. split; [lia|]. intros y Hy. inversion Hy.
  - destruct (IH (Z.max x z)) as ([Hm|Hm] & Hle & Hall).
    + split; [|split; [lia|]].
      * destruct (Z.max_spec x z) as [[_ Hz]|[_ Hz]];
          [right; apply elem_of_cons; left | left]; congruence.
      * intros y Hy. apply elem_of_cons in Hy as [->|Hy]; [lia | by apply Hall].
    + split; [right; apply elem_of_cons; by right|]. split; [lia|].
      intros y Hy. apply elem_of_cons in Hy as [->|Hy]; [lia | by apply Hall].
Qed.

Lemma fold_min_spec xs : forall x,
  let m := fold_left Z.min xs x in
  (m = x \/ m ∈ xs) /\ m <= x /\ forall y, y ∈ xs -> m <= y.
Proof.
  induction xs as [|z xs IH]; intros x; simpl.
  - split; [by left|]. split; [lia|]. intros y Hy. inversion Hy.
  - destruct (IH (Z.min x z)) as ([Hm|Hm] & Hle & Hall).
    + split; [|split; [lia|]].
      * destruct (Z.min_spec x z) as [[_ Hz]|[_ Hz]];
          [left | right; apply elem_of_cons; left]; congruence.
      * intros y Hy. apply elem_of_cons in Hy as [->|Hy]; [lia | by apply Hall].
    + split; [right; apply elem_of_cons; by right|]. split; [lia|].
      intros y Hy. apply elem_of_cons in Hy as [->|Hy]; [lia | by apply Hall].
Qed.


Lemma count_distinct_size (xs : list Z) :
  count_distinct xs = VInt (Z.of_nat (size (list_to_set xs : gset Z))).
Proof.
  unfold count_distinct. do 2 f_equal.
  rewrite <- (size_list_to_set (C:=gset Z) (remove_dups xs)) by apply NoDup_remove_dups.
  f_equal. apply set_eq. intros x.
  by rewrite !elem_of_list_to_set, elem_of_remove_dups.
Qed.


Lemma clean_filtersb_true filters :
  clean_filtersb filters = true -> clean_filters filters.
Proof.
  unfold clean_filtersb, clean_filters. rewrite forallb_forall.
  intros H kc v Hkc Hv. apply list_elem_of_In, H in Hkc. by rewrite Hv in Hkc.
Qed.

End HandlerFacts.

(** * The claims on Query.py *)

Section QueryClaims.
Import Store Sql Query Generated ResultFacts QueryFacts HandlerFacts.
Variable ar : arithmetic.

(** C2, as the code has it.  No field name of a request is checked
    against an allow-list, and none before the data is read.  A Filters key
    other than the five the handler reads is ignored: the two statements
    and the response are those of the request without it.  The Group By
    names go into the aggregation statement as they are.  With filter
    values free of quote and NUL: the names of TEXT and INTEGER columns, on
    the allow-list or not, at most 2000 of them, are its grouping columns;
    and when the names are identifiers, none a keyword of the engine or a
    name of the select list, and one of them names no column, the filter
    statement is carried out, the engine refuses the aggregation statement
    and the response is the error that names the first such identifier. *)
Theorem request_fields_not_checked (db : list order) (ev : event) :
  (forall k v,
     k ∉ (fst <$> filter_keys) ->
     sql_query_filters (with_filters ev (<[k:=v]> (Filters ev))) = sql_query_filters ev /\
     sql_query_agg (with_filters ev (<[k:=v]> (Filters ev))) = sql_query_agg ev /\
     lambda_handler ar db (with_filters ev (<[k:=v]> (Filters ev))) =
       lambda_handler ar db ev) /\
  (forall cols,
     clean_filters (Filters ev) ->
     Group_By ev = column_name <$> cols -> cols ≠ [] ->
     Forall (fun c => groupable c = true) cols ->
     (length cols <= max_terms)%nat ->
     fetch_agg ar db (sql_query_agg ev) =
       mapM (aggregate ar) (group_rows cols (List.filter (matches (Filters ev)) db))) /\
  (forall bad,
     truthy (bucket_name ev) = true -> truthy (key ev) = true ->
     clean_filters (Filters ev) ->
     Forall (fun n => plain_name n = true) (Group_By ev) ->
     List.find (fun n => negb (has_value n)) (Group_By ev) = Some bad ->
     fetch_filter db (sql_query_filters ev) =
       Ok (List.filter (matches (Filters ev)) db) /\
     fetch_agg ar db (sql_query_agg ev) = Raise (NoSuchColumn bad) /\
     lambda_handler ar db ev = Ok (error_response (NoSuchColumn bad))).
Proof.
  split; [|split].
  - intros k v Hk.
    pose proof (query_filters_insert_other (Filters ev) k v Hk) as Hq.
    split; [|split].
    + unfold sql_query_filters. simpl. by rewrite Hq.
    + unfold sql_query_agg. simpl. by rewrite Hq.
    + by apply lambda_handler_filters_ext.
  - intros cols Hc Hg Hne Hcols Hlen.
    rewrite (fetch_agg_generated ar db ev cols Hc Hg Hcols Hlen).
    by destruct cols.
  - intros bad Hb Hk Hc Hplain Hbad.
    destruct (handle_unknown_name ar db ev bad Hb Hk Hc Hplain Hbad) as [Hagg Hh].
    split; [by apply fetch_filter_generated|]. split; [exact Hagg|].
    unfold lambda_handler. by rewrite Hh.
Qed.


(** C8, as the code has it.  When the request has its required
    parameters, filter values free of quote and NUL and a Group By of at
    most 2000 TEXT or INTEGER columns, and no stored record matches, the
    filter statement returns no record and the invocation succeeds with
    status 200.  Without Group By the [aggregations] dictionary holds None
    for the averages, the maximum, the minimum and the sums, and 0 for the
    number of orders; with a Group By it is empty.  The response has no
    other entry: the records are not part of it. *)
Theorem empty_result_response (db : list order) (ev : event) (cols : list column) :
  truthy (bucket_name ev) = true -> truthy (key ev) = true ->
  clean_filters (Filters ev) ->
  Group_By ev = column_name <$> cols ->
  Forall (fun c => groupable c = true) cols ->
  (length cols <= max_terms)%nat ->
  List.filter (matches (Filters ev)) db = [] ->
  fetch_filter db (sql_query_filters ev) = Ok [] /\
  lambda_handler ar db ev =
    Ok (success_response (match cols with [] => null_aggregations | _ => ∅ end)).
Proof.
  intros Hb Hk Hc Hg Hcols Hlen Hempty. split.
  - by rewrite (fetch_filter_generated _ _ Hc), Hempty.
  - unfold lambda_handler.
    rewrite (handle_generated ar db ev cols Hb Hk Hc Hg Hcols Hlen), Hempty.
    destruct cols as [|c cols']; reflexivity.
Qed.


End QueryClaims.

(** ** The claims on Query.py at concrete requests *)

Section QueryExamples.
Import Store Sql Query Generated SampleDb HandlerFacts.

(** C1. The code puts a filter value between quotes into the text of both
    statements.  With the value [A' OR '1'='1] for Region the condition of
    the filter statement is a disjunction that every record satisfies, so
    both records of the table are selected, while no record has that
    Region. *)
Theorem filter_value_changes_condition :
  let ev := request [("Region", "A' OR '1'='1")] [] in
  sql_query_filters ev = "SELECT * FROM orders WHERE Region = 'A' OR '1'='1'" /\
  plan_of sql_query_filters_head (sql_query_filters ev) =
    Ok (mkplan (Some [[(Col CRegion, Lit "A")]; [(Lit "1", Lit "1")]]) []) /\
  fetch_filter db (sql_query_filters ev) = Ok db /\
  List.filter (matches (Filters ev)) db = [] /\
  lambda_handler plain db ev = Ok (success_response aggs_db) /\
  aggs_db !! "Number of Orders" = Some (VInt 2).
Proof. cbv zeta. repeat split; vm_refl. Qed.

(** C2 fails on the code: a request with the filter Discount = 10% is
    answered like the request without it, with status 200 and the
    aggregates of the whole table; and a Group By on OrderDate, which is
    not on the allow-list, is carried out. *)
Lemma discount_filter_ignored :
  lambda_handler plain db (request [("Discount", "10%")] []) =
    lambda_handler plain db (request [] []) /\
  lambda_handler plain db (request [("Discount", "10%")] []) =
    Ok (success_response aggs_db) /\
  aggs_db !! "Number of Orders" = Some (VInt 2) /\
  lambda_handler plain db (request [] ["OrderDate"]) = Ok (success_response aggs_asia).
Proof. repeat split; vm_refl. Qed.


(** C8 fails on the code: on an empty table the request without filter
    gets 0, not None, as its number of orders, in a response whose only
    entries are the status and the aggregations; the request whose Region
    filter is a single quote gets the error response, the engine having
    refused the statement; and so does the request with 2001 Group By
    names, more terms than the engine takes. *)
Lemma empty_table_responses :
  lambda_handler plain [] (request [] []) = Ok (success_response null_aggregations) /\
  null_aggregations !! "Number of Orders" = Some (VInt 0) /\
  dom (success_response null_aggregations) = {[ "statusCode"; "aggregations" ]} /\
  List.filter (matches (Filters (request [("Region", "'")] []))) [] = [] /\
  lambda_handler plain [] (request [("Region", "'")] []) = Ok (error_response SqlError) /\
  lambda_handler plain [] (request [] SampleTables.too_many) =
    Ok (error_response SqlError).
Proof. repeat split; vm_refl. Qed.


End QueryExamples.

Section QueryWitnesses.
Import Store Sql Query Generated SampleDb HandlerFacts.

Lemma request_fields_not_checked_witness :
  let ev := request [("Region", "Asia")] ["OrderDate"] in
  let ev' := request [("Region", "Asia")] ["Region"; "Discount"; "Rebate"] in
  ("Discount" ∉ (fst <$> filter_keys)) /\
  lambda_handler plain db (with_filters ev (<["Discount":="10%"]> (Filters ev))) =
    lambda_handler plain db ev /\
  clean_filters (Filters ev) /\
  fetch_agg plain db (sql_query_agg ev) =
    mapM (aggregate plain)
      (group_rows [COrderDate] (List.filter (matches (Filters ev)) db)) /\
  Forall (fun n => plain_name n = true) (Group_By ev') /\
  List.find (fun n => negb (has_value n)) (Group_By ev') = Some "Discount" /\
  fetch_filter db (sql_query_filters ev') = Ok (List.filter (matches (Filters ev')) db) /\
  fetch_agg plain db (sql_query_agg ev') = Raise (NoSuchColumn "Discount") /\
  lambda_handler plain db ev' = Ok (error_response (NoSuchColumn "Discount")).
Proof.
  cbv zeta.
  assert ("Discount" ∉ (fst <$> filter_keys)) as Hk
    by (intros H; apply list_elem_of_In in H; simpl in H; intuition discriminate).
  assert (clean_filters (Filters (request [("Region", "Asia")] ["OrderDate"]))) as Hc
    by (apply clean_filtersb_true; vm_refl).
  assert (clean_filters
            (Filters (request [("Region", "Asia")] ["Region"; "Discount"; "Rebate"])))
    as Hc' by (apply clean_filtersb_true; vm_refl).
  assert (Forall (fun n => plain_name n = true)
            (Group_By (request [("Region", "Asia")] ["Region"; "Discount"; "Rebate"])))
    as Hplain by (repeat constructor).
  assert (List.find (fun n => negb (has_value n))
            (Group_By (request [("Region", "Asia")] ["Region"; "Discount"; "Rebate"])) =
          Some "Discount") as Hbad by reflexivity.
  destruct (request_fields_not_checked plain db
              (request [("Region", "Asia")] ["OrderDate"])) as (H1 & H2 & _).
  destruct (request_fields_not_checked plain db
              (request [("Region", "Asia")] ["Region"; "Discount"; "Rebate"]))
    as (_ & _ & H3).
  split; [exact Hk|]. split; [exact (proj2 (proj2 (H1 "Discount" "10%" Hk)))|].
  split; [exact Hc|]. split.
  { apply (H2 [COrderDate] Hc);
      [reflexivity | discriminate | by repeat constructor | unfold max_terms; simpl; lia]. }
  split; [exact Hplain|]. split; [exact Hbad|].
  exact (H3 "Discount" eq_refl eq_refl Hc' Hplain Hbad).
Defined.


Lemma empty_result_response_witness :
  let ev := request [("Region", "Africa")] [] in
  List.filter (matches (Filters ev)) db = [] /\
  fetch_filter db (sql_query_filters ev) = Ok [] /\
  lambda_handler plain db ev = Ok (success_response null_aggregations).
Proof.
  cbv zeta.
  assert (List.filter (matches (Filters (request [("Region", "Africa")] []))) db = [])
    as Hempty by vm_refl.
  split; [exact Hempty|].
  refine (empty_result_response plain db (request [("Region", "Africa")] []) []
            _ _ _ _ _ _ Hempty);
    [reflexivity | reflexivity | apply clean_filtersb_true; vm_refl | reflexivity
    | constructor | apply Nat.le_0_l].
Defined.


End QueryWitnesses.

(** * Further properties of Transform.py *)

Module RowsFacts.
Import Transform Rows ResultFacts TransformFacts.

Lemma order_ids_app l1 l2 : order_ids (l1 ++ l2) = order_ids l1 ++ order_ids l2.
Proof. unfold order_ids. apply omap_app. Qed.

Lemma order_ids_elem rows oid :
  oid ∈ order_ids rows <-> exists row, row ∈ rows /\ row !! "Order ID" = Some oid.
Proof. unfold order_ids. apply list_elem_of_omap. Qed.

Lemma order_ids_length rows : (length (order_ids rows) <= length rows)%nat.
Proof.
  unfold order_ids. induction rows as [|row rest IH]; [reflexivity|].
  cbn [omap list_omap]. destruct (row !! "Order ID"); cbn [length]; lia.
Qed.

Section WithFloat.
Variable py_float : string -> option float.

(** The loop from any state: the seen set grows by the Order IDs of the
    rows, the list by rows whose Order IDs were not seen, in the order of
    the input, and by as many rows as the seen set grows. *)
Lemma for_each_trace rows st st' :
  for_each py_float rows st = Ok st' ->
  st'.1 = st.1 ∪ list_to_set (order_ids rows) /\
  exists new,
    st'.2 = st.2 ++ new /\
    sublist ((fun o : out_row => o !! "Order ID") <$> new)
            ((fun c : cell => Some (of_cell c)) <$> order_ids rows) /\
    (size st'.1 = size st.1 + length new)%nat.
Proof.
  revert st. induction rows as [|row rest IH]; intros st H; simpl in H.
  - injection H as <-. split.
    + unfold order_ids. simpl. symmetry. apply union_empty_r_L.
    + exists []. rewrite app_nil_r. repeat split; [constructor | simpl; lia].
  - apply bind_Ok in H as (st1 & Hb & H).
    destruct (IH _ H) as (Hseen & new & Hnew & Hsub & Hsize).
    apply loop_body_Ok in Hb as (oid & Hoid & Hcase).
    assert (order_ids (row :: rest) = oid :: order_ids rest) as Hids
      by (unfold order_ids; simpl; by rewrite Hoid).
    rewrite Hids. destruct Hcase as [[Hin ->]|[Hnin (o & Ho & ->)]].
    + split.
      * rewrite Hseen. simpl. apply set_eq. intros x.
        rewrite !elem_of_union, elem_of_singleton.
        split; [tauto | intros [?|[->|?]]; tauto].
      * exists new. split; [assumption|]. split; [|assumption].
        simpl. by apply sublist_cons.
    + simpl in *. split.
      * rewrite Hseen. simpl. apply set_eq. intros x.
        rewrite !elem_of_union, elem_of_singleton. tauto.
      * exists (o :: new). split; [by rewrite Hnew, <- app_assoc|]. split.
        -- simpl. rewrite (enrich_order_id _ _ _ Ho), Hoid. simpl.
           by apply sublist_skip.
        -- rewrite Hsize, size_union, size_singleton by
             (apply disjoint_singleton_l; assumption).
           simpl. lia.
Qed.

(** Rows already seen under [seen] can be left out of the input. *)
Lemma for_each_filter_seen (rows : list raw_row) (seen more : gset cell)
    (acc a : list out_row) :
  for_each py_float rows (seen ∪ more, acc ++ a) =
  (st ← for_each py_float
          (List.filter (fun row : raw_row =>
             match row !! "Order ID" with
             | Some oid => bool_decide (oid ∉ seen)
             | None => true
             end) rows) (more, a);
   mret (seen ∪ st.1, acc ++ st.2)).
Proof.
  revert more a. induction rows as [|row rest IH]; intros more a; [reflexivity|].
  cbn [List.filter for_each].
  assert (forall st : loop_state, loop_body py_float st row =
            (oid ← getitem row "Order ID";
             if decide (oid ∈ st.1) then mret st
             else out ← enrich py_float row; mret ({[oid]} ∪ st.1, st.2 ++ [out])))
    as Hbody by reflexivity.
  destruct (row !! "Order ID") as [oid|] eqn:Hoid.
  - destruct (decide (oid ∈ seen)) as [HS|HS].
    + rewrite bool_decide_eq_false_2 by (intros Hn; contradiction).
      rewrite (loop_body_seen _ _ _ _ Hoid) by (simpl; apply elem_of_union; by left).
      simpl. apply IH.
    + rewrite bool_decide_eq_true_2 by assumption. cbn [for_each].
      rewrite !Hbody. unfold getitem. rewrite Hoid. cbn [mbind result_bind fst snd].
      destruct (decide (oid ∈ more)) as [HT|HT].
      * destruct (decide (oid ∈ seen ∪ more)) as [_|Hn];
          [|exfalso; apply Hn, elem_of_union; by right].
        simpl. apply IH.
      * destruct (decide (oid ∈ seen ∪ more)) as [Hu|_];
          [apply elem_of_union in Hu as [?|?]; contradiction|].
        destruct (enrich py_float row) as [o|e]; simpl; [|reflexivity].
        replace ({[oid]} ∪ (seen ∪ more)) with (seen ∪ ({[oid]} ∪ more)).
        2:{ apply set_eq. intros x. rewrite !elem_of_union. tauto. }
        rewrite <- app_assoc. apply IH.
  - cbn [for_each]. rewrite !Hbody. unfold getitem. rewrite Hoid. reflexivity.
Qed.

End WithFloat.
End RowsFacts.

Section TransformExtras.
Import Transform Rows ResultFacts TransformFacts RowsFacts.
Variable py_float : string -> option float.

(** X1. The emitted rows follow the order of the input: their Order IDs are
    a subsequence of the Order IDs of the input rows.  There is one emitted
    row for each distinct Order ID of the input, so never more rows than
    the input has. *)
Theorem transform_order_and_count (rows : list raw_row) (out : list out_row) :
  transform py_float rows = Ok out ->
  sublist ((fun o : out_row => o !! "Order ID") <$> out)
          ((fun c : cell => Some (of_cell c)) <$> order_ids rows) /\
  length out = size (list_to_set (order_ids rows) : gset cell) /\
  (length out <= length rows)%nat.
Proof.
  intros H. destruct (transform_Ok _ _ _ H) as (seen & Hfe).
  destruct (for_each_trace _ _ _ _ Hfe) as (Hseen & new & Hnew & Hsub & Hsize).
  simpl in *. subst new. rewrite ?size_empty in Hsize. simpl in Hsize.
  rewrite union_empty_l_L in Hseen. subst seen.
  split; [assumption|]. split; [by symmetry|].
  apply sublist_length in Hsub. rewrite !length_fmap in Hsub.
  etrans; [exact Hsub|]. apply order_ids_length.
Qed.

(** X2. An emitted row has the columns of the input row it comes from and
    the three assigned ones, and in every column that is not assigned it
    holds the cell of the input row. *)
Theorem emitted_row_keeps_columns (rows : list raw_row) (out : list out_row)
    (o : out_row) :
  transform py_float rows = Ok out -> o ∈ out ->
  exists row,
    row ∈ rows /\
    dom o = dom row ∪ assigned /\
    (forall k, k ∉ assigned -> o !! k = of_cell <$> row !! k).
Proof.
  intros H Ho. destruct (transform_Ok _ _ _ H) as (seen & Hfe).
  destruct (for_each_emitted _ _ _ _ Hfe) as (new & Hnew & Hall).
  simpl in Hnew. subst new. destruct (Hall o Ho) as (row & Hrow & Hen).
  exists row. split; [assumption|]. split.
  - apply enrich_Ok in Hen as (od & os & d1 & d2 & op & sp & sr & tp & tr & Hen).
    destruct Hen as (_ & _ & _ & _ & _ & _ & _ & _ & _ & ->).
    rewrite !dom_insert_L, dom_fmap_L. unfold assigned.
    apply set_eq. intros x. rewrite !elem_of_union, !elem_of_singleton. tauto.
  - intros k Hk. apply (enrich_other _ _ _ _ Hen); intros ->; apply Hk;
      unfold assigned; rewrite !elem_of_union, !elem_of_singleton; tauto.
Qed.

(** X3. Transforming a sequence followed by another: when the first is
    accepted, the result is its output followed by the output of the
    second without the rows whose Order ID occurs in the first, and fails
    as that one fails. *)
Theorem transform_app (l1 l2 : list raw_row) (out1 : list out_row) :
  transform py_float l1 = Ok out1 ->
  transform py_float (l1 ++ l2) =
  (out2 ← transform py_float (List.filter (unseen l1) l2); mret (out1 ++ out2)).
Proof.
  intros H. destruct (transform_Ok _ _ _ H) as (seen & Hfe).
  destruct (for_each_trace _ _ _ _ Hfe) as (Hseen & _). simpl in Hseen.
  rewrite union_empty_l_L in Hseen.
  unfold transform. rewrite for_each_app, Hfe. simpl.
  rewrite <- (union_empty_r_L seen) at 1. rewrite <- (app_nil_r out1) at 1.
  rewrite for_each_filter_seen.
  assert (List.filter (fun row : raw_row =>
            match row !! "Order ID" with
            | Some oid => bool_decide (oid ∉ seen)
            | None => true
            end) l2 = List.filter (unseen l1) l2) as ->.
  { apply List.filter_ext. intros row. unfold unseen.
    destruct (row !! "Order ID") as [oid|]; [|reflexivity].
    apply bool_decide_ext. rewrite Hseen, elem_of_list_to_set. reflexivity. }
  destruct (for_each py_float (List.filter (unseen l1) l2) (∅, [])) as [st|e];
    reflexivity.
Qed.

(** X4. The first row that cannot be processed ends the run with its
    exception and no output: a row without Order ID column raises KeyError
    for that column, and a row whose Order ID is new raises what its
    enrichment raises. *)
Theorem transform_first_failure (l1 l2 : list raw_row) (row : raw_row)
    (out1 : list out_row) :
  transform py_float l1 = Ok out1 ->
  (row !! "Order ID" = None ->
   transform py_float (l1 ++ row :: l2) = Raise (KeyError "Order ID")) /\
  (forall oid e,
     row !! "Order ID" = Some oid -> oid ∉ order_ids l1 ->
     enrich py_float row = Raise e ->
     transform py_float (l1 ++ row :: l2) = Raise e).
Proof.
  intros H. destruct (transform_Ok _ _ _ H) as (seen & Hfe).
  destruct (for_each_trace _ _ _ _ Hfe) as (Hseen & _). simpl in Hseen.
  rewrite union_empty_l_L in Hseen.
  unfold transform. rewrite for_each_app, Hfe. cbn [mbind result_bind for_each snd].
  assert (forall st : loop_state, loop_body py_float st row =
            (oid ← getitem row "Order ID";
             if decide (oid ∈ st.1) then mret st
             else out ← enrich py_float row; mret ({[oid]} ∪ st.1, st.2 ++ [out])))
    as Hbody by reflexivity.
  rewrite Hbody. unfold getitem. split.
  - intros ->. reflexivity.
  - intros oid e -> Hnew Hen. cbn [mbind result_bind fst].
    destruct (decide (oid ∈ seen)) as [Hin|_].
    + rewrite Hseen, elem_of_list_to_set in Hin. contradiction.
    + rewrite Hen. reflexivity.
Qed.

(** The loop succeeds when every row has an Order ID and every row that is
    the first with an Order ID not yet seen can be enriched. *)
Lemma for_each_succeeds (rows : list raw_row) (st : loop_state) :
  (forall row, row ∈ rows -> is_Some (row !! "Order ID")) ->
  (forall i row oid,
     first_at rows i row -> row !! "Order ID" = Some oid -> oid ∉ st.1 ->
     exists o, enrich py_float row = Ok o) ->
  exists st', for_each py_float rows st = Ok st'.
Proof.
  revert st. induction rows as [|row rest IH]; intros st Hids Hfirst; [by eexists|].
  destruct (Hids row) as [oid Hoid]; [left|].
  cbn [for_each].
  destruct (decide (oid ∈ st.1)) as [Hin|Hnin].
  - rewrite (loop_body_seen _ _ _ _ Hoid Hin). cbn [mbind result_bind].
    apply IH.
    + intros r Hr. apply Hids. by right.
    + intros i r oid' [Hi Hbefore] Hoid' Hnin'.
      apply (Hfirst (S i) r oid'); [|assumption..].
      split; [exact Hi|]. intros [|k] r' Hk Hr'; simpl in Hr'.
      * injection Hr' as <-. rewrite Hoid, Hoid'. intros [= ->]. contradiction.
      * apply (Hbefore k r'); [lia | assumption].
  - destruct (Hfirst 0%nat row oid) as [o Ho]; [|assumption..|].
    { split; [reflexivity|]. intros k r Hk. lia. }
    assert (loop_body py_float st row = Ok ({[oid]} ∪ st.1, st.2 ++ [o])) as ->.
    { unfold loop_body, getitem. rewrite Hoid. cbn [mbind result_bind].
      destruct (decide (oid ∈ st.1)); [contradiction|]. by rewrite Ho. }
    cbn [mbind result_bind]. apply IH.
    + intros r Hr. apply Hids. by right.
    + intros i r oid' [Hi Hbefore] Hoid' Hnin'. cbn [fst] in Hnin'.
      apply (Hfirst (S i) r oid'); [| assumption |].
      * split; [exact Hi|]. intros [|k] r' Hk Hr'; simpl in Hr'.
        -- injection Hr' as <-. rewrite Hoid, Hoid'. intros [= ->].
           apply Hnin', elem_of_union. left. by apply elem_of_singleton.
        -- apply (Hbefore k r'); [lia | assumption].
      * intros Hin. apply Hnin', elem_of_union. by right.
Qed.

(** The loop ends without exception exactly when every row has the Order
    ID column and every row that is the first with its Order ID can be
    enriched. *)
Lemma transform_Ok_iff (rows : list raw_row) :
  (exists out, transform py_float rows = Ok out) <->
  (forall row, row ∈ rows -> is_Some (row !! "Order ID")) /\
  (forall i row, first_at rows i row -> exists o, enrich py_float row = Ok o).
Proof.
  split.
  - intros [out H]. destruct (transform_Ok _ _ _ H) as (seen & Hfe).
    destruct (for_each_seen _ _ _ _ Hfe) as [_ Hall]. split.
    + intros row Hrow. destruct (Hall row Hrow) as (oid & -> & _). by eexists.
    + intros i row [Hi Hbefore].
      destruct (Hall row) as (oid & Hoid & _); [by eapply list_elem_of_lookup_2|].
      destruct (for_each_first _ _ _ _ _ _ oid Hfe Hi Hoid) as
        (j & first & o & Hj & Hfirst & Hfid & _ & Ho & _);
        [simpl; apply not_elem_of_empty|].
      destruct (decide (j = i)) as [->|Hne].
      * assert (first = row) as -> by congruence. eauto.
      * exfalso. apply (Hbefore j first); [lia | assumption | congruence].
  - intros [Hids Hfirst].
    destruct (for_each_succeeds rows (∅, []) Hids) as [st Hst].
    + intros i row oid Hf _ _. by apply (Hfirst i).
    + exists st.2. unfold transform. by rewrite Hst.
Qed.

(** X6. A row that follows a row with the same Order ID is never read
    beyond that column: with or without it the run gives the same output or
    raises the same exception, whatever its other cells hold. *)
Theorem later_duplicate_never_parsed (l1 l2 : list raw_row) (row earlier : raw_row) :
  earlier ∈ l1 -> earlier !! "Order ID" = row !! "Order ID" ->
  transform py_float (l1 ++ row :: l2) = transform py_float (l1 ++ l2).
Proof.
  intros Hearlier Hsame. unfold transform. rewrite !for_each_app.
  destruct (for_each py_float l1 (∅, [])) as [st1|e] eqn:E1; [|reflexivity].
  cbn [mbind result_bind for_each snd].
  destruct (for_each_seen _ _ _ _ E1) as [_ Hall].
  destruct (Hall _ Hearlier) as (oid & Hoid & Hin).
  rewrite (loop_body_seen _ st1 row oid); [reflexivity | congruence | assumption].
Qed.

End TransformExtras.

(** X7. For two calendar dates the day difference is positive exactly when
    the first precedes the second, zero exactly when they are the same
    date, and negative exactly when the second precedes the first. *)
Theorem days_between_sign (a b : Date.date) :
  Date.valid a = true -> Date.valid b = true ->
  (0 < Date.days_between a b <-> Date.precedes a b) /\
  (Date.days_between a b = 0 <-> a = b) /\
  (Date.days_between a b < 0 <-> Date.precedes b a).
Proof.
  intros Ha Hb.
  assert (a = b \/ Date.precedes a b \/ Date.precedes b a) as Htri.
  { destruct a as [ya ma da], b as [yb mb db]. unfold Date.precedes. simpl.
    destruct (Z.lt_trichotomy ya yb) as [?|[->|?]]; [tauto | | tauto].
    destruct (Z.lt_trichotomy ma mb) as [?|[->|?]]; [tauto | | tauto].
    destruct (Z.lt_trichotomy da db) as [?|[->|?]]; tauto. }
  pose proof (DateFacts.toordinal_lt a b Ha Hb) as Hab.
  pose proof (DateFacts.toordinal_lt b a Hb Ha) as Hba.
  unfold Date.days_between.
  destruct Htri as [->|[H|H]].
  - assert (~ Date.precedes b b) as Hirr.
    { intros Hlt. pose proof (DateFacts.toordinal_lt b b Hb Hb Hlt). lia. }
    repeat split; intros; try lia; try contradiction; reflexivity.
  - specialize (Hab H).
    repeat split; intros; try lia; try assumption.
    + subst. lia.
    + specialize (Hba H0). lia.
  - specialize (Hba H).
    repeat split; intros; try lia; try assumption.
    + specialize (Hab H0). lia.
    + subst. lia.
Qed.

(** * Further properties of Query.py *)

Module RequestsFacts.
Import Store Sql Query Generated Requests ResultFacts StringFacts LexFacts TextFacts
  ParseFacts QueryFacts HandlerFacts.

Lemma count_quotes_app s t : count_quotes (s +:+ t) = (count_quotes s + count_quotes t)%nat.
Proof.
  induction s as [|c s IH]; [reflexivity|].
  rewrite append_cons. simpl. rewrite IH. lia.
Qed.

Lemma quote_is c : is_quote c = true -> c = "'"%char.
Proof. unfold is_quote. apply Ascii.eqb_eq. Qed.

(** A plain character is read in every state of the lexer that is no
    comment; a quote takes the lexer into a string literal or out of it,
    and no other character does. *)
Lemma start_char_plain c :
  plain_char c = true ->
  exists ts st,
    start_char c = Ok (ts, st) /\ token_state st = true /\ in_literal st = is_quote c.
Proof.
  unfold plain_char, start_char. intros H.
  destruct (is_space c) eqn:Hs.
  { eexists _, _. split; [reflexivity|]. split; [reflexivity|].
    destruct (is_quote c) eqn:Hq; [|reflexivity].
    apply quote_is in Hq. subst c. discriminate. }
  destruct (is_ident_start c) eqn:Hi.
  { eexists _, _. split; [reflexivity|]. split; [reflexivity|].
    destruct (is_quote c) eqn:Hq; [|reflexivity].
    apply quote_is in Hq. subst c. discriminate. }
  destruct (is_quote c) eqn:Hq.
  { eexists _, _. repeat split. }
  destruct (Ascii.eqb c "=") eqn:He.
  { eexists _, _. repeat split. }
  destruct (Ascii.eqb c ",") eqn:Hc; [|discriminate].
  eexists _, _. repeat split.
Qed.

Lemma ident_start_not_quote c : is_ident_start c = true -> is_quote c = false.
Proof.
  intros H. destruct (is_quote c) eqn:Hq; [|reflexivity].
  apply quote_is in Hq. subst c. discriminate.
Qed.

Lemma lex_step_plain st c :
  token_state st = true -> plain_char c = true ->
  exists ts st',
    lex_step st c = Ok (ts, st') /\ token_state st' = true /\
    in_literal st' = xorb (in_literal st) (is_quote c).
Proof.
  intros Hst Hc. destruct (start_char_plain c Hc) as (ts & st1 & Hs & Ht & Hl).
  destruct st as [|acc|acc|acc| | | | | |]; try discriminate; simpl.
  - eauto.
  - destruct (is_ident_char c) eqn:Hi.
    + eexists _, _. split; [reflexivity|]. split; [reflexivity|].
      simpl. destruct (is_quote c) eqn:Hq; [|reflexivity].
      apply quote_is in Hq. subst c. discriminate.
    + rewrite Hs. simpl. eauto.
  - destruct (is_quote c); eexists _, _; repeat split.
  - destruct (is_quote c) eqn:Hq.
    + eexists _, _. repeat split.
    + rewrite Hs. simpl. eexists _, _. split; [reflexivity|]. split; [assumption|].
      exact Hl.
Qed.

Lemma lex_run_plain s : forall st,
  token_state st = true -> plain_text s = true ->
  exists ts st',
    lex_run st s = Ok (ts, st') /\ token_state st' = true /\
    in_literal st' = xorb (in_literal st) (Nat.odd (count_quotes s)).
Proof.
  induction s as [|c s IH]; intros st Hst Hs.
  - exists [], st. split; [reflexivity|]. split; [assumption|]. simpl.
    by rewrite xorb_false_r.
  - simpl in Hs. apply andb_true_iff in Hs as [Hc Hs].
    destruct (lex_step_plain st c Hst Hc) as (t1 & st1 & H1 & Ht1 & Hl1).
    destruct (IH st1 Ht1 Hs) as (t2 & st2 & H2 & Ht2 & Hl2).
    exists (t1 ++ t2), st2. simpl. rewrite H1. simpl. rewrite H2. simpl.
    split; [reflexivity|]. split; [assumption|].
    rewrite Hl2, Hl1. destruct (is_quote c); simpl.
    + rewrite Nat.odd_succ, <- Nat.negb_odd.
      destruct (in_literal st), (Nat.odd (count_quotes s)); reflexivity.
    + by rewrite xorb_false_r.
Qed.

(** A plain text with an odd number of quotes ends inside a string
    literal: the engine refuses it. *)
Lemma lex_plain_odd s :
  plain_text s = true -> Nat.odd (count_quotes s) = true -> lex s = Raise SqlError.
Proof.
  intros Hs Hodd. destruct (lex_run_plain s LStart eq_refl Hs) as (ts & st & Hrun & _ & Hl).
  unfold lex. rewrite Hrun. simpl. rewrite Hodd in Hl. simpl in Hl.
  destruct st; try discriminate. reflexivity.
Qed.

Lemma plain_text_app s t : plain_text (s +:+ t) = plain_text s && plain_text t.
Proof.
  induction s as [|c s IH]; [reflexivity|].
  rewrite append_cons. simpl. by rewrite IH, andb_assoc.
Qed.

Lemma plain_text_join sep l :
  plain_text sep = true -> Forall (fun s => plain_text s = true) l ->
  plain_text (join sep l) = true.
Proof.
  intros Hsep. induction 1 as [|x l Hx _ IH]; [reflexivity|].
  destruct l as [|y l']; [exact Hx|].
  change (join sep (x :: y :: l')) with (x +:+ sep +:+ join sep (y :: l')).
  by rewrite !plain_text_app, Hx, Hsep, IH.
Qed.

Lemma plain_where filters :
  plain_filters filters -> plain_text (where_clause (query_filters filters)) = true.
Proof.
  intros Hp. rewrite query_filters_active.
  destruct (active filters) as [|cv rest] eqn:E; [reflexivity|].
  change (where_clause (term <$> cv :: rest)) with
    (" WHERE " +:+ join " AND " (term <$> cv :: rest)).
  rewrite plain_text_app. change (plain_text " WHERE ") with true. rewrite andb_true_l.
  apply plain_text_join; [reflexivity|].
  rewrite <- E. apply Forall_forall. intros s Hs.
  apply list_elem_of_fmap in Hs as ([c v] & -> & Hin).
  destruct (active_columns _ _ Hin) as (k & Hk & Hv & _). simpl in Hk, Hv.
  pose proof (Hp (k, c) v Hk Hv) as Hplain.
  unfold term. cbn [fst snd]. rewrite !plain_text_app, Hplain.
  unfold filter_keys in Hk.
  repeat (apply elem_of_cons in Hk as [[= _ ->]|Hk]; [reflexivity|]).
  inversion Hk.
Qed.

Lemma plain_no_nul s : plain_text s = true -> has_nul s = false.
Proof.
  induction s as [|c s IH]; [reflexivity|]. simpl. intros H.
  apply andb_true_iff in H as [Hc Hs]. rewrite (IH Hs), orb_false_r.
  destruct (code c =? 0) eqn:E; [|reflexivity].
  apply Z.eqb_eq in E. unfold code in E.
  assert (N_of_ascii c = 0%N) as Hn by lia.
  assert (c = "000"%char) as -> by (by rewrite <- (ascii_N_embedding c), Hn).
  discriminate.
Qed.

Lemma count_quotes_join sep l :
  count_quotes sep = 0%nat ->
  count_quotes (join sep l) = foldr (fun s => Nat.add (count_quotes s)) 0%nat l.
Proof.
  intros Hsep. induction l as [|x l IH]; [reflexivity|].
  destruct l as [|y l'].
  - simpl. lia.
  - change (join sep (x :: y :: l')) with (x +:+ sep +:+ join sep (y :: l')).
    rewrite !count_quotes_app, Hsep, IH. reflexivity.
Qed.

Lemma count_quotes_term cv :
  (exists k, (k, cv.1) ∈ filter_keys) ->
  count_quotes (term cv) = (2 + count_quotes cv.2)%nat.
Proof.
  intros [k Hk]. unfold term. rewrite !count_quotes_app.
  unfold filter_keys in Hk. destruct cv as [c v]. simpl in *.
  repeat (apply elem_of_cons in Hk as [[= _ ->]|Hk]; [simpl; lia|]).
  inversion Hk.
Qed.

(** The quotes of the WHERE clause: two for each comparison and those of
    the values. *)
Lemma count_quotes_where filters :
  Nat.odd (count_quotes (where_clause (query_filters filters))) =
  Nat.odd (value_quotes filters).
Proof.
  rewrite query_filters_active. unfold value_quotes.
  assert (forall cv, cv ∈ active filters -> exists k, (k, cv.1) ∈ filter_keys) as Hcols.
  { intros cv Hcv. destruct (active_columns _ _ Hcv) as (k & Hk & _). eauto. }
  destruct (active filters) as [|cv rest] eqn:E; [reflexivity|].
  change (where_clause (term <$> cv :: rest)) with
    (" WHERE " +:+ join " AND " (term <$> cv :: rest)).
  rewrite count_quotes_app, count_quotes_join by reflexivity.
  change (count_quotes " WHERE ") with 0%nat. rewrite Nat.add_0_l.
  clear E. revert Hcols. generalize (cv :: rest). clear.
  intros l Hcols. induction l as [|cv l IH]; [reflexivity|].
  cbn [fmap list_fmap foldr].
  rewrite count_quotes_term by (apply Hcols; left).
  rewrite <- Nat.add_assoc, Nat.odd_add, !(Nat.odd_add (count_quotes cv.2)).
  rewrite IH by (intros cv' Hcv'; apply Hcols; by right). reflexivity.
Qed.

(** The filter statement of a request whose values are plain and hold an
    odd number of quotes is refused. *)
Lemma fetch_filter_odd db ev :
  plain_filters (Filters ev) -> Nat.odd (value_quotes (Filters ev)) = true ->
  fetch_filter db (sql_query_filters ev) = Raise SqlError.
Proof.
  intros Hp Hodd. unfold fetch_filter, sql_query_filters, plan_of.
  rewrite has_nul_app, (plain_no_nul _ (plain_where _ Hp)), orb_false_r.
  change (has_nul sql_query_filters_head) with false. cbv iota.
  rewrite strip_prefix_app.
  pose proof (plain_where _ Hp) as Hplain.
  pose proof (count_quotes_where (Filters ev)) as Hq. rewrite Hodd in Hq.
  rewrite (lex_plain_odd _ Hplain Hq).
  destruct (where_clause (query_filters (Filters ev))) as [|c tail] eqn:E;
    [discriminate|].
  assert (is_space c = true) as ->; [|reflexivity].
  rewrite query_filters_active in E.
  destruct (active (Filters ev)); [discriminate|]. by injection E as <- _.
Qed.

(** ** Integer statistics *)

Lemma sum_checked_nonneg xs : forall acc,
  0 <= acc -> Forall (fun x => 0 <= x) xs ->
  acc + fold_right Z.add 0 xs <= int64_max ->
  sum_checked acc xs = Ok (acc + fold_right Z.add 0 xs).
Proof.
  induction xs as [|x xs IH]; intros acc Hacc Hall Hsum; simpl in *.
  - f_equal. lia.
  - apply Forall_cons in Hall as [Hx Hall].
    assert (0 <= fold_right Z.add 0 xs) as Hrest.
    { clear -Hall. induction Hall as [|y ys Hy _ IHy]; simpl in *; lia. }
    assert ((int64_min <=? acc + x) && (acc + x <=? int64_max) = true) as ->.
    { apply andb_true_iff. unfold int64_min. split; apply Z.leb_le; lia. }
    rewrite IH by (assumption || lia). f_equal. lia.
Qed.

Lemma units_filter_fit (P : order -> bool) db :
  units_fit db ->
  Forall (fun x => 0 <= x) (UnitsSold <$> List.filter P db) /\
  fold_right Z.add 0 (UnitsSold <$> List.filter P db) <= int64_max.
Proof.
  intros [Hall Hsum].
  assert (Forall (fun x => 0 <= x) (UnitsSold <$> List.filter P db) /\
          fold_right Z.add 0 (UnitsSold <$> List.filter P db) <=
          fold_right Z.add 0 (UnitsSold <$> db)) as [H1 H2]; [|split; [assumption | lia]].
  clear Hsum. induction Hall as [|o db Ho Hall IH]; [split; [constructor | reflexivity]|].
  destruct IH as [IH1 IH2]. simpl in *. destruct (P o); simpl in *.
  - split; [by constructor | unfold fmap in *; lia].
  - split; [assumption | unfold fmap in *; lia].
Qed.

Lemma matches_no_filter filters o : no_filter filters -> matches filters o = true.
Proof.
  intros Hno. unfold matches. apply forallb_forall. intros kc Hkc.
  apply list_elem_of_In in Hkc. by rewrite (Hno kc Hkc).
Qed.

Lemma no_filter_clean filters : no_filter filters -> clean_filters filters.
Proof.
  intros Hno kc v Hkc Hv. specialize (Hno kc Hkc). rewrite Hv in Hno. simpl in Hno.
  apply negb_false_iff, String.eqb_eq in Hno. by subst.
Qed.

Lemma filter_all {A} (P : A -> bool) l : (forall x, P x = true) -> List.filter P l = l.
Proof.
  intros H. induction l as [|x l IH]; [reflexivity|]. simpl. by rewrite H, IH.
Qed.

End RequestsFacts.

Section QueryExtras.
Import Store Sql Query Generated Requests ResultFacts StringFacts QueryFacts HandlerFacts
  RequestsFacts.
Variable ar : arithmetic.

(** X8. A request without [bucket_name] or without [key], or with an empty
    string for one of them, is answered with status 500 and the ValueError
    of the handler, whatever its filters and Group By are: no statement is
    sent to the engine. *)
Theorem missing_parameter_response (db : list order) (ev : event) :
  truthy (bucket_name ev) = false \/ truthy (key ev) = false ->
  lambda_handler ar db ev =
    Ok (error_response (ValueError "Both 'bucket_name' and 'key' are required.")).
Proof.
  intros H. unfold lambda_handler, handle.
  assert (negb (truthy (bucket_name ev)) || negb (truthy (key ev)) = true) as ->.
  { destruct H as [-> | ->]; [reflexivity | apply orb_true_r]. }
  reflexivity.
Qed.

Lemma query_filters_no_filter filters : no_filter filters -> query_filters filters = [].
Proof.
  intros Hno.
  assert (forall k c, (k, c) ∈ filter_keys -> truthy (filters !! k) = false) as H
    by (intros k c Hkc; apply (Hno (k, c) Hkc)).
  unfold query_filters, filter_term.
  rewrite (H "Region" CRegion), (H "Item Type" CItemType),
    (H "Sales Channel" CSalesChannel), (H "Order Priority" COrderPriority),
    (H "Country" CCountry); try reflexivity;
    apply list_elem_of_In; simpl; tauto.
Qed.

(** X9. When no filter is in force (each of the five keys absent or empty)
    the filter statement is [SELECT * FROM orders] and returns the whole
    table in its order, and without Group By the aggregation statement
    aggregates the whole table. *)
Theorem no_filter_selects_all (db : list order) (ev : event) :
  no_filter (Filters ev) ->
  sql_query_filters ev = "SELECT * FROM orders" /\
  fetch_filter db (sql_query_filters ev) = Ok db /\
  (Group_By ev = [] ->
   fetch_agg ar db (sql_query_agg ev) = (r ← aggregate ar db; mret [r])).
Proof.
  intros Hno. pose proof (query_filters_no_filter _ Hno) as Hq.
  assert (sql_query_filters ev = "SELECT * FROM orders") as Htext.
  { unfold sql_query_filters. rewrite Hq. reflexivity. }
  split; [exact Htext|]. split.
  - rewrite Htext. reflexivity.
  - intros Hg. unfold sql_query_agg. rewrite Hq, Hg. reflexivity.
Qed.

Lemma filter_filter {A} (P Q : A -> bool) l :
  List.filter P (List.filter Q l) = List.filter (fun x => P x && Q x) l.
Proof.
  induction l as [|x l IH]; [reflexivity|]. simpl.
  destruct (Q x) eqn:HQ, (P x) eqn:HP; simpl; rewrite ?HP, ?IH; reflexivity.
Qed.

Lemma truthy_Some v : v ≠ "" -> truthy (Some v) = true.
Proof. intros H. simpl. apply negb_true_iff. by apply String.eqb_neq. Qed.

(** With the value [v] under a key of the handler, a record matches when
    its column equals [v] and it matches the other filters. *)
Lemma matches_insert filters kc v o :
  kc ∈ filter_keys -> v ≠ "" ->
  matches (<[kc.1 := v]> filters) o =
  bool_decide (text_of kc.2 o = Some v) && matches (delete kc.1 filters) o.
Proof.
  intros Hkc Hv. pose proof (truthy_Some v Hv) as Ht.
  unfold matches, filter_keys in *.
  repeat (apply elem_of_cons in Hkc as [->|Hkc]);
    try (by inversion Hkc);
    cbn [forallb fst snd];
    rewrite ?lookup_insert_eq, ?lookup_delete_eq, ?Ht;
    rewrite !lookup_insert_ne, !lookup_delete_ne by discriminate;
    cbn [truthy];
    repeat match goal with
    | |- context [bool_decide ?P] => generalize (bool_decide P); intro
    | |- context [truthy ?x] => generalize (truthy x); intro
    end;
    repeat match goal with b : bool |- _ => destruct b end; reflexivity.
Qed.

Lemma clean_filters_insert filters k v :
  clean_filters filters -> clean v = true -> clean_filters (<[k:=v]> filters).
Proof.
  intros Hc Hv kc v' Hkc. destruct (decide (k = kc.1)) as [->|Hne].
  - rewrite lookup_insert_eq. by intros [= <-].
  - rewrite lookup_insert_ne by done. by apply Hc.
Qed.

Lemma clean_filters_delete filters k :
  clean_filters filters -> clean_filters (delete k filters).
Proof.
  intros Hc kc v' Hkc. destruct (decide (k = kc.1)) as [->|Hne].
  - by rewrite lookup_delete_eq.
  - rewrite lookup_delete_ne by done. by apply Hc.
Qed.

(** X10. Filters are joined by AND.  A request with a clean, non-empty
    value [v] under one of the five keys selects, among the records that
    the request without that key selects, those whose column equals [v],
    in the same order. *)
Theorem filters_are_conjoined (db : list order) (ev : event) (kc : string * column)
    (v : string) :
  kc ∈ filter_keys -> v ≠ "" -> clean v = true -> clean_filters (Filters ev) ->
  exists others,
    fetch_filter db (sql_query_filters (with_filters ev (delete kc.1 (Filters ev)))) =
      Ok others /\
    fetch_filter db (sql_query_filters (with_filters ev (<[kc.1 := v]> (Filters ev)))) =
      Ok (List.filter (fun o => bool_decide (text_of kc.2 o = Some v)) others).
Proof.
  intros Hkc Hv Hcv Hc.
  exists (List.filter (matches (delete kc.1 (Filters ev))) db). split.
  - by rewrite (fetch_filter_generated db (with_filters ev (delete kc.1 (Filters ev))))
      by (by apply clean_filters_delete).
  - rewrite (fetch_filter_generated db (with_filters ev (<[kc.1 := v]> (Filters ev))))
      by (by apply clean_filters_insert).
    f_equal. rewrite filter_filter. apply List.filter_ext. intros o. simpl.
    by apply matches_insert.
Qed.

(** X11. The integer statistics of a request without Group By, with the
    required parameters and clean filter values, on a table whose units
    sold are not negative and sum up within 64 bits: the response has status
    200; Number of Orders is the number of distinct Order IDs among the
    matching records; when there is a matching record, Total Units Sold is
    the sum of their units, and Max and Min Units Sold are units of matching
    records that bound the units of all of them. *)
Theorem ungrouped_statistics (db : list order) (ev : event) :
  truthy (bucket_name ev) = true -> truthy (key ev) = true ->
  clean_filters (Filters ev) -> Group_By ev = [] -> units_fit db ->
  let matched := List.filter (matches (Filters ev)) db in
  exists aggs,
    lambda_handler ar db ev = Ok (success_response aggs) /\
    aggs !! "Number of Orders" =
      Some (VInt (Z.of_nat (size (list_to_set (OrderID <$> matched) : gset Z)))) /\
    (matched ≠ [] ->
     aggs !! "Total Units Sold" =
       Some (VInt (fold_right Z.add 0 (UnitsSold <$> matched))) /\
     exists hi lo,
       aggs !! "Max Units Sold" = Some (VInt hi) /\
       aggs !! "Min Units Sold" = Some (VInt lo) /\
       hi ∈ (UnitsSold <$> matched) /\ lo ∈ (UnitsSold <$> matched) /\
       forall o, o ∈ matched -> lo <= UnitsSold o <= hi).
Proof.
  intros Hb Hk Hc Hg Hfit matched.
  pose proof (handle_generated ar db ev [] Hb Hk Hc Hg (List.Forall_nil _) (Nat.le_0_l _)) as Hh.
  fold matched in Hh.
  destruct (units_filter_fit (matches (Filters ev)) db Hfit) as [Hpos Hsum].
  fold matched in Hpos, Hsum.
  assert (sum_integers (UnitsSold <$> matched) =
          Ok (match matched with
              | [] => VNone
              | _ => VInt (fold_right Z.add 0 (UnitsSold <$> matched))
              end)) as Hunits.
  { unfold sum_integers. destruct matched as [|o rest]; [reflexivity|].
    cbn [fmap list_fmap].
    rewrite sum_checked_nonneg; [reflexivity | lia | exact Hpos | ].
    rewrite Z.add_0_l. exact Hsum. }
  unfold aggregate in Hh. rewrite Hunits in Hh.
  cbn [mbind result_bind mret result_ret aggregations_of NumberOfOrders] in Hh.
  rewrite count_distinct_size in Hh. cbn [py_int mbind result_bind mret result_ret] in Hh.
  eexists. split; [unfold lambda_handler; rewrite Hh; reflexivity|].
  split; [reflexivity|].
  intros Hne. destruct matched as [|o rest] eqn:E; [done|].
  split; [reflexivity|].
  cbn [fmap list_fmap max_integers min_integers MaxUnitsSold MinUnitsSold].
  exists (fold_left Z.max (list_fmap _ _ UnitsSold rest) (UnitsSold o)),
         (fold_left Z.min (list_fmap _ _ UnitsSold rest) (UnitsSold o)).
  destruct (fold_max_spec (list_fmap _ _ UnitsSold rest) (UnitsSold o)) as (Hmx & Hmx1 & Hmx2).
  destruct (fold_min_spec (list_fmap _ _ UnitsSold rest) (UnitsSold o)) as (Hmn & Hmn1 & Hmn2).
  cbv zeta in *.
  split; [reflexivity|]. split; [reflexivity|].
  split; [apply elem_of_cons; destruct Hmx as [->|?]; auto|].
  split; [apply elem_of_cons; destruct Hmn as [->|?]; auto|].
  intros o' Ho'. apply elem_of_cons in Ho' as [->|Ho']; [lia|].
  assert (UnitsSold o' ∈ list_fmap _ _ UnitsSold rest) as Hin
    by (apply list_elem_of_fmap; eauto).
  split; [by apply Hmn2 | by apply Hmx2].
Qed.

(** X12. A request whose filter values are made of letters, underscores,
    blanks, equals signs, commas and quotes, and hold an odd number of
    quotes in all, is never carried out: a string literal of the filter
    statement is left open, the engine refuses that statement, no
    aggregate is computed and the response is an error response. *)
Theorem odd_quotes_never_succeed (db : list order) (ev : event) :
  plain_filters (Filters ev) ->
  Nat.odd (value_quotes (Filters ev)) = true ->
  fetch_filter db (sql_query_filters ev) = Raise SqlError /\
  exists e,
    lambda_handler ar db ev = Ok (error_response e) /\
    (truthy (bucket_name ev) = true -> truthy (key ev) = true -> e = SqlError).
Proof.
  intros Hp Hodd. pose proof (fetch_filter_odd db ev Hp Hodd) as Hf.
  split; [exact Hf|]. unfold lambda_handler, handle. rewrite Hf.
  destruct (negb (truthy (bucket_name ev)) || negb (truthy (key ev))) eqn:E; simpl.
  - eexists. split; [reflexivity|]. intros Hb Hk. by rewrite Hb, Hk in E.
  - eexists. split; [reflexivity|]. reflexivity.
Qed.

End QueryExtras.

(** * Properties of Load.py *)

Module LoadFacts.
Import Store Load ResultFacts TransformFacts.

Lemma mapM_Ok {A B} (f : A -> result B) (l : list A) (l' : list B) :
  mapM f l = Ok l' -> Forall2 (fun x y => f x = Ok y) l l'.
Proof.
  revert l'. induction l as [|x l IH]; intros l' H.
  - injection H as <-. constructor.
  - change (mapM f (x :: l)) with (y ← f x; k ← mapM f l; mret (y :: k)) in H.
    apply bind_Ok in H as (y & Hy & H). apply bind_Ok in H as (k & Hk & H).
    injection H as <-. constructor; [assumption | by apply IH].
Qed.

Lemma mapM_Raise {A B} (f : A -> result B) (l : list A) (e : exn) :
  mapM f l = Raise e -> exists x, x ∈ l /\ f x = Raise e.
Proof.
  induction l as [|x l IH]; intros H; [discriminate|].
  change (mapM f (x :: l)) with (y ← f x; k ← mapM f l; mret (y :: k)) in H.
  apply bind_Raise in H as [H|(y & _ & H)].
  - exists x. split; [left | assumption].
  - apply bind_Raise in H as [H|(k & _ & H)]; [|discriminate].
    destruct (IH H) as (x' & Hin & Hx'). exists x'. split; [by right | assumption].
Qed.

Lemma mapM_intro {A B} (f : A -> result B) (l : list A) (l' : list B) :
  Forall2 (fun x y => f x = Ok y) l l' -> mapM f l = Ok l'.
Proof.
  induction 1 as [|x y l l' Hx _ IH]; [reflexivity|].
  change (mapM f (x :: l)) with (y ← f x; k ← mapM f l; mret (y :: k)).
  rewrite Hx. cbn [mbind result_bind]. rewrite IH. reflexivity.
Qed.

Lemma bind_integer_Ok z r :
  bind_integer z = Ok r -> r = Some z /\ Sql.int64_min <= z <= Sql.int64_max.
Proof.
  unfold bind_integer.
  destruct (Sql.int64_min <=? z) eqn:E1; destruct (z <=? Sql.int64_max) eqn:E2;
    simpl; try discriminate.
  intros [= <-]. split; [reflexivity|]. lia.
Qed.

Lemma bind_integer_fits z :
  Sql.int64_min <= z <= Sql.int64_max -> bind_integer z = Ok (Some z).
Proof.
  intros [H1 H2]. unfold bind_integer.
  apply Z.leb_le in H1, H2. by rewrite H1, H2.
Qed.

Lemma bind_integer_Raise z e : bind_integer z = Raise e -> e = OverflowError.
Proof. unfold bind_integer. destruct (_ && _); congruence. Qed.

Lemma to_of_order (o : order) : to_order (of_order o) = Some o.
Proof. by destruct o. Qed.

Lemma to_order_Some (r : stored) (o : order) : to_order r = Some o -> r = of_order o.
Proof.
  destruct r as [r1 r2 r3 r4 r5 r6 r7 r8 r9 r10 r11 r12 r13 r14 r15 r16].
  unfold to_order. cbn.
  destruct r1; [|discriminate]. destruct r2; [|discriminate].
  destruct r3; [|discriminate]. destruct r4; [|discriminate].
  destruct r5; [|discriminate]. destruct r6; [|discriminate].
  destruct r7; [|discriminate]. destruct r8; [|discriminate].
  destruct r9; [|discriminate]. destruct r10; [|discriminate].
  destruct r11; [|discriminate]. destruct r12; [|discriminate].
  destruct r13; [|discriminate]. destruct r14; [|discriminate].
  destruct r15; [|discriminate]. destruct r16; [|discriminate].
  intros [= <-]. reflexivity.
Qed.

Lemma to_orders (table : list order) : mapM to_order (of_order <$> table) = Some table.
Proof.
  apply mapM_Some. induction table as [|o table IH]; constructor; [|exact IH].
  apply to_of_order.
Qed.

Lemma to_orders_inv (table : list order) (rs : list stored) (os : list order) :
  mapM to_order ((of_order <$> table) ++ rs) = Some os ->
  exists records, os = table ++ records /\ mapM to_order rs = Some records.
Proof.
  intros H. apply mapM_Some in H. apply Forall2_app_inv_l in H as (k1 & k2 & H1 & H2 & ->).
  exists k2. split; [|by apply mapM_Some]. f_equal.
  apply (proj1 (Forall2_fmap_l _ _ _ _)) in H1.
  clear H2. induction H1 as [|o o' table k1 Ho _ IH]; [reflexivity|].
  unfold compose in Ho. rewrite to_of_order in Ho. injection Ho as <-. by rewrite IH.
Qed.

Section WithParsers.
Variable py_int : string -> option Z.
Variable py_float : string -> option float.

Lemma int_cell_Ok c z :
  int_cell py_int c = Ok z -> exists s, c = Some s /\ py_int s = Some z.
Proof.
  destruct c as [s|]; simpl; [|discriminate].
  destruct (py_int s) eqn:E; [|discriminate]. intros [= <-]. eauto.
Qed.

Lemma int_cell_declines c : int_cell py_int c ≠ Raise Unsupported.
Proof. destruct c as [s|]; simpl; [|discriminate]. destruct (py_int s); discriminate. Qed.

Lemma float_cell_declines c : Transform.float_cell py_float c ≠ Raise Unsupported.
Proof. destruct c as [s|]; simpl; [|discriminate]. destruct (py_float s); discriminate. Qed.

Lemma getitem_declines (row : Transform.raw_row) k :
  Transform.getitem row k ≠ Raise Unsupported.
Proof. unfold Transform.getitem. destruct (row !! k); discriminate. Qed.

(** A row and the record inserted for it. *)
Lemma row_inserted (row : Transform.raw_row) (p : params) (r : stored) :
  row_params py_int py_float row = Ok p -> bind_params p = Ok r ->
  inserted_as py_int py_float row r.
Proof.
  unfold row_params, bind_params. intros Hp Hr.
  repeat match type of Hp with
  | (_ ≫= _) = Ok _ => let H := fresh "H" in apply bind_Ok in Hp as (? & H & Hp)
  end.
  injection Hp as <-. simpl in Hr.
  repeat match type of Hr with
  | (_ ≫= _) = Ok _ => let H := fresh "B" in apply bind_Ok in Hr as (? & H & Hr)
  end.
  injection Hr as <-.
  repeat match goal with
  | H : Transform.getitem _ _ = Ok _ |- _ => apply getitem_Ok in H
  | H : bind_integer _ = Ok _ |- _ => apply bind_integer_Ok in H as [-> ?]
  | H : int_cell _ _ = Ok _ |- _ => apply int_cell_Ok in H as (? & -> & ?)
  | H : Transform.float_cell _ _ = Ok _ |- _ => apply float_cell_Ok in H as (? & -> & ?)
  end.
  unfold inserted_as, bind_text, bind_real. simpl.
  repeat split; try assumption; eauto 10.
Qed.

(** A record is inserted for every row that can be. *)
Lemma row_insertable (row : Transform.raw_row) :
  insertable py_int py_float row ->
  exists p r, row_params py_int py_float row = Ok p /\ bind_params p = Ok r.
Proof.
  intros (H1 & H2 & H3 & H4 & H5 & H6 & H7 & H8 & H9 & H10 & H11 & H12 & H13 & H14 &
          H15 & H16).
  destruct H1 as [c1 H1], H2 as [c2 H2], H3 as [c3 H3], H4 as [c4 H4],
    H5 as [c5 H5], H6 as [c6 H6], H8 as [c8 H8].
  destruct H7 as (s7 & z7 & H7 & P7 & F7), H9 as (s9 & z9 & H9 & P9 & F9),
    H15 as (s15 & z15 & H15 & P15 & F15).
  destruct H10 as (s10 & x10 & H10 & P10), H11 as (s11 & x11 & H11 & P11),
    H12 as (s12 & x12 & H12 & P12), H13 as (s13 & x13 & H13 & P13),
    H14 as (s14 & x14 & H14 & P14), H16 as (s16 & x16 & H16 & P16).
  eexists. eexists. unfold row_params, bind_params, Transform.getitem.
  rewrite H1, H2, H3, H4, H5, H6, H7, H8, H9, H10, H11, H12, H13, H14, H15, H16.
  cbn [mbind result_bind int_cell Transform.float_cell].
  rewrite P7, P9, P10, P11, P12, P13, P14, P15, P16.
  cbn [mbind result_bind]. split; [reflexivity|].
  cbn [p_order_id p_units_sold p_order_processing_time].
  rewrite (bind_integer_fits _ F7), (bind_integer_fits _ F9), (bind_integer_fits _ F15).
  reflexivity.
Qed.

Lemma inserted_insertable (row : Transform.raw_row) (r : stored) :
  inserted_as py_int py_float row r -> insertable py_int py_float row.
Proof.
  intros (H1 & H2 & H3 & H4 & H5 & H6 & H8 & H7 & H9 & H15 & H10 & H11 & H12 & H13 &
          H14 & H16).
  destruct H7 as (s7 & z7 & H7 & P7 & _ & F7), H9 as (s9 & z9 & H9 & P9 & _ & F9),
    H15 as (s15 & z15 & H15 & P15 & _ & F15).
  destruct H10 as (s10 & x10 & H10 & P10 & _), H11 as (s11 & x11 & H11 & P11 & _),
    H12 as (s12 & x12 & H12 & P12 & _), H13 as (s13 & x13 & H13 & P13 & _),
    H14 as (s14 & x14 & H14 & P14 & _), H16 as (s16 & x16 & H16 & P16 & _).
  unfold insertable. repeat split; eauto 10.
Qed.

Lemma row_params_declines (row : Transform.raw_row) :
  row_params py_int py_float row ≠ Raise Unsupported.
Proof.
  unfold row_params. intros H.
  repeat (apply bind_Raise in H as [H|(? & _ & H)];
          [ first [ by apply getitem_declines in H
                  | by apply int_cell_declines in H
                  | by apply float_cell_declines in H ] | ]).
  discriminate H.
Qed.

Lemma bind_params_declines (p : params) : bind_params p ≠ Raise Unsupported.
Proof.
  unfold bind_params. intros H.
  repeat (apply bind_Raise in H as [H|(? & _ & H)];
          [ by apply bind_integer_Raise in H | ]).
  discriminate H.
Qed.

Lemma insert_rows_Ok table rows table' :
  insert_rows py_int py_float table rows = Ok table' ->
  exists records,
    table' = table ++ records /\ Forall2 (inserted_as py_int py_float) rows records.
Proof.
  unfold insert_rows, executemany. intros H.
  apply bind_Ok in H as (data & Hdata & H). apply bind_Ok in H as (records & Hrec & H).
  injection H as <-. exists records. split; [reflexivity|].
  apply mapM_Ok in Hdata, Hrec.
  revert records Hrec. induction Hdata as [|row p rows data Hp _ IH]; intros records Hrec.
  - inversion Hrec. constructor.
  - inversion Hrec as [|? o ? records' Ho Hrest]; subst.
    constructor; [by eapply row_inserted | by apply IH].
Qed.

Lemma insert_rows_total table rows :
  Forall (insertable py_int py_float) rows ->
  exists records, insert_rows py_int py_float table rows = Ok (table ++ records).
Proof.
  intros H.
  assert (exists data records,
            Forall2 (fun x y => row_params py_int py_float x = Ok y) rows data /\
            Forall2 (fun x y => bind_params x = Ok y) data records) as (data & recs & H1 & H2).
  { induction H as [|row rows Hrow _ (data & recs & H1 & H2)].
    - exists [], []. split; constructor.
    - destruct (row_insertable _ Hrow) as (p & r & Hp & Hr).
      exists (p :: data), (r :: recs). split; by constructor. }
  exists recs. unfold insert_rows, executemany.
  rewrite (mapM_intro _ _ _ H1). cbn [mbind result_bind].
  rewrite (mapM_intro _ _ _ H2). reflexivity.
Qed.

Lemma insert_rows_declines table rows :
  insert_rows py_int py_float table rows ≠ Raise Unsupported.
Proof.
  unfold insert_rows, executemany. intros H.
  apply bind_Raise in H as [H|(data & _ & H)].
  - apply mapM_Raise in H as (row & _ & H). by apply row_params_declines in H.
  - apply bind_Raise in H as [H|(? & _ & H)]; [|discriminate].
    apply mapM_Raise in H as (p & _ & H). by apply bind_params_declines in H.
Qed.

(** The records inserted do not depend on the table. *)
Lemma insert_rows_records table1 table2 rows records :
  insert_rows py_int py_float table1 rows = Ok (table1 ++ records) ->
  insert_rows py_int py_float table2 rows = Ok (table2 ++ records).
Proof.
  unfold insert_rows, executemany. intros H.
  apply bind_Ok in H as (data & Hdata & H). apply bind_Ok in H as (recs & Hrec & H).
  injection H as H. apply app_inv_head in H. subst recs.
  rewrite Hdata. cbn [mbind result_bind]. rewrite Hrec. reflexivity.
Qed.

(** A record inserted without NULL. *)
Lemma inserted_stored (row : Transform.raw_row) (r : stored) (o : order) :
  inserted_as py_int py_float row r -> to_order r = Some o ->
  stored_as py_int py_float row o.
Proof.
  intros H Ho. apply to_order_Some in Ho. subst r.
  destruct H as (H1 & H2 & H3 & H4 & H5 & H6 & H8 & H7 & H9 & H15 & H10 & H11 & H12 &
                 H13 & H14 & H16).
  cbn in H1, H2, H3, H4, H5, H6, H8.
  assert (forall k z,
    (exists s z', row !! k = Some (Some s) /\ py_int s = Some z' /\ Some z = Some z' /\
                  Sql.int64_min <= z' <= Sql.int64_max) ->
    exists s, row !! k = Some (Some s) /\ py_int s = Some z) as Hint.
  { intros k z (s & z' & Hk & Hp & [= ->] & _). eauto. }
  assert (forall k y,
    (exists s x, row !! k = Some (Some s) /\ py_float s = Some x /\
                 Some y = if PrimFloat.is_nan x then None else Some (stored_real x)) ->
    exists s x, row !! k = Some (Some s) /\ py_float s = Some x /\ y = stored_real x)
    as Hreal.
  { intros k y (s & x & Hk & Hp & Hy). exists s, x. split; [assumption|].
    split; [assumption|]. destruct (PrimFloat.is_nan x); congruence. }
  unfold stored_as. repeat split; try assumption;
    first [ by apply Hint | by apply Hreal ].
Qed.

Lemma load_Ok table rows table' :
  load py_int py_float table rows = Ok table' ->
  exists records,
    table' = table ++ records /\ Forall2 (stored_as py_int py_float) rows records.
Proof.
  unfold load. intros H. apply bind_Ok in H as (t & Ht & H).
  destruct (mapM to_order t) as [os|] eqn:Hos; [|discriminate]. injection H as <-.
  destruct (insert_rows_Ok _ _ _ Ht) as (recs & -> & Hall).
  destruct (to_orders_inv _ _ _ Hos) as (records & -> & Hrecs).
  exists records. split; [reflexivity|].
  apply mapM_Some in Hrecs. clear Ht Hos.
  revert records Hrecs. induction Hall as [|row r rows recs Hr _ IH]; intros records Hrecs.
  - inversion Hrecs. constructor.
  - inversion Hrecs as [|? o ? records' Ho Hrest]; subst.
    constructor; [by eapply inserted_stored | by apply IH].
Qed.

(** Loading is a function of the rows: the records added do not depend on
    the table. *)
Lemma load_records table1 table2 rows table1' :
  load py_int py_float table1 rows = Ok table1' ->
  exists records,
    table1' = table1 ++ records /\
    load py_int py_float table2 rows = Ok (table2 ++ records).
Proof.
  unfold load. intros H. apply bind_Ok in H as (t & Ht & H).
  destruct (mapM to_order t) as [os|] eqn:Hos; [|discriminate]. injection H as <-.
  destruct (insert_rows_Ok _ _ _ Ht) as (recs & -> & _).
  destruct (to_orders_inv _ _ _ Hos) as (records & -> & Hrecs).
  exists records. split; [reflexivity|].
  rewrite (insert_rows_records _ (of_order <$> table2) _ _ Ht). cbn [mbind result_bind].
  assert (mapM to_order ((of_order <$> table2) ++ recs) = Some (table2 ++ records)) as ->.
  { apply mapM_Some, Forall2_app; [apply mapM_Some, to_orders | by apply mapM_Some]. }
  reflexivity.
Qed.

End WithParsers.
End LoadFacts.

Section LoadExtras.
Import Store Sql Load Generated Requests ResultFacts QueryFacts HandlerFacts RequestsFacts
  LoadFacts.
Variable py_int : string -> option Z.
Variable py_float : string -> option float.

(** X13. The Load handler uploads a table exactly when [bucket_name] and
    [key] are true and every row of the file can be inserted: it has the
    seven text columns, in the columns Order ID, Units Sold and Order
    Processing Time a text that [int] reads as an integer within 64 bits,
    and in the five amount columns and Gross Margin a text that [float]
    reads.  The table uploaded is the table of the local database file,
    its records as they were, followed by one record for each row of the
    file, in the order of the file: it holds the seven text cells as they
    are, NULL for a cell that is [None], the three integers, and the six
    reals, NULL for NaN and zero for the negative zero.  The response then
    has status 200 and names the key [databases/] followed by the name of
    the database file.  In every other case nothing is uploaded and the
    response is the error response of an exception of the handler. *)
Theorem load_appends_records (table : list stored) (rows : list Transform.raw_row)
    (ev : Load.event) :
  let out := Load.lambda_handler py_int py_float table rows ev in
  (is_Some out.1 <->
     Query.truthy (Load.bucket_name ev) = true /\ Query.truthy (Load.key ev) = true /\
     Forall (insertable py_int py_float) rows) /\
  (forall table', out.1 = Some table' ->
     (exists records,
        table' = table ++ records /\
        Forall2 (inserted_as py_int py_float) rows records) /\
     out.2 = uploaded_response ev /\
     out.2 !! "statusCode" = Some (LInt 200) /\
     out.2 !! "s3_key" = Some (LStr ("databases/" +:+ db_name ev))) /\
  (out.1 = None ->
     exists e, out.2 = Load.error_response e /\ e ≠ Unsupported /\
               out.2 !! "statusCode" = Some (LInt 500)).
Proof.
  intros out. unfold out, Load.lambda_handler, Load.handle.
  destruct (negb (Query.truthy (Load.bucket_name ev)) ||
            negb (Query.truthy (Load.key ev))) eqn:Ereq.
  - cbn [mbind result_bind fst snd]. split; [|split].
    + split; [intros [? H]; discriminate H|]. intros (Hb & Hk & _).
      by rewrite Hb, Hk in Ereq.
    + intros ? H. discriminate H.
    + intros _. eexists. split; [reflexivity|]. split; [discriminate | reflexivity].
  - apply orb_false_iff in Ereq as [Hb Hk]. apply negb_false_iff in Hb, Hk.
    cbn [mbind result_bind].
    destruct (insert_rows py_int py_float table rows) as [t|e] eqn:E;
      cbn [mbind result_bind mret result_ret fst snd].
    + destruct (insert_rows_Ok _ _ _ _ _ E) as (records & -> & Hall).
      split; [|split].
      * split; [|by eexists]. intros _. split; [exact Hb|]. split; [exact Hk|].
        clear E. induction Hall as [|row r rows records Hr _ IH]; constructor;
          [by eapply inserted_insertable | exact IH].
      * intros ? [= <-]. split; [by exists records|]. split; [reflexivity|].
        split; reflexivity.
      * intros H. discriminate H.
    + split; [|split].
      * split; [intros [? H]; discriminate H|]. intros (_ & _ & Hrows).
        destruct (insert_rows_total py_int py_float table rows Hrows) as (recs & Hr).
        congruence.
      * intros ? H. discriminate H.
      * intros _. exists e. split; [reflexivity|]. split; [|reflexivity].
        intros ->. by apply insert_rows_declines in E.
Qed.

(** X14. A record loaded from a row is found by the query that filters on
    the cell the row has under one of the five filter keys, when that cell
    is clean and not empty. *)
Theorem loaded_record_is_found (table : list order) (rows : list Transform.raw_row)
    (table' : list order) (row : Transform.raw_row) (kc : string * column)
    (v : string) (ev : Query.event) :
  load py_int py_float table rows = Ok table' ->
  row ∈ rows -> kc ∈ Query.filter_keys -> row !! kc.1 = Some (Some v) ->
  v ≠ "" -> clean v = true -> Query.Filters ev = {[ kc.1 := v ]} ->
  exists found o,
    Query.fetch_filter table' (Query.sql_query_filters ev) = Ok found /\
    o ∈ found /\ stored_as py_int py_float row o /\ text_of kc.2 o = Some v.
Proof.
  intros Hload Hrow Hkc Hcell Hv Hcv Hf.
  destruct (load_Ok _ _ _ _ _ Hload) as (records & -> & Hall).
  apply list_elem_of_lookup in Hrow as [i Hi].
  destruct (Forall2_lookup_l _ _ _ _ _ Hall Hi) as (o & Ho & Hst).
  assert (text_of kc.2 o = Some v) as Htext.
  { destruct Hst as (H1 & H2 & H3 & H4 & H5 & _).
    unfold Query.filter_keys in Hkc.
    repeat (apply elem_of_cons in Hkc as [->|Hkc]); try (by inversion Hkc);
      simpl in *; congruence. }
  assert (clean_filters (Query.Filters ev)) as Hc.
  { rewrite Hf. rewrite <- insert_empty. apply clean_filters_insert; [|assumption].
    intros ? ? _ Hl. by rewrite lookup_empty in Hl. }
  exists (List.filter (Query.matches (Query.Filters ev)) (table ++ records)), o.
  split; [by apply fetch_filter_generated|]. split; [|split; assumption].
  apply list_elem_of_In, List.filter_In. split.
  - apply list_elem_of_In, elem_of_app. right. by eapply list_elem_of_lookup_2.
  - rewrite Hf, <- insert_empty, (matches_insert _ _ _ _ Hkc Hv), delete_empty.
    rewrite bool_decide_eq_true_2 by assumption. reflexivity.
Qed.

(** X15. Loading does not remove duplicates.  Loading the same rows a
    second time appends the same records again: the table has the same
    distinct Order IDs as after the first load, and the units sold of the
    file are counted twice. *)
Theorem load_twice (table : list order) (rows : list Transform.raw_row)
    (table1 table2 : list order) :
  load py_int py_float table rows = Ok table1 ->
  load py_int py_float table1 rows = Ok table2 ->
  exists records,
    table1 = table ++ records /\
    table2 = table ++ records ++ records /\
    length records = length rows /\
    (list_to_set (OrderID <$> table2) : gset Z) = list_to_set (OrderID <$> table1) /\
    fold_right Z.add 0 (UnitsSold <$> table2) =
      fold_right Z.add 0 (UnitsSold <$> table1) +
      fold_right Z.add 0 (UnitsSold <$> records).
Proof.
  intros H1 H2.
  destruct (load_Ok _ _ _ _ _ H1) as (records & -> & Hall).
  destruct (load_records _ _ _ (table ++ records) _ _ H1) as (records' & Heq & H2').
  apply app_inv_head in Heq. subst records'.
  rewrite H2' in H2. injection H2 as <-.
  exists records. split; [reflexivity|]. split; [by rewrite <- app_assoc|].
  split; [symmetry; by eapply Forall2_length|]. split.
  - rewrite !fmap_app, !list_to_set_app_L. apply set_eq. intros x.
    rewrite !elem_of_union. tauto.
  - rewrite fmap_app. generalize (UnitsSold <$> table ++ records) as xs.
    generalize (UnitsSold <$> records) as ys. intros ys xs.
    induction xs as [|x xs IH]; simpl; [lia|]. rewrite IH. lia.
Qed.

End LoadExtras.

(** * The file written by [transform] *)

Module FilesFacts.
Import Transform Csv Files ResultFacts TransformFacts.

Lemma dict_zip_dom (names row : record) (d : raw_row) :
  dom (foldl (fun d kv => <[kv.1 := Some kv.2]> d) d (zip names row)) =
  dom d ∪ list_to_set (take (length row) names).
Proof.
  revert row d. induction names as [|n names IH]; intros row d.
  - rewrite take_nil. simpl. symmetry. apply union_empty_r_L.
  - destruct row as [|x row]; simpl.
    + symmetry. apply union_empty_r_L.
    + rewrite IH, dom_insert_L. apply set_eq. intros k.
      rewrite !elem_of_union, elem_of_singleton. tauto.
Qed.

Lemma restval_dom (names : record) (d : raw_row) :
  dom (foldl (fun d key => <[key := None]> d) d names) = dom d ∪ list_to_set names.
Proof.
  revert d. induction names as [|n names IH]; intros d; simpl.
  - symmetry. apply union_empty_r_L.
  - rewrite IH, dom_insert_L. apply set_eq. intros k.
    rewrite !elem_of_union, elem_of_singleton. tauto.
Qed.

(** The keys of a row are the field names, whatever the length of the
    record. *)
Lemma dict_row_dom (names row : record) :
  dom (dict_row names row) = list_to_set names.
Proof.
  unfold dict_row, dict_zip. rewrite restval_dom, dict_zip_dom, dom_empty_L.
  rewrite union_empty_l_L, <- list_to_set_app_L, take_drop. reflexivity.
Qed.

Lemma rows_of_dom (names : record) (records : file) (row : raw_row) :
  row ∈ rows_of (names :: records) -> dom row = list_to_set names.
Proof.
  simpl. intros H. apply list_elem_of_fmap in H as (r & -> & _). apply dict_row_dom.
Qed.

Lemma dict_zip_fields (g : string -> string) (names : record) (d : raw_row) k :
  foldl (fun d kv => <[kv.1 := Some kv.2]> d) d (zip names (g <$> names)) !! k =
  if decide (k ∈ names) then Some (Some (g k)) else d !! k.
Proof.
  revert d. induction names as [|n names IH]; intros d; simpl.
  - destruct (decide (k ∈ [])) as [H|_]; [inversion H | reflexivity].
  - rewrite IH. destruct (decide (k ∈ names)) as [Hin|Hnin].
    + rewrite decide_True by (by right). reflexivity.
    + destruct (decide (k = n)) as [->|Hne].
      * rewrite decide_True by left. by rewrite lookup_insert_eq.
      * rewrite lookup_insert_ne by congruence.
        rewrite decide_False; [reflexivity|].
        intros H. apply elem_of_cons in H as [?|?]; contradiction.
Qed.

Section WithFormats.
Variable py_float : string -> option float.
Variable str_float : float -> string.

(** A record written from a row reads back as the fields of the row. *)
Lemma read_written (names : record) (o : out_row) :
  dom o = list_to_set names ->
  dict_row names (row_text str_float names o) = text_row str_float o.
Proof.
  intros Hdom. unfold dict_row, dict_zip, row_text.
  rewrite length_fmap, drop_all. simpl. apply map_eq. intros k.
  rewrite dict_zip_fields. unfold text_row. rewrite lookup_fmap, lookup_empty.
  destruct (decide (k ∈ names)) as [Hin|Hnin].
  - assert (k ∈ dom o) as Hk by (rewrite Hdom; by apply elem_of_list_to_set).
    apply elem_of_dom in Hk as [v ->]. reflexivity.
  - assert (k ∉ dom o) as Hk by (rewrite Hdom; by rewrite elem_of_list_to_set).
    apply not_elem_of_dom in Hk. by rewrite Hk.
Qed.

Lemma enrich_dom (row : raw_row) (o : out_row) :
  enrich py_float row = Ok o ->
  dom o = dom row ∪ list_to_set added.
Proof.
  intros H. apply enrich_Ok in H as (od & os & d1 & d2 & op & sp & sr & tp & tr & H).
  destruct H as (_ & _ & _ & _ & Hop & _ & _ & _ & _ & ->).
  assert ("Order Priority" ∈ dom row) as Hin by (apply elem_of_dom; eauto).
  rewrite !dom_insert_L, dom_fmap_L. unfold added.
  apply set_eq. intros k.
  rewrite !elem_of_union, elem_of_list_to_set, !elem_of_cons, !elem_of_singleton.
  split.
  - intros [->|[->|[->|?]]]; auto.
  - intros [?|[->|[->|H]]]; auto. inversion H.
Qed.

(** The keys of an emitted row are the names of the file written. *)
Lemma emitted_dom (names : record) (records : file) (out : list out_row) (o : out_row) :
  transform py_float (rows_of (names :: records)) = Ok out -> o ∈ out ->
  dom o = list_to_set (names ++ added).
Proof.
  intros H Ho. destruct (transform_Ok _ _ _ H) as (seen & Hfe).
  destruct (for_each_emitted _ _ _ _ Hfe) as (new & Hnew & Hall).
  simpl in Hnew. subst new. destruct (Hall o Ho) as (row & Hrow & Hen).
  rewrite (enrich_dom _ _ Hen), (rows_of_dom _ _ _ Hrow), list_to_set_app_L.
  reflexivity.
Qed.

(** Every flag of the rows appended is the flag of a row read. *)
Lemma appended_elem (seen : gset cell) (rows : list (raw_row * bool)) (b : bool) :
  b ∈ appended seen rows -> b ∈ rows.*2.
Proof.
  revert seen. induction rows as [|[row rest] rows IH]; intros seen H; cbn in H.
  - inversion H.
  - destruct (row !! "Order ID") as [oid|]; [|inversion H].
    rewrite fmap_cons. destruct (decide (oid ∈ seen)).
    + right. by apply (IH seen).
    + apply elem_of_cons in H as [->|H]; [left | right; by eapply IH].
Qed.

(** There is one flag for each row the loop appends. *)
Lemma appended_length (rows : list raw_row) (rests : list bool) (st st' : loop_state) :
  for_each py_float rows st = Ok st' -> length rests = length rows ->
  length st'.2 = (length st.2 + length (appended st.1 (zip rows rests)))%nat.
Proof.
  revert rests st. induction rows as [|row rows IH]; intros rests st H Hlen.
  - simpl in H. injection H as <-. simpl. lia.
  - destruct rests as [|rest rests]; [discriminate|]. simpl in Hlen.
    simpl in H. apply bind_Ok in H as (st1 & Hb & H).
    apply loop_body_Ok in Hb as (oid & Hoid & [[Hin ->]|[Hnin (o & Ho & ->)]]).
    + cbn. rewrite Hoid, decide_True by assumption. apply IH; [assumption | lia].
    + cbn. rewrite Hoid, decide_False by assumption.
      rewrite (IH rests _ H) by lia. cbn. rewrite length_app. simpl. lia.
Qed.

(** A row with the key [None] is appended exactly when a record that is
    the first with its Order ID is long. *)
Lemma appended_true (rows : list raw_row) (rests : list bool) (seen : gset cell) :
  length rests = length rows ->
  (forall row, row ∈ rows -> is_Some (row !! "Order ID")) ->
  true ∈ appended seen (zip rows rests) <->
  exists i row oid,
    rows !! i = Some row /\ row !! "Order ID" = Some oid /\ (oid ∉ seen) /\
    (forall k r, (k < i)%nat -> rows !! k = Some r -> r !! "Order ID" ≠ Some oid) /\
    rests !! i = Some true.
Proof.
  revert rests seen. induction rows as [|row rows IH]; intros rests seen Hlen Hids.
  - simpl. split; [intros H; inversion H|]. intros (i & r & _ & H & _). done.
  - destruct rests as [|rest rests]; [discriminate|]. simpl in Hlen.
    destruct (Hids row) as [oid Hoid]; [left|].
    assert (forall r, r ∈ rows -> is_Some (r !! "Order ID")) as Hids'.
    { intros r Hr. apply Hids. by right. }
    cbn. rewrite Hoid. destruct (decide (oid ∈ seen)) as [Hin|Hnin].
    + rewrite (IH rests seen) by first [lia | assumption]. split.
      * intros (i & r & oid' & Hi & Hr & Hn & Hbefore & Hrest).
        exists (S i), r, oid'. repeat split; try assumption.
        intros [|k] r' Hk Hr'; simpl in Hr'.
        -- injection Hr' as <-. rewrite Hoid. intros [= ->]. contradiction.
        -- apply (Hbefore k r'); [lia | assumption].
      * intros (i & r & oid' & Hi & Hr & Hn & Hbefore & Hrest).
        destruct i as [|i]; simpl in Hi, Hrest.
        -- injection Hi as <-. congruence.
        -- exists i, r, oid'. repeat split; try assumption.
           intros k r' Hk Hr'. apply (Hbefore (S k) r'); [lia | assumption].
    + rewrite elem_of_cons, (IH rests ({[oid]} ∪ seen)) by first [lia | assumption]. split.
      * intros [<-|(i & r & oid' & Hi & Hr & Hn & Hbefore & Hrest)].
        -- exists 0%nat, row, oid. repeat split; try assumption.
           intros k r Hk. lia.
        -- exists (S i), r, oid'. repeat split; try assumption.
           ++ intros Hin. apply Hn, elem_of_union. by right.
           ++ intros [|k] r' Hk Hr'; simpl in Hr'.
              ** injection Hr' as <-. rewrite Hoid. intros [= ->].
                 apply Hn, elem_of_union. left. by apply elem_of_singleton.
              ** apply (Hbefore k r'); [lia | assumption].
      * intros (i & r & oid' & Hi & Hr & Hn & Hbefore & Hrest).
        destruct i as [|i]; simpl in Hi, Hrest.
        -- left. congruence.
        -- right. exists i, r, oid'. repeat split; try assumption.
           ++ intros Hu. apply elem_of_union in Hu as [Hu|Hu]; [|contradiction].
              apply elem_of_singleton in Hu. subst oid'.
              apply (Hbefore 0%nat row); [lia | reflexivity | assumption].
           ++ intros k r' Hk Hr'. apply (Hbefore (S k) r'); [lia | assumption].
Qed.

Lemma existsb_id (l : list bool) : existsb id l = true <-> true ∈ l.
Proof.
  rewrite existsb_exists. split.
  - intros (b & Hin & Hb). unfold id in Hb. subst b. by apply list_elem_of_In.
  - intros H. exists true. split; [by apply list_elem_of_In | reflexivity].
Qed.

Lemma rests_length (f : file) : length (rests_of f) = length (rows_of f).
Proof. destruct f as [|names records]; [reflexivity|]. simpl. by rewrite !length_fmap. Qed.

Lemma dict_to_list_names (names : record) (o : out_row) (b : bool) :
  dom o = list_to_set names ->
  dict_to_list str_float names (o, b) =
  if b then Raise (ValueError "dict contains fields not in fieldnames: None")
  else Ok (row_text str_float names o).
Proof.
  intros Hdom. unfold dict_to_list. cbn [fst snd].
  destruct (decide (dom o ⊆ list_to_set names)) as [_|Hn]; [reflexivity|].
  exfalso. apply Hn. by rewrite Hdom.
Qed.

(** The writer on rows whose keys are all names: it refuses the first one
    that has the key [None]. *)
Lemma write_rows (names : record) (out : list out_row) (flags : list bool) :
  length flags = length out ->
  (forall o, o ∈ out -> dom o = list_to_set names) ->
  mapM (dict_to_list str_float names) (zip out flags) =
  if existsb id flags
  then Raise (ValueError "dict contains fields not in fieldnames: None")
  else Ok (row_text str_float names <$> out).
Proof.
  revert flags. induction out as [|o out IH]; intros flags Hlen Hdom.
  - destruct flags; [reflexivity | discriminate].
  - destruct flags as [|b flags]; [discriminate|]. simpl in Hlen.
    change (mapM (dict_to_list str_float names) (zip (o :: out) (b :: flags)))
      with (y ← dict_to_list str_float names (o, b);
            k ← mapM (dict_to_list str_float names) (zip out flags); mret (y :: k)).
    rewrite (dict_to_list_names names o b) by (apply Hdom; left).
    destruct b; [reflexivity|]. cbn [mbind result_bind existsb id orb].
    rewrite IH; [|lia|intros o' Ho'; apply Hdom; by right].
    unfold id. destruct (existsb (fun x => x) flags); reflexivity.
Qed.

(** [transform] on a file: the exception of the loop, or that of the
    reader asked for the names of a file without records, or that of the
    writer on a row with the key [None], or the file written. *)
Lemma transform_file_eq (f : file) :
  transform_file py_float str_float f =
  (out ← transform py_float (rows_of f);
   match fieldnames f with
   | None => Raise (ValueError "I/O operation on closed file.")
   | Some names =>
       if existsb id (appended ∅ (zip (rows_of f) (rests_of f)))
       then Raise (ValueError "dict contains fields not in fieldnames: None")
       else Ok ((names ++ added) :: (row_text str_float (names ++ added) <$> out))
   end).
Proof.
  unfold transform_file.
  destruct (transform py_float (rows_of f)) as [out|e] eqn:E; [|reflexivity].
  cbn [mbind result_bind].
  destruct f as [|names records]; [reflexivity|]. cbn [fieldnames head].
  rewrite write_rows.
  - destruct (existsb id _); reflexivity.
  - destruct (transform_Ok _ _ _ E) as (seen & Hfe).
    pose proof (appended_length _ (rests_of (names :: records)) _ _ Hfe
                  (rests_length _)) as Hlen.
    cbn [fst snd length Nat.add] in Hlen. symmetry. exact Hlen.
  - intros o Ho. by apply (emitted_dom _ _ _ _ E).
Qed.

Lemma transform_file_Ok (f g : file) :
  transform_file py_float str_float f = Ok g ->
  exists names records out,
    f = names :: records /\
    existsb id (appended ∅ (zip (rows_of f) (rests_of f))) = false /\
    transform py_float (rows_of f) = Ok out /\
    g = (names ++ added) :: (row_text str_float (names ++ added) <$> out).
Proof.
  rewrite transform_file_eq. intros H. apply bind_Ok in H as (out & Hout & H).
  destruct f as [|names records]; [discriminate|]. cbn [fieldnames head] in H.
  destruct (existsb id _) eqn:Hflags; [discriminate|]. injection H as <-.
  exists names, records, out. auto.
Qed.

Lemma filter_all_true {A} (P : A -> bool) (l : list A) :
  (forall x, x ∈ l -> P x = true) -> List.filter P l = l.
Proof.
  induction l as [|x l IH]; intros H; [reflexivity|]. simpl.
  rewrite (H x) by left. f_equal. apply IH. intros y Hy. apply H. by right.
Qed.

(** The rows a reader makes of the file written are the emitted rows, as
    text. *)
Lemma written_rows (names : record) (records : file) (out : list out_row) :
  transform py_float (rows_of (names :: records)) = Ok out ->
  rows_of ((names ++ added) :: (row_text str_float (names ++ added) <$> out)) =
  text_row str_float <$> out.
Proof.
  intros H. unfold rows_of at 1.
  rewrite filter_all_true.
  - rewrite <- list_fmap_compose. apply list_fmap_ext.
    + intros i o Ho. simpl. apply read_written.
      apply (emitted_dom _ _ _ _ H). by eapply list_elem_of_lookup_2.
  - intros r Hr. apply list_elem_of_fmap in Hr as (o & -> & _).
    unfold row_text, added. rewrite fmap_app. 
    destruct (_ <$> names); reflexivity.
Qed.

End WithFormats.
End FilesFacts.

Section FileExtras.
Import Transform Csv Files ResultFacts TransformFacts FilesFacts.
Variable py_int : string -> option Z.
Variable py_float : string -> option float.
Variable str_float : float -> string.

Lemma enrich_intro (row : raw_row) od os d1 d2 op sp sr tp tr :
  row !! "Order Date" = Some (Some od) -> Date.strptime od = Ok d1 ->
  row !! "Ship Date" = Some (Some os) -> Date.strptime os = Ok d2 ->
  row !! "Order Priority" = Some op ->
  row !! "Total Profit" = Some (Some sp) -> py_float sp = Some tp ->
  row !! "Total Revenue" = Some (Some sr) -> py_float sr = Some tr ->
  enrich py_float row =
  Ok (<["Gross Margin" :=
         if PrimFloat.eqb tr 0%float then VInt 0 else VFloat (PrimFloat.div tp tr)]>
      (<["Order Priority" := VStr (priority op)]>
      (<["Order Processing Time" := VInt (Date.days_between d1 d2)]>
      (of_cell <$> row)))).
Proof.
  intros Hod Hd1 Hos Hd2 Hop Hsp Htp Hsr Htr.
  unfold enrich, getitem, strptime_cell, float_cell.
  rewrite Hod. cbn [mbind result_bind]. rewrite Hd1. cbn [mbind result_bind].
  rewrite Hos. cbn [mbind result_bind]. rewrite Hd2. cbn [mbind result_bind].
  rewrite Hop. cbn [mbind result_bind].
  rewrite Hsp. cbn [mbind result_bind]. rewrite Htp. cbn [mbind result_bind].
  rewrite Hsr. cbn [mbind result_bind]. rewrite Htr. cbn [mbind result_bind].
  rewrite gross_margin_spec. reflexivity.
Qed.

(** No name the mapping gives is a code of the mapping. *)
Lemma priority_twice (c : cell) : priority (Some (priority c)) = "Unknown".
Proof.
  destruct c as [code|]; [|reflexivity]. unfold priority at 2.
  destruct (order_priority_mapping !! code) as [name|] eqn:E; [|reflexivity].
  unfold order_priority_mapping in E.
  apply elem_of_list_to_map_2, list_elem_of_In in E. simpl in E.
  destruct E as [E|[E|[E|[E|[]]]]]; injection E as <- <-; reflexivity.
Qed.

Lemma text_row_cell (row : raw_row) (o : out_row) k s :
  enrich py_float row = Ok o ->
  k ≠ "Gross Margin" -> k ≠ "Order Priority" -> k ≠ "Order Processing Time" ->
  row !! k = Some (Some s) -> text_row str_float o !! k = Some (Some s).
Proof.
  intros H H1 H2 H3 Hk. unfold text_row.
  rewrite lookup_fmap, (enrich_other _ _ _ _ H H1 H2 H3), Hk. reflexivity.
Qed.

(** An emitted row, read from the file written, is enriched again, and
    its priority is then unknown. *)
Lemma enrich_again (row : raw_row) (o : out_row) :
  enrich py_float row = Ok o ->
  exists o', enrich py_float (text_row str_float o) = Ok o' /\
             o' !! "Order Priority" = Some (VStr "Unknown").
Proof.
  intros H.
  destruct (enrich_Ok _ _ _ H) as (od & os & d1 & d2 & op & sp & sr & tp & tr & F).
  destruct F as (Hod & Hd1 & Hos & Hd2 & Hop & Hsp & Htp & Hsr & Htr & Ho).
  assert (text_row str_float o !! "Order Priority" = Some (Some (priority op))) as Hop'.
  { unfold text_row. rewrite lookup_fmap. subst o.
    rewrite lookup_insert_ne by discriminate. rewrite lookup_insert_eq. reflexivity. }
  eexists. split.
  - apply (enrich_intro _ od os d1 d2 (Some (priority op)) sp sr tp tr);
      try assumption; by apply (text_row_cell row).
  - rewrite lookup_insert_ne by discriminate. rewrite lookup_insert_eq.
    by rewrite priority_twice.
Qed.

(** No row read from a file that [transform] wrote has the key [None]. *)
Lemma written_flags (names : record) (out : list out_row) :
  let g := names :: (row_text str_float names <$> out) in
  existsb id (appended ∅ (zip (rows_of g) (rests_of g))) = false.
Proof.
  intros g. apply not_true_is_false. intros H. apply existsb_id in H.
  apply appended_elem in H. rewrite snd_zip in H by (by rewrite rests_length).
  unfold g in H. cbn [rests_of] in H.
  apply list_elem_of_fmap in H as (r & Hlong & Hr).
  apply list_elem_of_In, filter_In in Hr as [Hr _]. apply list_elem_of_In in Hr.
  apply list_elem_of_fmap in Hr as (o & -> & _).
  unfold long, row_text in Hlong. rewrite length_fmap, Nat.ltb_irrefl in Hlong.
  discriminate.
Qed.

(** X5. [transform] returns, having written its file, exactly when the
    input file has a first record, every row has the Order ID column, and
    every row that is the first with its Order ID can be enriched and comes
    from a record with no more fields than there are names.  The loop
    alone, lines 86 to 109, ends without exception under the second and
    third condition alone, on any sequence of rows.  What the later rows
    with the same Order ID hold plays no part. *)
Theorem transform_accepts_iff (rows : list raw_row) (f : file) :
  ((exists out, transform py_float rows = Ok out) <->
     (forall row, row ∈ rows -> is_Some (row !! "Order ID")) /\
     (forall i row, Rows.first_at rows i row -> exists o, enrich py_float row = Ok o)) /\
  ((exists g, transform_file py_float str_float f = Ok g) <->
     f ≠ [] /\
     (forall row, row ∈ rows_of f -> is_Some (row !! "Order ID")) /\
     (forall i row, Rows.first_at (rows_of f) i row ->
        (exists o, enrich py_float row = Ok o) /\ rests_of f !! i = Some false)).
Proof.
  split; [apply transform_Ok_iff|]. split.
  - intros [g H].
    destruct (transform_file_Ok _ _ _ _ H) as (names & records & out & Hf & Hflags & Hout & _).
    destruct (proj1 (transform_Ok_iff py_float (rows_of f)) (ex_intro _ out Hout))
      as [Hids Hen].
    split; [by rewrite Hf|]. split; [exact Hids|].
    intros i row Hfirst. split; [by apply (Hen i)|].
    destruct Hfirst as [Hi Hbefore].
    destruct (rests_of f !! i) as [[|]|] eqn:Hrest.
    + exfalso. apply not_true_iff_false in Hflags. apply Hflags, existsb_id.
      apply appended_true; [apply rests_length | exact Hids |].
      destruct (Hids row) as [oid Hoid]; [by eapply list_elem_of_lookup_2|].
      exists i, row, oid. repeat split; try assumption.
      * apply not_elem_of_empty.
      * intros k r Hk Hr. rewrite <- Hoid. by apply (Hbefore k).
    + reflexivity.
    + apply lookup_ge_None in Hrest. apply lookup_lt_Some in Hi.
      rewrite rests_length in Hrest. lia.
  - intros (Hne & Hids & Hfirst).
    destruct (proj2 (transform_Ok_iff py_float (rows_of f))) as [out Hout].
    { split; [exact Hids|]. intros i row Hf. by destruct (Hfirst i row Hf). }
    destruct f as [|names records]; [done|].
    rewrite transform_file_eq, Hout. cbn [mbind result_bind fieldnames head].
    destruct (existsb id _) eqn:Hflags; [|eauto].
    exfalso. apply existsb_id in Hflags.
    apply appended_true in Hflags; [|apply rests_length | exact Hids].
    destruct Hflags as (i & row & oid & Hi & Hoid & _ & Hbefore & Hrest).
    destruct (Hfirst i row) as [_ Hfalse]; [|congruence].
    split; [exact Hi|]. intros k r Hk Hr. rewrite Hoid. by apply (Hbefore k).
Qed.

(** X16. What the writer refuses.  [transform] raises the exception of
    its loop when the loop raises one.  Otherwise, on an empty file it
    raises [ValueError] for reading the names from the file it has closed;
    on a file where a record that is the first with its Order ID has more
    fields than there are names it raises [ValueError] for the key [None]
    of that row; on any other file it writes the names of the input
    followed by the two added names, and one record for each row of the
    loop.  No other row is refused: the keys of a row are names of the
    file written.  Every record written has as many fields as there are
    names, also where the record read was short. *)
Theorem writer_refuses_only_long_rows (f : file) :
  transform_file py_float str_float f =
    (out ← transform py_float (rows_of f);
     match fieldnames f with
     | None => Raise (ValueError "I/O operation on closed file.")
     | Some names =>
         if existsb id (appended ∅ (zip (rows_of f) (rests_of f)))
         then Raise (ValueError "dict contains fields not in fieldnames: None")
         else Ok ((names ++ added) :: (row_text str_float (names ++ added) <$> out))
     end) /\
  ((exists out, transform py_float (rows_of f) = Ok out) ->
   (existsb id (appended ∅ (zip (rows_of f) (rests_of f))) = true <->
    exists i row, Rows.first_at (rows_of f) i row /\ rests_of f !! i = Some true)) /\
  (forall out o, transform py_float (rows_of f) = Ok out -> o ∈ out ->
     exists names, fieldnames f = Some names /\ dom o = list_to_set (names ++ added)) /\
  (forall g, transform_file py_float str_float f = Ok g ->
     exists names, fieldnames f = Some names /\
       Forall (fun r : record => length r = (length names + 2)%nat) g).
Proof.
  split; [apply transform_file_eq|]. split; [|split].
  - intros Hout. apply transform_Ok_iff in Hout as [Hids _].
    rewrite existsb_id, (appended_true _ _ _ (rests_length f) Hids). split.
    + intros (i & row & oid & Hi & Hoid & _ & Hbefore & Hrest).
      exists i, row. split; [|exact Hrest].
      split; [exact Hi|]. intros k r Hk Hr. rewrite Hoid. by apply (Hbefore k).
    + intros (i & row & [Hi Hbefore] & Hrest).
      destruct (Hids row) as [oid Hoid]; [by eapply list_elem_of_lookup_2|].
      exists i, row, oid. repeat split; try assumption.
      * apply not_elem_of_empty.
      * intros k r Hk Hr. rewrite <- Hoid. by apply (Hbefore k).
  - intros out o Hout Ho. destruct f as [|names records].
    + simpl in Hout. injection Hout as <-. inversion Ho.
    + exists names. split; [reflexivity|]. by apply (emitted_dom _ _ _ _ _ Hout).
  - intros g Hg.
    destruct (transform_file_Ok _ _ _ _ Hg) as (names & records & out & -> & _ & _ & ->).
    exists names. split; [reflexivity|].
    constructor; [by rewrite length_app|].
    apply Forall_forall. intros r Hr. apply list_elem_of_fmap in Hr as (o & -> & _).
    unfold row_text. by rewrite length_fmap, length_app.
Qed.

(** X17. [transform] is not idempotent.  The file it wrote is accepted
    when transformed again, the two added names are added once more, and
    every row then has the Order Priority Unknown: no name the mapping
    gives is one of its codes. *)
Theorem transformed_again_unknown (f g : file) :
  transform_file py_float str_float f = Ok g ->
  exists names out2,
    fieldnames g = Some names /\
    transform py_float (rows_of g) = Ok out2 /\
    transform_file py_float str_float g =
      Ok ((names ++ added) :: (row_text str_float (names ++ added) <$> out2)) /\
    Forall (fun o : out_row => o !! "Order Priority" = Some (VStr "Unknown")) out2.
Proof.
  intros H.
  destruct (transform_file_Ok _ _ _ _ H) as (names & records & out & -> & Hlong & Hout & ->).
  pose proof (written_rows _ str_float _ _ _ Hout) as Hrows.
  destruct (transform_Ok _ _ _ Hout) as (seen & Hfe).
  destruct (for_each_emitted _ _ _ _ Hfe) as (new & Hnew & Hall).
  simpl in Hnew. subst new.
  destruct (for_each_seen _ _ _ _ Hfe) as [_ Hids].
  assert (forall row2, row2 ∈ text_row str_float <$> out ->
            is_Some (row2 !! "Order ID") /\
            exists o', enrich py_float row2 = Ok o' /\
                       o' !! "Order Priority" = Some (VStr "Unknown")) as Hrow2.
  { intros row2 Hin. apply list_elem_of_fmap in Hin as (o & -> & Ho).
    destruct (Hall o Ho) as (row & Hrow & Hen). split.
    - destruct (Hids row Hrow) as (oid & Hoid & _).
      unfold text_row. rewrite lookup_fmap, (enrich_order_id _ _ _ Hen), Hoid.
      by eexists.
    - by apply (enrich_again row). }
  destruct (for_each_succeeds py_float (text_row str_float <$> out) (∅, [])) as [st Hst].
  { intros row2 Hin. by apply Hrow2. }
  { intros i row2 oid [Hi _] _ _. destruct (Hrow2 row2) as [_ (o' & Ho' & _)].
    - by eapply list_elem_of_lookup_2.
    - eauto. }
  assert (transform py_float (text_row str_float <$> out) = Ok st.2) as Hout2.
  { unfold transform. by rewrite Hst. }
  exists (names ++ added), st.2. split; [reflexivity|]. rewrite Hrows.
  split; [exact Hout2|]. split.
  - rewrite transform_file_eq, (written_flags (names ++ added) out), Hrows, Hout2.
    reflexivity.
  - apply Forall_forall. intros o' Ho'.
    destruct (for_each_emitted _ _ _ _ Hst) as (new & Hnew & Hall2).
    simpl in Hnew. subst new. destruct (Hall2 o' Ho') as (row2 & Hin & Hen2).
    destruct (Hrow2 row2 Hin) as [_ (o'' & Hen'' & Hunk)]. congruence.
Qed.

(** X18. Load after Transform.  When the file written by [transform] is
    loaded, the table gets one record for each emitted row, in order; the
    record holds the fields of the row and, where the numbers written read
    back as they were, the Order Processing Time and the Gross Margin that
    [transform] computed and the Order Priority it mapped. *)
Theorem load_after_transform (f g : file) (out : list out_row)
    (table table' : list Store.order) :
  transform_file py_float str_float f = Ok g ->
  transform py_float (rows_of f) = Ok out ->
  Forall (reads_back py_int py_float str_float) out ->
  Load.load py_int py_float table (rows_of g) = Ok table' ->
  exists records,
    table' = table ++ records /\
    Forall2 (loaded_as py_int py_float str_float) out records.
Proof.
  intros H Hout Hback Hload.
  destruct (transform_file_Ok _ _ _ _ H) as (names & records & out' & -> & Hlong & Hout' & ->).
  assert (out' = out) as -> by congruence.
  rewrite (written_rows _ str_float _ _ _ Hout) in Hload.
  destruct (LoadFacts.load_Ok _ _ _ _ _ Hload) as (recs & -> & Hst).
  exists recs. split; [reflexivity|].
  apply (proj1 (Forall2_fmap_l _ _ _ _)) in Hst.
  destruct (transform_Ok _ _ _ Hout) as (seen & Hfe).
  destruct (for_each_emitted _ _ _ _ Hfe) as (new & Hnew & Hall).
  simpl in Hnew. subst new.
  assert (Forall (fun o => reads_back py_int py_float str_float o /\
                           exists row, enrich py_float row = Ok o) out) as Hfacts.
  { apply Forall_forall. intros o Ho. split.
    - by apply (proj1 (Forall_forall _ _) Hback).
    - destruct (Hall o Ho) as (row & _ & Hen). eauto. }
  clear Hall Hback Hfe Hout Hout' H Hload.
  revert Hfacts.
  induction Hst as [|o r out0 recs0 Hor Hst IH]; intros Hfacts; [constructor|].
  inversion Hfacts as [|? ? [Hrb (row & Hen)] Hrest]; subst.
  unfold compose in Hor.
  constructor; [|by apply IH].
  destruct (enrich_Ok _ _ _ Hen) as (od & os & d1 & d2 & op & sp & sr & tp & tr & F).
  destruct F as (_ & _ & _ & _ & _ & _ & _ & _ & _ & Ho).
  assert (o !! "Order Processing Time" = Some (VInt (Date.days_between d1 d2))) as Hopt.
  { subst o. rewrite !lookup_insert_ne by discriminate. by rewrite lookup_insert_eq. }
  assert (o !! "Order Priority" = Some (VStr (priority op))) as Hop.
  { subst o. rewrite lookup_insert_ne by discriminate. by rewrite lookup_insert_eq. }
  assert (o !! "Gross Margin" =
          Some (if PrimFloat.eqb tr 0%float then VInt 0
                else VFloat (PrimFloat.div tp tr))) as Hgm.
  { subst o. by rewrite lookup_insert_eq. }
  clear Ho.
  pose proof Hor as Hor'.
  destruct Hor' as (_ & _ & _ & _ & Sop & _ & _ & _ & _ & Sopt & _ & _ & _ & _ & _ & Sgm).
  destruct Sopt as (s1 & Hs1 & Hint). destruct Sgm as (s2 & x2 & Hs2 & Hfl & Hy).
  unfold text_row in Sop, Hs1, Hs2. rewrite lookup_fmap in Sop, Hs1, Hs2.
  destruct Hrb as (Rint & Rfloat & Rzero).
  split; [exact Hor|].
  rewrite Hopt in Hs1. rewrite Hop in Sop. simpl in Sop, Hs1.
  injection Hs1 as <-. injection Sop as Sop.
  rewrite (Rint _ Hopt) in Hint. injection Hint as Hint.
  split; [by rewrite Hopt, Hint|]. split; [by rewrite Hop, Sop|].
  rewrite Hgm in Hs2 |- *.
  destruct (PrimFloat.eqb tr 0%float) eqn:Ez; rewrite ?Ez in *; simpl in Hs2;
    injection Hs2 as <-.
  - right. split; [reflexivity|].
    change (str_int 0) with "0" in Hfl. rewrite (Rzero Hgm) in Hfl.
    injection Hfl as <-. exact Hy.
  - left. rewrite (Rfloat _ Hgm) in Hfl. injection Hfl as <-. eauto.
Qed.

End FileExtras.

(** * The further properties at concrete inputs *)

Section ExtraWitnesses.
Import Store Sql Generated Requests Rows SampleMore HandlerFacts.

Lemma transform_order_and_count_witness :
  Transform.transform Transform.float_of_digits Sample.rows = Ok Sample.out /\
  length Sample.out = size (list_to_set (order_ids Sample.rows) : gset cell) /\
  (length Sample.out <= length Sample.rows)%nat.
Proof.
  assert (Transform.transform Transform.float_of_digits Sample.rows = Ok Sample.out) as H
    by vm_refl.
  split; [exact H|].
  exact (proj2 (transform_order_and_count Transform.float_of_digits _ _ H)).
Defined.

Lemma emitted_row_keeps_columns_witness :
  Transform.transform Transform.float_of_digits Sample.rows = Ok Sample.out /\
  Sample.out_b ∈ Sample.out /\
  exists row,
    row ∈ Sample.rows /\
    dom Sample.out_b = dom row ∪ assigned /\
    (forall k, k ∉ assigned -> Sample.out_b !! k = of_cell <$> row !! k).
Proof.
  assert (Transform.transform Transform.float_of_digits Sample.rows = Ok Sample.out) as H
    by vm_refl.
  assert (Sample.out_b ∈ Sample.out) as Hin by (right; left).
  split; [exact H|]. split; [exact Hin|].
  exact (emitted_row_keeps_columns Transform.float_of_digits _ _ _ H Hin).
Defined.

Lemma transform_app_witness :
  Transform.transform Transform.float_of_digits [Sample.row_a; Sample.row_b] =
    Ok Sample.out /\
  Transform.transform Transform.float_of_digits
    ([Sample.row_a; Sample.row_b] ++ [Sample.row_c; row_new_bad_date]) =
  (out2 ← Transform.transform Transform.float_of_digits
            (List.filter (unseen [Sample.row_a; Sample.row_b])
               [Sample.row_c; row_new_bad_date]);
   mret (Sample.out ++ out2)).
Proof.
  assert (Transform.transform Transform.float_of_digits [Sample.row_a; Sample.row_b] =
          Ok Sample.out) as H by vm_refl.
  split; [exact H|].
  exact (transform_app Transform.float_of_digits _ _ _ H).
Defined.

Lemma transform_first_failure_witness :
  Transform.transform Transform.float_of_digits [Sample.row_a; Sample.row_b] =
    Ok Sample.out /\
  Transform.enrich Transform.float_of_digits row_new_bad_date =
    Raise (ValueError "time data '13/1/2020' does not match format '%m/%d/%Y'") /\
  Transform.transform Transform.float_of_digits
    ([Sample.row_a; Sample.row_b] ++ row_new_bad_date :: [Sample.row_c]) =
    Raise (ValueError "time data '13/1/2020' does not match format '%m/%d/%Y'").
Proof.
  assert (Transform.transform Transform.float_of_digits [Sample.row_a; Sample.row_b] =
          Ok Sample.out) as H by vm_refl.
  assert (Transform.enrich Transform.float_of_digits row_new_bad_date =
          Raise (ValueError "time data '13/1/2020' does not match format '%m/%d/%Y'")) as He by vm_refl.
  split; [exact H|]. split; [exact He|].
  refine (proj2 (transform_first_failure Transform.float_of_digits _ [Sample.row_c]
                   row_new_bad_date _ H) (Some "102") _ _ _ He).
  - vm_refl.
  - intros Hin. apply list_elem_of_In in Hin. vm_compute in Hin.
    intuition discriminate.
Defined.

Lemma later_duplicate_never_parsed_witness :
  Sample.row_a ∈ [Sample.row_a; Sample.row_b] /\
  Sample.row_a !! "Order ID" = row_bad_date !! "Order ID" /\
  Transform.transform Transform.float_of_digits
    ([Sample.row_a; Sample.row_b] ++ row_bad_date :: []) =
  Transform.transform Transform.float_of_digits ([Sample.row_a; Sample.row_b] ++ []).
Proof.
  assert (Sample.row_a ∈ [Sample.row_a; Sample.row_b]) as Hin by left.
  assert (Sample.row_a !! "Order ID" = row_bad_date !! "Order ID") as Hid by vm_refl.
  split; [exact Hin|]. split; [exact Hid|].
  exact (later_duplicate_never_parsed Transform.float_of_digits _ [] _ _ Hin Hid).
Defined.

Lemma days_between_sign_witness :
  Date.valid (Date.mkdate 2020 2 28) = true /\
  Date.valid (Date.mkdate 2020 3 1) = true /\
  (0 < Date.days_between (Date.mkdate 2020 2 28) (Date.mkdate 2020 3 1) <->
   Date.precedes (Date.mkdate 2020 2 28) (Date.mkdate 2020 3 1)).
Proof.
  split; [reflexivity|]. split; [reflexivity|].
  exact (proj1 (days_between_sign (Date.mkdate 2020 2 28) (Date.mkdate 2020 3 1)
                  eq_refl eq_refl)).
Defined.

Lemma missing_parameter_response_witness :
  let ev := Query.mkevent (Some "bucket") (Some "") ∅ ["Region"] in
  Query.lambda_handler SampleDb.plain SampleDb.db ev =
    Ok (Query.error_response (ValueError "Both 'bucket_name' and 'key' are required.")).
Proof.
  cbv zeta.
  exact (missing_parameter_response SampleDb.plain SampleDb.db
           (Query.mkevent (Some "bucket") (Some "") ∅ ["Region"]) (or_intror eq_refl)).
Defined.

Lemma no_filter_selects_all_witness :
  let ev := SampleDb.request [("Region", ""); ("Discount", "10%")] [] in
  no_filter (Query.Filters ev) /\
  Query.fetch_filter SampleDb.db (Query.sql_query_filters ev) = Ok SampleDb.db.
Proof.
  cbv zeta.
  assert (no_filter (Query.Filters
            (SampleDb.request [("Region", ""); ("Discount", "10%")] []))) as Hno.
  { intros kc Hkc. unfold Query.filter_keys in Hkc.
    repeat (apply elem_of_cons in Hkc as [->|Hkc]); try (by inversion Hkc); vm_refl. }
  split; [exact Hno|].
  exact (proj1 (proj2 (no_filter_selects_all SampleDb.plain SampleDb.db _ Hno))).
Defined.

Lemma filters_are_conjoined_witness :
  let ev := SampleDb.request [("Sales Channel", "Online")] [] in
  clean_filters (Query.Filters ev) /\
  exists others,
    Query.fetch_filter SampleDb.db
      (Query.sql_query_filters (with_filters ev (delete "Region" (Query.Filters ev)))) =
      Ok others /\
    Query.fetch_filter SampleDb.db
      (Query.sql_query_filters (with_filters ev (<["Region" := "Asia"]> (Query.Filters ev)))) =
      Ok (List.filter (fun o => bool_decide (text_of CRegion o = Some "Asia")) others).
Proof.
  cbv zeta.
  assert (clean_filters (Query.Filters (SampleDb.request [("Sales Channel", "Online")] [])))
    as Hc by (apply clean_filtersb_true; vm_refl).
  split; [exact Hc|].
  refine (filters_are_conjoined SampleDb.db _ ("Region", CRegion) "Asia" _ _ _ Hc).
  - left.
  - discriminate.
  - reflexivity.
Defined.

Lemma ungrouped_statistics_witness :
  let ev := SampleDb.request [("Sales Channel", "Online")] [] in
  clean_filters (Query.Filters ev) /\ units_fit SampleDb.db /\
  exists aggs,
    Query.lambda_handler SampleDb.plain SampleDb.db ev = Ok (success_response aggs).
Proof.
  cbv zeta.
  assert (clean_filters (Query.Filters (SampleDb.request [("Sales Channel", "Online")] [])))
    as Hc by (apply clean_filtersb_true; vm_refl).
  assert (units_fit SampleDb.db) as Hfit.
  { split; [repeat constructor; simpl; lia | vm_compute; discriminate]. }
  split; [exact Hc|]. split; [exact Hfit|].
  destruct (ungrouped_statistics SampleDb.plain SampleDb.db
              (SampleDb.request [("Sales Channel", "Online")] [])
              eq_refl eq_refl Hc eq_refl Hfit) as (aggs & Hr & _).
  exists aggs. exact Hr.
Defined.

Lemma odd_quotes_never_succeed_witness :
  let ev := SampleDb.request [("Country", "Cote d'Ivoire"); ("Region", "Asia")] [] in
  plain_filters (Query.Filters ev) /\
  Nat.odd (value_quotes (Query.Filters ev)) = true /\
  Query.fetch_filter SampleDb.db (Query.sql_query_filters ev) = Raise SqlError /\
  Query.lambda_handler SampleDb.plain SampleDb.db ev = Ok (Query.error_response SqlError).
Proof.
  cbv zeta.
  assert (plain_filters
            (Query.Filters
               (SampleDb.request [("Country", "Cote d'Ivoire"); ("Region", "Asia")] [])))
    as Hp.
  { intros kc v Hkc. unfold Query.filter_keys in Hkc.
    repeat (apply elem_of_cons in Hkc as [->|Hkc]); try (by inversion Hkc);
      intros Hv; vm_compute in Hv; try discriminate; injection Hv as <-; reflexivity. }
  assert (Nat.odd (value_quotes
            (Query.Filters
               (SampleDb.request [("Country", "Cote d'Ivoire"); ("Region", "Asia")] [])))
          = true) as Hodd by vm_refl.
  destruct (odd_quotes_never_succeed SampleDb.plain SampleDb.db _ Hp Hodd)
    as (Hf & e & Hr & He).
  split; [exact Hp|]. split; [exact Hodd|]. split; [exact Hf|].
  rewrite Hr, (He eq_refl eq_refl). reflexivity.
Defined.

Lemma load_appends_records_witness :
  let table := [Load.of_order SampleDb.asia] in
  let out := Load.lambda_handler int_of_digits float_of_sample table file_null load_event in
  out = (Some (table ++ records_null), Load.uploaded_response load_event) /\
  Load.lambda_handler int_of_digits float_of_sample table file_big load_event =
    (None, Load.error_response OverflowError) /\
  (is_Some out.1 <->
     Query.truthy (Load.bucket_name load_event) = true /\
     Query.truthy (Load.key load_event) = true /\
     Forall (Load.insertable int_of_digits float_of_sample) file_null) /\
  (exists recs,
     table ++ records_null = table ++ recs /\
     Forall2 (Load.inserted_as int_of_digits float_of_sample) file_null recs) /\
  out.2 !! "s3_key" = Some (Load.LStr "databases/data.db").
Proof.
  intros table out.
  assert (out = (Some (table ++ records_null), Load.uploaded_response load_event)) as H
    by vm_refl.
  assert (Load.lambda_handler int_of_digits float_of_sample table file_big load_event =
          (None, Load.error_response OverflowError)) as Hbig by vm_refl.
  destruct (load_appends_records int_of_digits float_of_sample table file_null load_event)
    as (H1 & H2 & _).
  fold out in H1, H2.
  destruct (H2 (table ++ records_null)) as (Hrec & _ & _ & Hkey); [by rewrite H|].
  split; [exact H|]. split; [exact Hbig|]. split; [exact H1|]. split; [exact Hrec|].
  exact Hkey.
Defined.

Lemma loaded_record_is_found_witness :
  let ev := SampleDb.request [("Region", "Europe")] [] in
  Load.load int_of_digits Transform.float_of_digits [SampleDb.asia] file =
    Ok ([SampleDb.asia] ++ records) /\
  exists found o,
    Query.fetch_filter ([SampleDb.asia] ++ records) (Query.sql_query_filters ev) =
      Ok found /\
    o ∈ found /\
    Load.stored_as int_of_digits Transform.float_of_digits
      (loadable "Europe" "France" "101" "30") o /\
    text_of CRegion o = Some "Europe".
Proof.
  cbv zeta.
  match goal with |- ?A /\ _ => assert A as H by vm_refl end.
  split; [exact H|].
  refine (loaded_record_is_found int_of_digits Transform.float_of_digits _ _ _
            (loadable "Europe" "France" "101" "30") ("Region", CRegion) "Europe"
            (SampleDb.request [("Region", "Europe")] []) H _ _ _ _ _ _).
  - right; left.
  - left.
  - vm_refl.
  - discriminate.
  - reflexivity.
  - vm_refl.
Defined.

Lemma load_twice_witness :
  Load.load int_of_digits Transform.float_of_digits [] file = Ok records /\
  Load.load int_of_digits Transform.float_of_digits records file =
    Ok (records ++ records) /\
  exists recs,
    records = [] ++ recs /\
    records ++ records = [] ++ recs ++ recs /\
    length recs = length file /\
    (list_to_set (OrderID <$> records ++ records) : gset Z) =
      list_to_set (OrderID <$> records) /\
    fold_right Z.add 0 (UnitsSold <$> records ++ records) =
      fold_right Z.add 0 (UnitsSold <$> records) +
      fold_right Z.add 0 (UnitsSold <$> recs).
Proof.
  assert (Load.load int_of_digits Transform.float_of_digits [] file = Ok records) as H1
    by vm_refl.
  assert (Load.load int_of_digits Transform.float_of_digits records file =
          Ok (records ++ records)) as H2 by vm_refl.
  split; [exact H1|]. split; [exact H2|].
  exact (load_twice int_of_digits Transform.float_of_digits _ _ _ _ H1 H2).
Defined.

End ExtraWitnesses.

Section FileWitnesses.
Import Csv Files SampleFile.

Lemma writer_refuses_only_long_rows_witness :
  transform_file float_of_text str_half input = Ok output /\
  transform_file float_of_text str_half [] =
    Raise (ValueError "I/O operation on closed file.") /\
  transform_file float_of_text str_half input_long =
    Raise (ValueError "dict contains fields not in fieldnames: None") /\
  rests_of input = [false; false; false; true] /\
  exists names,
    fieldnames input = Some names /\
    Forall (fun r : record => length r = (length names + 2)%nat) output.
Proof.
  assert (transform_file float_of_text str_half input = Ok output) as H by vm_refl.
  split; [exact H|]. split; [vm_refl|]. split; [vm_refl|]. split; [reflexivity|].
  exact (proj2 (proj2 (proj2 (writer_refuses_only_long_rows float_of_text str_half input)))
           output H).
Defined.

Lemma transformed_again_unknown_witness :
  transform_file float_of_text str_half input = Ok output /\
  exists names2 out2,
    fieldnames output = Some names2 /\
    Transform.transform float_of_text (rows_of output) = Ok out2 /\
    transform_file float_of_text str_half output =
      Ok ((names2 ++ added) :: (row_text str_half (names2 ++ added) <$> out2)) /\
    Forall (fun o : Transform.out_row => o !! "Order Priority" = Some (VStr "Unknown"))
           out2.
Proof.
  assert (transform_file float_of_text str_half input = Ok output) as H by vm_refl.
  split; [exact H|].
  exact (transformed_again_unknown float_of_text str_half input output H).
Defined.

Lemma load_after_transform_witness :
  transform_file float_of_text str_half input = Ok output /\
  Transform.transform float_of_text (rows_of input) = Ok out /\
  Forall (reads_back SampleMore.int_of_digits float_of_text str_half) out /\
  Load.load SampleMore.int_of_digits float_of_text [] (rows_of output) = Ok loaded /\
  exists recs,
    loaded = [] ++ recs /\
    Forall2 (loaded_as SampleMore.int_of_digits float_of_text str_half) out recs.
Proof.
  assert (transform_file float_of_text str_half input = Ok output) as H by vm_refl.
  assert (Transform.transform float_of_text (rows_of input) = Ok out) as Hout by vm_refl.
  assert (Load.load SampleMore.int_of_digits float_of_text [] (rows_of output) =
          Ok loaded) as Hload by vm_refl.
  assert (Forall (reads_back SampleMore.int_of_digits float_of_text str_half) out)
    as Hback.
  { assert (out_a !! "Order Processing Time" = Some (VInt 4)) as A1 by vm_refl.
    assert (out_a !! "Gross Margin" = Some (VFloat 0.5)) as A2 by vm_refl.
    assert (out_b !! "Order Processing Time" = Some (VInt 3)) as B1 by vm_refl.
    assert (out_b !! "Gross Margin" = Some (VInt 0)) as B2 by vm_refl.
    repeat constructor.
    - intros z Hz. rewrite A1 in Hz. injection Hz as <-. reflexivity.
    - intros x Hx. rewrite A2 in Hx. injection Hx as <-. reflexivity.
    - intros z Hz. rewrite B1 in Hz. injection Hz as <-. reflexivity.
    - intros x Hx. rewrite B2 in Hx. discriminate. }
  split; [exact H|]. split; [exact Hout|]. split; [exact Hback|].
  split; [exact Hload|].
  exact (load_after_transform SampleMore.int_of_digits float_of_text str_half
           input output out [] loaded H Hout Hback Hload).
Defined.

End FileWitnesses.
